(** * Reverse file download: coordinator, agent and blob-store hand-off

    A shallow embedding of the Go sources of the reverse-download demo
    (server/api, server/s3, server/websocket, server/models, client/uploader,
    client/handler, client/websocket, shared/models, shared/auth) and the
    properties of the transfer orchestration, the channel registry, the
    executor and the admission of agents that were checked against it.

    Conventions.  Go's [int], [int64] and [time.Duration] are [Z] with the
    wrap-around of the 64-bit representation written out where the source
    does arithmetic; [/] and [%] are [Z.quot] and [Z.rem]; a Go [map] is a
    [gmap]; a decoded [interface{}] is a [JSON] value whose objects keep
    the order in which [range] visits them; everything the program asks of
    its surroundings (clock, random source, blob-store SDK, sockets, HTTP)
    is an oracle, and every request it makes is appended to a log. *)

From Stdlib Require Import ZArith Lia Ascii.
From stdpp Require Import base gmap list strings sorting.

Set Warnings "-register-all".

Local Open Scope string_scope.
Local Open Scope list_scope.
Local Open Scope Z_scope.

(** ** Go runtime *)

Module Go.

(** Two's-complement wrap-around of a [w]-bit signed integer. *)
Definition wrap (w : Z) (x : Z) : Z := (x + 2 ^ (w - 1)) mod 2 ^ w - 2 ^ (w - 1).
Definition int64 : Z -> Z := wrap 64.
Definition int32 : Z -> Z := wrap 32.

(** How a call ends: a value, an [error], or a run-time panic. *)
Inductive outcome (A : Type) : Type :=
| Returned (a : A)
| Failed (err : string)
| Panicked (why : string).
Arguments Returned {A} a.
Arguments Failed {A} err.
Arguments Panicked {A} why.

(** A decoded [interface{}] (encoding/json).  A number is kept as the
    integer its text denotes (the frames of this program carry no other
    numbers); the decoder holds it as a [float64], so what a type assertion
    to [float64] reads of it is its rounding, [float64] below.  An object
    lists its members in [range] order. *)
Inductive JSON : Type :=
| JNull
| JBool (b : bool)
| JNumber (n : Z)
| JString (s : string)
| JArray (l : list JSON)
| JObject (m : list (string * JSON)).

(** [m[k]] on a decoded object. *)
Fixpoint index (m : list (string * JSON)) (k : string) : option JSON :=
  match m with
  | [] => None
  | (k', v) :: m' => if String.eqb k' k then Some v else index m' k
  end.

(** [v.(string)] with the comma-ok form. *)
Definition as_string (v : option JSON) : option string :=
  match v with Some (JString s) => Some s | _ => None end.

(** [v.(map[string]interface{})] with the comma-ok form. *)
Definition as_object (v : option JSON) : option (list (string * JSON)) :=
  match v with Some (JObject m) => Some m | _ => None end.

Definition is_space (c : ascii) : bool :=
  match Ascii.N_of_ascii c with
  | 32%N | 9%N | 11%N | 12%N | 13%N => true
  | _ => false
  end.

Definition digit_value (c : ascii) : option Z :=
  let n := Z.of_N (Ascii.N_of_ascii c) in
  if (48 <=? n) && (n <=? 57) then Some (n - 48) else None.

Fixpoint skip_space (s : string) : string :=
  match s with
  | String c s' => if is_space c then skip_space s' else s
  | EmptyString => s
  end.

(** The run of digits at the head of [s], most significant first, as a
    value; [None] when the run is empty or holds an underscore (which
    the scanner accepts and [strconv.ParseInt] then refuses). *)
Fixpoint scan_digits (s : string) (seen : bool) (acc : Z) : option Z :=
  match s with
  | String c s' =>
      match digit_value c with
      | Some d => scan_digits s' true (acc * 10 + d)
      | None =>
          if Ascii.eqb c "_"%char then None
          else if seen then Some acc else None
      end
  | EmptyString => if seen then Some acc else None
  end.

(** [fmt.Sscanf(k, "%d", &n)] into an [int]: leading blanks are skipped,
    one sign is accepted, the digits that follow are read and whatever
    comes after them is left unread; a value outside the 64-bit range is
    an error. *)
Definition Sscanf_d (k : string) : option Z :=
  let s := skip_space k in
  let '(neg, body) :=
    match s with
    | String c s' =>
        if Ascii.eqb c "-"%char then (true, s')
        else if Ascii.eqb c "+"%char then (false, s')
        else (false, s)
    | EmptyString => (false, s)
    end in
  match scan_digits body false 0 with
  | Some v =>
      let n := if neg then - v else v in
      if (- 2 ^ 63 <=? n) && (n <? 2 ^ 63) then Some n else None
  | None => None
  end.

(** The [float64] nearest to the integer [n], as the integer it is: [n]
    itself up to [2 ^ 53] in magnitude, and beyond that [n] rounded to 53
    significant bits, ties to the even mantissa ([strconv.ParseFloat]).
    Texts beyond the range of [float64] are refused by the decoder and do
    not reach the program. *)
Definition float64 (n : Z) : Z :=
  let a := Z.abs n in
  if a <? 2 ^ 53 then n
  else
    let e := Z.log2 a - 52 in
    let q := a / 2 ^ e in
    let r := a mod 2 ^ e in
    let half := 2 ^ (e - 1) in
    let m := if (half <? r) || ((r =? half) && Z.odd q) then q + 1 else q in
    Z.sgn n * (m * 2 ^ e).

(** [int64(f)] and [int(f)] for a [float64] of integral value.  Outside
    the 64-bit range the language leaves the result to the machine; this
    is what amd64 gives. *)
Definition int64_of_float64 (f : Z) : Z :=
  if (- 2 ^ 63 <=? f) && (f <? 2 ^ 63) then f else - 2 ^ 63.

Definition hex_digit (n : N) : ascii :=
  match String.get (N.to_nat n) "0123456789abcdef" with
  | Some c => c
  | None => "0"%char
  end.

(** [hex.EncodeToString]. *)
Fixpoint hex_EncodeToString (bs : list Byte.byte) : string :=
  match bs with
  | [] => ""
  | b :: bs' =>
      let n := Byte.to_N b in
      String (hex_digit (n / 16)) (String (hex_digit (n mod 16)) (hex_EncodeToString bs'))
  end.

(** [strings.HasPrefix] and [strings.TrimPrefix] in one: what is left of
    [s] after the prefix [p], when [s] starts with it. *)
Fixpoint after_prefix (p s : string) : option string :=
  match p, s with
  | EmptyString, _ => Some s
  | String a p', String b s' => if Ascii.eqb a b then after_prefix p' s' else None
  | String _ _, EmptyString => None
  end.

(** [sort.Slice] with the comparison [less]: insertion into an ordered
    prefix.  The library promises an ordered permutation and no
    stability; the callers here sort on keys that are pairwise
    different, where every such algorithm returns this list. *)
Section Sort.
Context {A : Type} (less : A -> A -> bool).

Fixpoint sort_insert (x : A) (l : list A) : list A :=
  match l with
  | [] => [x]
  | y :: l' => if less y x then y :: sort_insert x l' else x :: l
  end.

Fixpoint sort_Slice (l : list A) : list A :=
  match l with
  | [] => []
  | x :: l' => sort_insert x (sort_Slice l')
  end.
End Sort.

End Go.

Export Go (outcome, Returned, Failed, Panicked, JSON, JNull, JBool, JNumber, JString, JArray, JObject).

(** ** shared/models: the wire protocol *)

Module sharedModels.

Definition MessageTypeCommand : string := "command".
Definition MessageTypeResponse : string := "response".
Definition MessageTypeStatus : string := "status".
Definition MessageTypePing : string := "ping".
Definition MessageTypePong : string := "pong".

Definition CommandActionDownloadFile : string := "download_file".
Definition CommandActionCancelUpload : string := "cancel_upload".
Definition CommandActionHealthCheck : string := "health_check".

Definition ResponseStatusSuccess : string := "success".
Definition ResponseStatusError : string := "error".
Definition ResponseStatusInProgress : string := "in_progress".
Definition ResponseStatusCancelled : string := "cancelled".

Module PresignedURL.
Record t : Type := mk { PartNumber : Z; URL : string }.
End PresignedURL.

Module UploadConfig.
Record t : Type := mk {
  UploadID : string;
  Bucket : string;
  Key : string;
  Region : string;
  ChunkSize : Z;
  PresignedURLs : list PresignedURL.t
}.
End UploadConfig.

Module DownloadFilePayload.
Record t : Type := mk {
  FilePath : string;
  Config : UploadConfig.t;
  Metadata : gmap string string
}.
End DownloadFilePayload.

(** The agent's report of a finished upload (its two time stamps are
    left out: nothing reads them). *)
Module DownloadFileResponse.
Record t : Type := mk {
  UploadID : string;
  FilePath : string;
  FileSize : Z;
  TotalParts : Z;
  CompletedParts : Z;
  S3Key : string
}.
End DownloadFileResponse.

(** What an [interface{}] payload field holds: nothing, the struct the
    coordinator builds for a command, the struct the agent builds for a
    report, or a [map[string]interface{}] and the like, as written in the
    program or produced by the JSON decoder. *)
Inductive any : Type :=
| Nil
| Built (p : DownloadFilePayload.t)
| Report (r : DownloadFileResponse.t)
| Decoded (j : JSON).

Module CommandMessage.
Record t : Type := mk {
  Type_ : string;
  Timestamp : Z;
  MessageID : string;
  Action : string;
  Payload : any
}.
End CommandMessage.

Module ResponseMessage.
Record t : Type := mk {
  MessageID : string;
  Status : string;
  CommandID : string;
  Action : string;
  Payload : any;
  Error : string
}.
End ResponseMessage.

(** The progress snapshot of a status frame ([Progress] and the two
    time stamps are carried but never read by the coordinator). *)
Module UploadStatus.
Record t : Type := mk {
  UploadID : string;
  FilePath : string;
  FileSize : Z;
  TotalParts : Z;
  CompletedParts : Z;
  BytesUploaded : Z
}.
End UploadStatus.

Module StatusMessage.
Record t : Type := mk {
  ClientID : string;
  Status : string;
  CurrentUpload : option UploadStatus.t
}.
End StatusMessage.

(** What the agent's decoder makes of a presigned URL entry, of an upload
    configuration and of a [download_file] payload sent as JSON. *)
Definition wire_PresignedURL (u : PresignedURL.t) : JSON :=
  JObject [("part_number", JNumber (PresignedURL.PartNumber u));
           ("url", JString (PresignedURL.URL u))].

Definition wire_UploadConfig (c : UploadConfig.t) : JSON :=
  JObject [("upload_id", JString (UploadConfig.UploadID c));
           ("bucket", JString (UploadConfig.Bucket c));
           ("key", JString (UploadConfig.Key c));
           ("region", JString (UploadConfig.Region c));
           ("chunk_size", JNumber (UploadConfig.ChunkSize c));
           ("presigned_urls", JArray (wire_PresignedURL <$> UploadConfig.PresignedURLs c))].

Definition wire_Metadata (m : gmap string string) : list (string * JSON) :=
  if decide (m = ∅) then []
  else [("metadata", JObject (prod_map id JString <$> map_to_list m))].

Definition wire_DownloadFilePayload (p : DownloadFilePayload.t) : JSON :=
  JObject ([("file_path", JString (DownloadFilePayload.FilePath p));
            ("upload_config", wire_UploadConfig (DownloadFilePayload.Config p))]
           ++ wire_Metadata (DownloadFilePayload.Metadata p)).

(** A payload after [WriteJSON] on one side and [json.Unmarshal] into an
    [interface{}] on the other. *)
Definition wire_DownloadFileResponse (r : DownloadFileResponse.t) : JSON :=
  JObject ([("upload_id", JString (DownloadFileResponse.UploadID r));
            ("file_path", JString (DownloadFileResponse.FilePath r));
            ("file_size", JNumber (DownloadFileResponse.FileSize r));
            ("total_parts", JNumber (DownloadFileResponse.TotalParts r));
            ("completed_parts", JNumber (DownloadFileResponse.CompletedParts r))]
           ++ (if String.eqb (DownloadFileResponse.S3Key r) "" then []
               else [("s3_key", JString (DownloadFileResponse.S3Key r))])).

Definition wire (p : any) : any :=
  match p with
  | Nil => Decoded JNull
  | Built b => Decoded (wire_DownloadFilePayload b)
  | Report r => Decoded (wire_DownloadFileResponse r)
  | Decoded j => Decoded j
  end.

(** A command frame as the agent decodes it. *)
Definition receive (cmd : CommandMessage.t) : CommandMessage.t :=
  CommandMessage.mk (CommandMessage.Type_ cmd) (CommandMessage.Timestamp cmd)
    (CommandMessage.MessageID cmd) (CommandMessage.Action cmd)
    (wire (CommandMessage.Payload cmd)).

End sharedModels.

(** ** server/s3: the blob-store client *)

Module s3.

(** The requests the AWS SDK is asked to make, named after its input
    structs ([UploadPartInput] is the one handed to the presigner).  Part
    numbers are the 32-bit values the SDK's types carry. *)
Inductive Request : Type :=
| CreateMultipartUploadInput (bucket key : string) (metadata : gmap string string)
| UploadPartInput (bucket key uploadID : string) (partNumber : Z) (expires : Z)
| CompleteMultipartUploadInput (bucket key uploadID : string) (parts : list (Z * string))
| AbortMultipartUploadInput (bucket key uploadID : string).

(** The SDK and the store behind it: given the requests made so far and
    the next one, an answer (the session id of a new session, a presigned
    URL, nothing for the others) or an error text. *)
Definition SDK : Type := list Request -> Request -> string + string.

Module Client.
Record t : Type := mk {
  bucket : string;
  region : string;
  presignedURLExpiry : Z
}.
End Client.

Module MultipartUploadConfig.
Record t : Type := mk {
  Key : string;
  FileSize : Z;
  ChunkSize : Z;
  Metadata : gmap string string
}.
End MultipartUploadConfig.

Module PresignedURL.
Record t : Type := mk { PartNumber : Z; URL : string }.
End PresignedURL.

Module CompletedPart.
Record t : Type := mk { PartNumber : Z; ETag : string }.
End CompletedPart.

Module MultipartUpload.
Record t : Type := mk {
  UploadID : string;
  Bucket : string;
  Key : string;
  TotalParts : Z;
  ChunkSize : Z;
  PresignedURLs : list PresignedURL.t
}.
End MultipartUpload.

(** One SDK call: the request is logged, the answer comes back. *)
Definition call (sdk : SDK) (log : list Request) (r : Request) : (string + string) * list Request :=
  (sdk log r, log ++ [r]).

(** [Client.AbortMultipartUpload]. *)
Definition AbortMultipartUpload (sdk : SDK) (c : Client.t) (log : list Request)
    (key uploadID : string) : option string * list Request :=
  let '(answer, log) := call sdk log (AbortMultipartUploadInput (Client.bucket c) key uploadID) in
  match answer with
  | inr err => (Some ("failed to abort multipart upload: " +:+ err), log)
  | inl _ => (None, log)
  end.

(** A part as the SDK's [types.CompletedPart]: the number is narrowed to
    32 bits. *)
Definition narrowed (part : CompletedPart.t) : Z * string :=
  (Go.int32 (CompletedPart.PartNumber part), CompletedPart.ETag part).

(** [Client.CompleteMultipartUpload]: each part is converted to the SDK's
    type, in the order of the slice. *)
Definition CompleteMultipartUpload (sdk : SDK) (c : Client.t) (log : list Request)
    (key uploadID : string) (parts : list CompletedPart.t) : option string * list Request :=
  let completedParts := narrowed <$> parts in
  let '(answer, log) :=
    call sdk log (CompleteMultipartUploadInput (Client.bucket c) key uploadID completedParts) in
  match answer with
  | inr err => (Some ("failed to complete multipart upload: " +:+ err), log)
  | inl _ => (None, log)
  end.

(** The presigning loop of [InitiateMultipartUpload], over the indices
    [i] still to do; [urls] are the entries already filled in. *)
Fixpoint presign_parts (sdk : SDK) (c : Client.t) (key uploadID : string)
    (todo : list Z) (urls : list PresignedURL.t) (log : list Request)
    : outcome (list PresignedURL.t) * list Request :=
  match todo with
  | [] => (Returned urls, log)
  | i :: todo' =>
      let partNumber := Go.int64 (i + 1) in
      let '(answer, log) :=
        call sdk log (UploadPartInput (Client.bucket c) key uploadID
                        (Go.int32 partNumber) (Client.presignedURLExpiry c)) in
      match answer with
      | inr err =>
          let '(_, log) := AbortMultipartUpload sdk c log key uploadID in
          (Failed ("failed to generate presigned URL for part: " +:+ err), log)
      | inl url =>
          presign_parts sdk c key uploadID todo'
            (urls ++ [PresignedURL.mk partNumber url]) log
      end
  end.

(** [Client.InitiateMultipartUpload]. *)
Definition InitiateMultipartUpload (sdk : SDK) (c : Client.t) (log : list Request)
    (cfg : MultipartUploadConfig.t) : outcome MultipartUpload.t * list Request :=
  let '(answer, log) :=
    call sdk log (CreateMultipartUploadInput (Client.bucket c)
                    (MultipartUploadConfig.Key cfg) (MultipartUploadConfig.Metadata cfg)) in
  match answer with
  | inr err => (Failed ("failed to initiate multipart upload: " +:+ err), log)
  | inl uploadID =>
      let FileSize := MultipartUploadConfig.FileSize cfg in
      let ChunkSize := MultipartUploadConfig.ChunkSize cfg in
      if ChunkSize =? 0 then (Panicked "integer divide by zero", log)
      else
        let totalParts := Go.int64 (Z.quot FileSize ChunkSize) in
        let totalParts :=
          if negb (Z.rem FileSize ChunkSize =? 0) then Go.int64 (totalParts + 1)
          else totalParts in
        if totalParts <? 0 then (Panicked "makeslice: len out of range", log)
        else
          match presign_parts sdk c (MultipartUploadConfig.Key cfg) uploadID
                  (seqZ 0 totalParts) [] log with
          | (Returned presignedURLs, log) =>
              (Returned (MultipartUpload.mk uploadID (Client.bucket c)
                           (MultipartUploadConfig.Key cfg) totalParts ChunkSize presignedURLs),
               log)
          | (Failed err, log) => (Failed err, log)
          | (Panicked why, log) => (Panicked why, log)
          end
  end.

(** The number of chunks of [ChunkSize] bytes that cover [FileSize] bytes. *)
Definition ceiling (FileSize ChunkSize : Z) : Z := (FileSize + ChunkSize - 1) / ChunkSize.

End s3.

(** ** server/models: what the coordinator remembers *)

Module models.

(** The identity of a [*websocket.Conn]. *)
Definition Conn : Type := nat.

Module ClientConnection.
Record t : Type := mk {
  ClientID : string;
  Connection : Conn;
  ConnectedAt : Z;
  LastHeartbeat : Z;
  LastActivity : Z;
  Metadata : gmap string string
}.
End ClientConnection.

Definition NewClientConnection (clientID : string) (conn : Conn) (now : Z) : ClientConnection.t :=
  ClientConnection.mk clientID conn now now now ∅.

Definition UpdateActivity (c : ClientConnection.t) (now : Z) : ClientConnection.t :=
  ClientConnection.mk (ClientConnection.ClientID c) (ClientConnection.Connection c)
    (ClientConnection.ConnectedAt c) (ClientConnection.LastHeartbeat c) now
    (ClientConnection.Metadata c).

Inductive UploadState : Type :=
| UploadStatePending
| UploadStateInProgress
| UploadStateCompleted
| UploadStateFailed
| UploadStateCancelled.

Module UploadStatus.
Record t : Type := mk {
  UploadID : string;
  ClientID : string;
  FilePath : string;
  S3Bucket : string;
  S3Key : string;
  FileSize : Z;
  ChunkSize : Z;
  TotalParts : Z;
  CompletedParts : Z;
  BytesUploaded : Z;
  Status : UploadState;
  StartTime : Z;
  EndTime : option Z;
  Error : string;
  ETags : gmap Z string;
  S3UploadID : string
}.

Definition with_progress (completedParts bytesUploaded : Z) (etags : gmap Z string)
    (status : UploadState) (u : t) : t :=
  mk (UploadID u) (ClientID u) (FilePath u) (S3Bucket u) (S3Key u) (FileSize u)
     (ChunkSize u) (TotalParts u) completedParts bytesUploaded status
     (StartTime u) (EndTime u) (Error u) etags (S3UploadID u).

Definition with_end (status : UploadState) (endTime : option Z) (err : string) (u : t) : t :=
  mk (UploadID u) (ClientID u) (FilePath u) (S3Bucket u) (S3Key u) (FileSize u)
     (ChunkSize u) (TotalParts u) (CompletedParts u) (BytesUploaded u) status
     (StartTime u) endTime err (ETags u) (S3UploadID u).

Definition with_session (s3UploadID : string) (u : t) : t :=
  mk (UploadID u) (ClientID u) (FilePath u) (S3Bucket u) (S3Key u) (FileSize u)
     (ChunkSize u) (TotalParts u) (CompletedParts u) (BytesUploaded u) (Status u)
     (StartTime u) (EndTime u) (Error u) (ETags u) s3UploadID.
End UploadStatus.

Definition NewUploadStatus (uploadID clientID filePath bucket key : string)
    (fileSize chunkSize totalParts : Z) (now : Z) : UploadStatus.t :=
  UploadStatus.mk uploadID clientID filePath bucket key fileSize chunkSize totalParts
    0 0 UploadStatePending now None "" ∅ "".

(** Modelled from the spec: [SetS3UploadID] and [GetS3UploadID] are called
    by the API handler but their declarations are not in the models source
    at hand; following the blob-store contract [complete-multipart(key,
    sessionID, orderedParts)] and the handler's own comments, they store
    and read back the blob store's session id on the record. *)
Definition SetS3UploadID (u : UploadStatus.t) (s3UploadID : string) : UploadStatus.t :=
  UploadStatus.with_session s3UploadID u.

Definition GetS3UploadID (u : UploadStatus.t) : string := UploadStatus.S3UploadID u.

(** [UploadStatus.UpdateProgress]. *)
Definition UpdateProgress (u : UploadStatus.t) (partNumber : Z) (etag : string)
    (bytesUploaded : Z) : UploadStatus.t :=
  let completedParts :=
    match UploadStatus.ETags u !! partNumber with
    | None => Go.int64 (UploadStatus.CompletedParts u + 1)
    | Some _ => UploadStatus.CompletedParts u
    end in
  let status :=
    match UploadStatus.Status u with
    | UploadStatePending => UploadStateInProgress
    | s => s
    end in
  UploadStatus.with_progress completedParts bytesUploaded
    (<[partNumber := etag]> (UploadStatus.ETags u)) status u.

Definition MarkCompleted (u : UploadStatus.t) (now : Z) : UploadStatus.t :=
  UploadStatus.with_end UploadStateCompleted (Some now) (UploadStatus.Error u) u.

Definition MarkFailed (u : UploadStatus.t) (err : string) (now : Z) : UploadStatus.t :=
  UploadStatus.with_end UploadStateFailed (Some now) err u.

Definition MarkCancelled (u : UploadStatus.t) (now : Z) : UploadStatus.t :=
  UploadStatus.with_end UploadStateCancelled (Some now) (UploadStatus.Error u) u.

(** [UploadStatus.GetProgress].  The percentage is a floating-point
    quotient in the source; it is kept here as the two integers it is
    computed from, [None] standing for the zero returned when there are no
    parts. *)
Definition GetProgress (u : UploadStatus.t) : option (Z * Z) :=
  if UploadStatus.TotalParts u =? 0 then None
  else Some (UploadStatus.CompletedParts u, UploadStatus.TotalParts u).

Module UploadInfo.
Record t : Type := mk {
  UploadID : string;
  FilePath : string;
  S3Key : string;
  FileSize : Z;
  Status : UploadState;
  Progress : option (Z * Z);
  CompletedParts : Z;
  TotalParts : Z;
  BytesUploaded : Z;
  StartTime : Z;
  EndTime : option Z;
  Error : string
}.
End UploadInfo.

Module ClientStatus.
Record t : Type := mk {
  ClientID : string;
  Connected : bool;
  ConnectedAt : option Z;
  LastHeartbeat : option Z;
  LastActivity : option Z;
  CurrentUpload : option UploadInfo.t;
  TotalUploads : Z;
  SuccessUploads : Z;
  FailedUploads : Z
}.
End ClientStatus.

(** The conversion written out in [GetUploadStatus] and [GetClientStatus]. *)
Definition info_of (upload : UploadStatus.t) : UploadInfo.t :=
  UploadInfo.mk (UploadStatus.UploadID upload) (UploadStatus.FilePath upload)
    (UploadStatus.S3Key upload) (UploadStatus.FileSize upload) (UploadStatus.Status upload)
    (GetProgress upload) (UploadStatus.CompletedParts upload) (UploadStatus.TotalParts upload)
    (UploadStatus.BytesUploaded upload) (UploadStatus.StartTime upload)
    (UploadStatus.EndTime upload) (UploadStatus.Error upload).

(** The states no transition leaves, according to the design. *)
Definition terminal (s : UploadState) : Prop :=
  s = UploadStateCompleted \/ s = UploadStateFailed \/ s = UploadStateCancelled.

End models.

(** ** The coordinator process and its surroundings *)

Module server.

Import models.

(** What the process cannot decide by itself. *)
Record Env : Type := mkEnv {
  time_Now : nat -> Z;                        (* the n-th reading of the clock *)
  time_Format : Z -> string;                  (* Format("20060102-150405") *)
  path_Base : string -> string;               (* path.Base *)
  rand_Read : nat -> option (nat -> Byte.byte); (* the n-th read of crypto/rand *)
  sdk : s3.SDK;
  WriteJSON : Conn -> nat -> option string;   (* error of the n-th frame overall *)
  range_etags : gmap Z string -> list (Z * string) (* order of a [range] over the map *)
}.

(** The [Manager]'s two maps, and a record of what the process has done to
    its surroundings so far. *)
Record World : Type := mkWorld {
  clients : gmap string ClientConnection.t;
  uploads : gmap string UploadStatus.t;
  closed : list Conn;
  requests : list s3.Request;
  written : list (Conn * sharedModels.CommandMessage.t);
  ticks : nat;
  draws : nat
}.

(** [NewManager] in a process that has done nothing yet. *)
Definition NewManager : World := mkWorld ∅ ∅ [] [] [] 0 0.

Definition set_clients (f : gmap string ClientConnection.t -> gmap string ClientConnection.t)
    (w : World) : World :=
  mkWorld (f (clients w)) (uploads w) (closed w) (requests w) (written w) (ticks w) (draws w).

Definition set_uploads (f : gmap string UploadStatus.t -> gmap string UploadStatus.t)
    (w : World) : World :=
  mkWorld (clients w) (f (uploads w)) (closed w) (requests w) (written w) (ticks w) (draws w).

Definition Close (conn : Conn) (w : World) : World :=
  mkWorld (clients w) (uploads w) (closed w ++ [conn]) (requests w) (written w) (ticks w) (draws w).

Definition set_requests (log : list s3.Request) (w : World) : World :=
  mkWorld (clients w) (uploads w) (closed w) log (written w) (ticks w) (draws w).

Definition write (conn : Conn) (cmd : sharedModels.CommandMessage.t) (w : World) : World :=
  mkWorld (clients w) (uploads w) (closed w) (requests w) (written w ++ [(conn, cmd)])
    (ticks w) (draws w).

(** [time.Now()]. *)
Definition Now (env : Env) (w : World) : Z * World :=
  (time_Now env (ticks w),
   mkWorld (clients w) (uploads w) (closed w) (requests w) (written w) (S (ticks w)) (draws w)).

(** [rand.Read] into a fresh buffer of [n] bytes. *)
Definition Read (env : Env) (n : nat) (w : World) : option (list Byte.byte) * World :=
  (option_map (fun src => src <$> seq 0 n) (rand_Read env (draws w)),
   mkWorld (clients w) (uploads w) (closed w) (requests w) (written w) (ticks w) (S (draws w))).

(** *** server/websocket: the channel registry *)

(** [Manager.RegisterClient]. *)
Definition RegisterClient (env : Env) (w : World) (clientID : string) (conn : Conn) : World :=
  let w :=
    match clients w !! clientID with
    | Some existingConn => Close (ClientConnection.Connection existingConn) w
    | None => w
    end in
  let '(now, w) := Now env w in
  set_clients (insert clientID (NewClientConnection clientID conn now)) w.

(** [Manager.UnregisterClient]. *)
Definition UnregisterClient (w : World) (clientID : string) : World :=
  match clients w !! clientID with
  | Some client => set_clients (delete clientID) (Close (ClientConnection.Connection client) w)
  | None => w
  end.

Definition GetClient (w : World) (clientID : string) : option ClientConnection.t :=
  clients w !! clientID.

(** [Manager.GetAllClients]. *)
Definition GetAllClients (w : World) : list string := (map_to_list (clients w)).*1.

(** [Manager.IsClientConnected]. *)
Definition IsClientConnected (w : World) (clientID : string) : bool :=
  bool_decide (is_Some (clients w !! clientID)).

(** [Manager.SendCommand]; the result is the error, if any. *)
Definition SendCommand (env : Env) (w : World) (clientID : string)
    (cmd : sharedModels.CommandMessage.t) : option string * World :=
  match GetClient w clientID with
  | None => (Some ("client " +:+ clientID +:+ " not connected"), w)
  | Some client =>
      let '(now, w) := Now env w in
      let cmd :=
        sharedModels.CommandMessage.mk sharedModels.MessageTypeCommand now
          (sharedModels.CommandMessage.MessageID cmd)
          (sharedModels.CommandMessage.Action cmd)
          (sharedModels.CommandMessage.Payload cmd) in
      match WriteJSON env (ClientConnection.Connection client) (length (written w)) with
      | Some err => (Some ("failed to send command: " +:+ err), w)
      | None =>
          let w := write (ClientConnection.Connection client) cmd w in
          let '(now, w) := Now env w in
          (None, set_clients (insert clientID (UpdateActivity client now)) w)
      end
  end.

(** [Manager.RegisterUpload] and [Manager.GetUpload]. *)
Definition RegisterUpload (w : World) (upload : UploadStatus.t) : World :=
  set_uploads (insert (UploadStatus.UploadID upload) upload) w.

Definition GetUpload (w : World) (uploadID : string) : option UploadStatus.t :=
  uploads w !! uploadID.

(** The counting loop of [GetClientStatus]: the three counters and the
    record last seen in progress. *)
Definition count_uploads (clientID : string) (visit : list UploadStatus.t)
    : Z * Z * Z * option UploadStatus.t :=
  foldl (fun '(total, success, failed, currentUpload) upload =>
           if negb (String.eqb (UploadStatus.ClientID upload) clientID)
           then (total, success, failed, currentUpload)
           else
             let total := Go.int64 (total + 1) in
             match UploadStatus.Status upload with
             | UploadStateCompleted => (total, Go.int64 (success + 1), failed, currentUpload)
             | UploadStateFailed => (total, success, Go.int64 (failed + 1), currentUpload)
             | UploadStateInProgress => (total, success, failed, Some upload)
             | _ => (total, success, failed, currentUpload)
             end)
        (0, 0, 0, None) visit.

(** [Manager.GetClientStatus]. *)
Definition GetClientStatus (visit : list UploadStatus.t) (w : World) (clientID : string)
    : ClientStatus.t :=
  let client := clients w !! clientID in
  let '(total, success, failed, currentUpload) := count_uploads clientID visit in
  ClientStatus.mk clientID (bool_decide (is_Some client))
    (ClientConnection.ConnectedAt <$> client)
    (ClientConnection.LastHeartbeat <$> client)
    (ClientConnection.LastActivity <$> client)
    (info_of <$> currentUpload) total success failed.

(** A [range] over the records visits each of them once, in some order. *)
Definition visits (w : World) (visit : list UploadStatus.t) : Prop :=
  visit ≡ₚ (map_to_list (uploads w)).*2.

(** The handles the registry holds for an agent id. *)
Definition handles_of (w : World) (clientID : string) : gmap string ClientConnection.t :=
  filter (fun kv => ClientConnection.ClientID kv.2 = clientID) (clients w).

(** Every handle is filed under the id it carries. *)
Definition keyed (w : World) : Prop :=
  forall k c, clients w !! k = Some c -> ClientConnection.ClientID c = k.

(** A [range] over a map visits every entry once, in some order. *)
Definition faithful_range (env : Env) : Prop :=
  forall etags, range_etags env etags ≡ₚ map_to_list etags.

(** The part lists of the completion requests made so far. *)
Definition completions (w : World) : list (list (Z * string)) :=
  omap (fun r =>
          match r with
          | s3.CompleteMultipartUploadInput _ _ _ parts => Some parts
          | _ => None
          end) (requests w).

End server.

(** ** server/api: the transfer orchestrator *)

Module api.

Import models server.

Module Handler.
Record t : Type := mk {
  s3Client : s3.Client.t;
  chunkSize : Z;
  baseS3Path : string
}.
End Handler.

Module Config.
Record t : Type := mk { ChunkSize : Z; BaseS3Path : string }.
End Config.

(** [NewHandler]. *)
Definition NewHandler (s3Client : s3.Client.t) (cfg : Config.t) : Handler.t :=
  let chunkSize := if Config.ChunkSize cfg =? 0 then 5 * 1024 * 1024 else Config.ChunkSize cfg in
  let baseS3Path := if String.eqb (Config.BaseS3Path cfg) "" then "uploads" else Config.BaseS3Path cfg in
  Handler.mk s3Client chunkSize baseS3Path.

Module TriggerDownloadRequest.
Record t : Type := mk { FilePath : string; Metadata : gmap string string }.
End TriggerDownloadRequest.

Module TriggerDownloadResponse.
Record t : Type := mk { Success : bool; Message : string; UploadID : string; S3Key : string }.
End TriggerDownloadResponse.

(** The part of an [*http.Request] the handler looks at; [Body] is what
    the JSON decoder left in the request struct, when there is a body. *)
Module Request.
Record t : Type := mk {
  Method : string;
  Path : string;
  Body : option TriggerDownloadRequest.t
}.
End Request.

(** What the handler writes back, or the panic that ended it. *)
Inductive Reply : Type :=
| sendError (status : Z) (message : string)
| sendJSON (status : Z) (data : TriggerDownloadResponse.t)
| aborted (why : string).

(** [generateUploadID]. *)
Definition generateUploadID (env : Env) (w : World) : option string * World :=
  let '(bytes, w) := Read env 16 w in
  (option_map Go.hex_EncodeToString bytes, w).

(** The ceiling the coordinator assumes for every file. *)
Definition estimatedFileSize : Z := Go.int64 (100 * 1024 * 1024).

(** [Handler.TriggerDownload]. *)
Definition TriggerDownload (env : Env) (h : Handler.t) (w : World) (r : Request.t)
    : Reply * World :=
  if negb (String.eqb (Request.Method r) "POST") then (sendError 405 "Method not allowed", w)
  else
    let clientID := path_Base env (Request.Path r) in
    if String.eqb clientID "" || String.eqb clientID "trigger-download"
    then (sendError 400 "Client ID is required", w)
    else if negb (IsClientConnected w clientID)
    then (sendError 404 ("Client " +:+ clientID +:+ " is not connected"), w)
    else
      let req := default (TriggerDownloadRequest.mk "" ∅) (Request.Body r) in
      let FilePath :=
        if String.eqb (TriggerDownloadRequest.FilePath req) "" then "/data/test-file.bin"
        else TriggerDownloadRequest.FilePath req in
      let Metadata := TriggerDownloadRequest.Metadata req in
      match generateUploadID env w with
      | (None, w) => (sendError 500 "Failed to generate upload ID", w)
      | (Some uploadID, w) =>
          let '(now, w) := Now env w in
          let timestamp := time_Format env now in
          let s3Key :=
            Handler.baseS3Path h +:+ "/" +:+ clientID +:+ "/" +:+ timestamp +:+ "-"
              +:+ path_Base env FilePath in
          match s3.InitiateMultipartUpload (sdk env) (Handler.s3Client h) (requests w)
                  (s3.MultipartUploadConfig.mk s3Key estimatedFileSize (Handler.chunkSize h)
                     Metadata) with
          | (Failed _, log) => (sendError 500 "Failed to initiate upload", set_requests log w)
          | (Panicked why, log) => (aborted why, set_requests log w)
          | (Returned multipartUpload, log) =>
              let w := set_requests log w in
              let '(now, w) := Now env w in
              let uploadStatus :=
                NewUploadStatus uploadID clientID FilePath
                  (s3.MultipartUpload.Bucket multipartUpload)
                  (s3.MultipartUpload.Key multipartUpload)
                  estimatedFileSize (Handler.chunkSize h)
                  (s3.MultipartUpload.TotalParts multipartUpload) now in
              let uploadStatus :=
                SetS3UploadID uploadStatus (s3.MultipartUpload.UploadID multipartUpload) in
              let w := RegisterUpload w uploadStatus in
              let presignedURLs :=
                (fun url => sharedModels.PresignedURL.mk (s3.PresignedURL.PartNumber url)
                              (s3.PresignedURL.URL url))
                  <$> s3.MultipartUpload.PresignedURLs multipartUpload in
              let command :=
                sharedModels.CommandMessage.mk "" 0 uploadID
                  sharedModels.CommandActionDownloadFile
                  (sharedModels.Built
                     (sharedModels.DownloadFilePayload.mk FilePath
                        (sharedModels.UploadConfig.mk uploadID
                           (s3.MultipartUpload.Bucket multipartUpload)
                           (s3.MultipartUpload.Key multipartUpload)
                           "" (Handler.chunkSize h) presignedURLs)
                        Metadata)) in
              match SendCommand env w clientID command with
              | (Some _, w) => (sendError 500 "Failed to send command to client", w)
              | (None, w) =>
                  (sendJSON 200
                     (TriggerDownloadResponse.mk true
                        ("Download triggered for client " +:+ clientID) uploadID s3Key),
                   w)
              end
          end
      end.

(** The first loop of the success branch of [HandleResponse]: the keys of
    the raw object, visited in its [range] order, are scanned as part
    numbers; an entry whose key does not scan or whose value is no string
    is skipped. *)
Definition extract_etags (etagsRaw : list (string * JSON)) : gmap Z string :=
  foldl (fun etags kv =>
           match Go.Sscanf_d kv.1, kv.2 with
           | Some partNum, JString etag => <[partNum := etag]> etags
           | _, _ => etags
           end) ∅ etagsRaw.

(** The second loop and the sort. *)
Definition completed_parts (env : Env) (etags : gmap Z string) : list s3.CompletedPart.t :=
  Go.sort_Slice
    (fun a b => s3.CompletedPart.PartNumber a <? s3.CompletedPart.PartNumber b)
    ((fun kv => s3.CompletedPart.mk kv.1 kv.2) <$> range_etags env etags).

(** [upload] is a pointer into the manager's map: a change to the record
    is a change to the entry under its id. *)
Definition store (uploadID : string) (upload : UploadStatus.t) (w : World) : World :=
  set_uploads (insert uploadID upload) w.

(** [Handler.HandleResponse]. *)
Definition HandleResponse (env : Env) (h : Handler.t) (w : World) (clientID : string)
    (msg : sharedModels.ResponseMessage.t) : World :=
  if negb (String.eqb (sharedModels.ResponseMessage.Action msg)
             sharedModels.CommandActionDownloadFile) then w
  else
    match sharedModels.ResponseMessage.Payload msg with
    | sharedModels.Decoded (JObject payload) =>
        let uploadID := default "" (Go.as_string (Go.index payload "upload_id")) in
        match GetUpload w uploadID with
        | None => w
        | Some upload =>
            let Status := sharedModels.ResponseMessage.Status msg in
            if String.eqb Status sharedModels.ResponseStatusSuccess then
              let '(now, w) := Now env w in
              let upload := MarkCompleted upload now in
              let w := store uploadID upload w in
              let etags :=
                match Go.as_object (Go.index payload "etags") with
                | Some etagsRaw => extract_etags etagsRaw
                | None => ∅
                end in
              if 0 <? Z.of_nat (size etags) then
                let parts := completed_parts env etags in
                let s3UploadID := GetS3UploadID upload in
                match s3.CompleteMultipartUpload (sdk env) (Handler.s3Client h) (requests w)
                        (UploadStatus.S3Key upload) s3UploadID parts with
                | (Some err, log) =>
                    let w := set_requests log w in
                    let '(now, w) := Now env w in
                    store uploadID (MarkFailed upload err now) w
                | (None, log) => set_requests log w
                end
              else w
            else if String.eqb Status sharedModels.ResponseStatusError then
              let '(now, w) := Now env w in
              let upload := MarkFailed upload (sharedModels.ResponseMessage.Error msg) now in
              let w := store uploadID upload w in
              let '(_, log) :=
                s3.AbortMultipartUpload (sdk env) (Handler.s3Client h) (requests w)
                  (UploadStatus.S3Key upload) (GetS3UploadID upload) in
              set_requests log w
            else if String.eqb Status sharedModels.ResponseStatusCancelled then
              let '(now, w) := Now env w in
              let upload := MarkCancelled upload now in
              let w := store uploadID upload w in
              let '(_, log) :=
                s3.AbortMultipartUpload (sdk env) (Handler.s3Client h) (requests w)
                  (UploadStatus.S3Key upload) (GetS3UploadID upload) in
              set_requests log w
            else w
        end
    | _ => w
    end.

(** [Handler.HandleStatus]. *)
Definition HandleStatus (w : World) (clientID : string) (msg : sharedModels.StatusMessage.t)
    : World :=
  match sharedModels.StatusMessage.CurrentUpload msg with
  | None => w
  | Some current =>
      match GetUpload w (sharedModels.UploadStatus.UploadID current) with
      | None => w
      | Some upload =>
          store (sharedModels.UploadStatus.UploadID current)
            (UploadStatus.with_progress
               (sharedModels.UploadStatus.CompletedParts current)
               (sharedModels.UploadStatus.BytesUploaded current)
               (UploadStatus.ETags upload) (UploadStatus.Status upload) upload)
            w
      end
  end.

(** What the two status handlers write back. *)
Inductive StatusReply (A : Type) : Type :=
| statusError (status : Z) (message : string)
| statusJSON (status : Z) (data : A).
Arguments statusError {A} status message.
Arguments statusJSON {A} status data.

(** [Handler.GetStatus]. *)
Definition GetStatus (env : Env) (visit : list UploadStatus.t) (w : World) (r : Request.t)
    : StatusReply ClientStatus.t :=
  if negb (String.eqb (Request.Method r) "GET") then statusError 405 "Method not allowed"
  else
    let clientID := path_Base env (Request.Path r) in
    if String.eqb clientID "" || String.eqb clientID "status"
    then statusError 400 "Client ID is required"
    else statusJSON 200 (GetClientStatus visit w clientID).

(** [Handler.GetUploadStatus]. *)
Definition GetUploadStatus (env : Env) (w : World) (r : Request.t) : StatusReply UploadInfo.t :=
  if negb (String.eqb (Request.Method r) "GET") then statusError 405 "Method not allowed"
  else
    let uploadID := path_Base env (Request.Path r) in
    if String.eqb uploadID "" || String.eqb uploadID "uploads"
    then statusError 400 "Upload ID is required"
    else
      match GetUpload w uploadID with
      | None => statusError 404 ("Upload " +:+ uploadID +:+ " not found")
      | Some upload => statusJSON 200 (info_of upload)
      end.

(** [Handler.ListClients]: the ids and their count. *)
Definition ListClients (w : World) (r : Request.t) : StatusReply (list string * Z) :=
  if negb (String.eqb (Request.Method r) "GET") then statusError 405 "Method not allowed"
  else
    let clientIDs := GetAllClients w in
    statusJSON 200 (clientIDs, Z.of_nat (length clientIDs)).

(** The file path and the metadata the coordinator puts into the command
    for a request. *)
Definition commanded_path (r : Request.t) : string :=
  let req := default (TriggerDownloadRequest.mk "" ∅) (Request.Body r) in
  if String.eqb (TriggerDownloadRequest.FilePath req) "" then "/data/test-file.bin"
  else TriggerDownloadRequest.FilePath req.

Definition commanded_metadata (r : Request.t) : gmap string string :=
  TriggerDownloadRequest.Metadata (default (TriggerDownloadRequest.mk "" ∅) (Request.Body r)).

(** The ticket the coordinator makes of a blob-store session. *)
Definition ticket_of (h : Handler.t) (uploadID : string) (mu : s3.MultipartUpload.t)
    : sharedModels.UploadConfig.t :=
  sharedModels.UploadConfig.mk uploadID (s3.MultipartUpload.Bucket mu) (s3.MultipartUpload.Key mu)
    "" (Handler.chunkSize h)
    ((fun url => sharedModels.PresignedURL.mk (s3.PresignedURL.PartNumber url)
                   (s3.PresignedURL.URL url))
       <$> s3.MultipartUpload.PresignedURLs mu).

(** The digest map the success branch builds from a response. *)
Definition digests_of (msg : sharedModels.ResponseMessage.t) : gmap Z string :=
  match sharedModels.ResponseMessage.Payload msg with
  | sharedModels.Decoded (JObject payload) =>
      match Go.as_object (Go.index payload "etags") with
      | Some etagsRaw => extract_etags etagsRaw
      | None => ∅
      end
  | _ => ∅
  end.

End api.

(** ** The coordinator over time *)

Module coordinator.

Import models server api.

(** What the coordinator is asked to do, one thing at a time.  A call of
    [HandleClient] registers the channel on entry ([Enter]) and, whenever
    its read loop ends, unregisters the agent id by the deferred call
    ([Leave]); in between it hands the frames it reads to [HandleResponse]
    and [HandleStatus]; the operator's requests reach [TriggerDownload]. *)
Inductive Op : Type :=
| Enter (clientID : string) (conn : Conn)
| Leave (clientID : string)
| Response (h : Handler.t) (clientID : string) (msg : sharedModels.ResponseMessage.t)
| Status (clientID : string) (msg : sharedModels.StatusMessage.t)
| Trigger (h : Handler.t) (r : Request.t).

Definition step (env : Env) (w : World) (op : Op) : World :=
  match op with
  | Enter clientID conn => RegisterClient env w clientID conn
  | Leave clientID => UnregisterClient w clientID
  | Response h clientID msg => HandleResponse env h w clientID msg
  | Status clientID msg => HandleStatus w clientID msg
  | Trigger h r => (TriggerDownload env h w r).2
  end.

Definition run (env : Env) (w : World) (ops : list Op) : World := foldl (step env) w ops.

(** A frame read from an agent's channel, as far as [handleMessage]
    distinguishes: one that does not parse, or one of a type, with what the
    second decoding makes of it ([None] when that fails). *)
Inductive Inbound : Type :=
| Unparsable
| ResponseFrame (msg : option sharedModels.ResponseMessage.t)
| StatusFrame (msg : option sharedModels.StatusMessage.t)
| PongFrame
| OtherFrame (type : string).

(** [Manager.handleMessage], with the API handler as its message handler. *)
Definition handleMessage (env : Env) (h : Handler.t) (w : World) (clientID : string)
    (message : Inbound) : World :=
  match message with
  | Unparsable => w
  | _ =>
      let w :=
        match GetClient w clientID with
        | Some client =>
            let '(now, w) := Now env w in
            set_clients (insert clientID (UpdateActivity client now)) w
        | None => w
        end in
      match message with
      | ResponseFrame (Some responseMsg) => HandleResponse env h w clientID responseMsg
      | StatusFrame (Some statusMsg) => HandleStatus w clientID statusMsg
      | _ => w
      end
  end.

(** Two states with the same connections closed and the same handles,
    but perhaps for the time of the last activity of one of them. *)
Definition same_channels (w w' : World) : Prop :=
  closed w' = closed w
  /\ (clients w' = clients w
      \/ exists clientID client now,
           clients w !! clientID = Some client
           /\ clients w' = <[clientID := UpdateActivity client now]> (clients w)).

End coordinator.

(** ** client/uploader: the transfer executor *)

Module uploader.

(** A local file: its size and the byte at each offset below it. *)
Module File.
Record t : Type := mk { Size : Z; byte_at : Z -> Byte.byte }.
End File.

(** What the store answers to a PUT. *)
Module Response.
Record t : Type := mk { StatusCode : Z; ETag : string; Body : string }.
End Response.

(** [http.Client.Do] for a PUT of [data] to [url]: a response, or the
    text of a transport error (a request that cannot be built counts as
    one). *)
Definition Transport : Type := string -> list Byte.byte -> Response.t + string.

Module Uploader.
Record t : Type := mk {
  filePath : string;
  uploadConfig : sharedModels.UploadConfig.t
}.
End Uploader.

Module UploadResult.
Record t : Type := mk {
  Success : bool;
  UploadID : string;
  FileSize : Z;
  TotalParts : Z;
  CompletedParts : Z;
  ETags : gmap Z string
}.
End UploadResult.

(** One call of the progress callback. *)
Module Progress.
Record t : Type := mk {
  partNumber : Z;
  totalParts : Z;
  bytesUploaded : Z;
  totalBytes : Z
}.
End Progress.

Definition NewUploader (filePath : string) (uploadConfig : sharedModels.UploadConfig.t)
    : Uploader.t :=
  Uploader.mk filePath uploadConfig.

Inductive ReadError : Type := EOF | NegativeOffset.

(** [file.ReadAt(partData, offset)] on a fresh buffer of [len] bytes: the
    buffer afterwards, and the error.  Bytes past the end of the file stay
    zero and are reported by [EOF]. *)
Definition ReadAt (file : File.t) (len offset : Z) : list Byte.byte * option ReadError :=
  if offset <? 0 then (replicate (Z.to_nat len) Byte.x00, Some NegativeOffset)
  else
    let n := Z.min len (Z.max 0 (File.Size file - offset)) in
    ((fun i => if i <? n then File.byte_at file (offset + i) else Byte.x00) <$> seqZ 0 len,
     if n <? len then Some EOF else None).

(** [Uploader.uploadPart]. *)
Definition uploadPart (do : Transport) (presignedURL : string) (data : list Byte.byte)
    : string + string :=
  match do presignedURL data with
  | inr err => inr ("failed to upload: " +:+ err)
  | inl resp =>
      if negb (Response.StatusCode resp =? 200)
      then inr ("upload failed with status: " +:+ Response.Body resp)
      else if String.eqb (Response.ETag resp) "" then inr "no ETag in response"
      else inl (Response.ETag resp)
  end.

(** The loop of [Upload] over the ticket's entries still to do.  The
    second component is the list of progress callbacks made, also when the
    loop does not finish. *)
Fixpoint upload_parts (do : Transport) (file : File.t) (ChunkSize fileSize totalParts : Z)
    (todo : list sharedModels.PresignedURL.t)
    (etags : gmap Z string) (bytesUploaded : Z) (calls : list Progress.t)
    : outcome (gmap Z string * Z) * list Progress.t :=
  match todo with
  | [] => (Returned (etags, bytesUploaded), calls)
  | presignedURL :: todo' =>
      let partNumber := sharedModels.PresignedURL.PartNumber presignedURL in
      let partSize := ChunkSize in
      let offset := Go.int64 (Go.int64 (partNumber - 1) * ChunkSize) in
      let partSize :=
        if Go.int64 (offset + partSize) >? fileSize then Go.int64 (fileSize - offset)
        else partSize in
      if partSize <? 0 then (Panicked "makeslice: len out of range", calls)
      else
        match ReadAt file partSize offset with
        | (_, Some NegativeOffset) => (Failed "failed to read part: negative offset", calls)
        | (partData, _) =>
            match uploadPart do (sharedModels.PresignedURL.URL presignedURL) partData with
            | inr err => (Failed ("failed to upload part: " +:+ err), calls)
            | inl etag =>
                let etags := <[partNumber := etag]> etags in
                let bytesUploaded := Go.int64 (bytesUploaded + partSize) in
                upload_parts do file ChunkSize fileSize totalParts todo' etags bytesUploaded
                  (calls ++ [Progress.mk partNumber totalParts bytesUploaded fileSize])
            end
        end
  end.

(** [Uploader.Upload]; [fs] is the file system, by path. *)
Definition Upload (fs : string -> option File.t) (do : Transport) (u : Uploader.t)
    : outcome UploadResult.t * list Progress.t :=
  match fs (Uploader.filePath u) with
  | None => (Failed "failed to open file", [])
  | Some file =>
      let fileSize := File.Size file in
      let cfg := Uploader.uploadConfig u in
      let totalParts := Z.of_nat (length (sharedModels.UploadConfig.PresignedURLs cfg)) in
      match upload_parts do file (sharedModels.UploadConfig.ChunkSize cfg) fileSize totalParts
              (sharedModels.UploadConfig.PresignedURLs cfg) ∅ 0 [] with
      | (Returned (etags, _), calls) =>
          (Returned (UploadResult.mk true (sharedModels.UploadConfig.UploadID cfg) fileSize
                       totalParts (Z.of_nat (size etags)) etags),
           calls)
      | (Failed err, calls) => (Failed err, calls)
      | (Panicked why, calls) => (Panicked why, calls)
      end
  end.

(** [CalculateParts] (no caller in the program). *)
Definition CalculateParts (fileSize chunkSize : Z) : Z :=
  let parts := Go.int64 (Z.quot fileSize chunkSize) in
  if negb (Z.rem fileSize chunkSize =? 0) then Go.int64 (parts + 1) else parts.

End uploader.

(** ** client/handler: commands as the agent executes them *)

Module handler.

Import uploader.

Module CommandHandler.
Record t : Type := mk { filePath : string }.
End CommandHandler.

(** What the agent writes to its channel. *)
Inductive Frame : Type :=
| SendResponse (status commandID action : string) (payload : sharedModels.any) (errMsg : string)
| SendStatus (status : string) (currentUpload : sharedModels.UploadStatus.t).

Definition sendErrorResponse (messageID action errMsg : string) : Frame :=
  SendResponse sharedModels.ResponseStatusError messageID action sharedModels.Nil errMsg.

(** [v.(float64)] with the comma-ok form, zero standing for the field
    left as it was: the number as the decoder holds it. *)
Definition number_or_zero (v : option JSON) : Z :=
  match v with Some (JNumber n) => Go.float64 n | _ => 0 end.

(** [parseUploadConfig]. *)
Definition parseUploadConfig (m : list (string * JSON)) : sharedModels.UploadConfig.t + string :=
  let str k := default "" (Go.as_string (Go.index m k)) in
  let urls :=
    match Go.index m "presigned_urls" with
    | Some (JArray presignedURLs) =>
        (fun urlInterface =>
           match urlInterface with
           | JObject urlMap =>
               sharedModels.PresignedURL.mk
                 (Go.int64_of_float64 (number_or_zero (Go.index urlMap "part_number")))
                 (default "" (Go.as_string (Go.index urlMap "url")))
           | _ => sharedModels.PresignedURL.mk 0 ""
           end) <$> presignedURLs
    | _ => []
    end in
  let config :=
    sharedModels.UploadConfig.mk (str "upload_id") (str "bucket") (str "key") (str "region")
      (Go.int64_of_float64 (number_or_zero (Go.index m "chunk_size"))) urls in
  if String.eqb (sharedModels.UploadConfig.UploadID config) "" || bool_decide (urls = [])
  then inr "invalid upload config: missing required fields"
  else inl config.

(** The file the agent reads: the one the command names, when it names
    one, and the agent's configured one otherwise. *)
Definition effective_filePath (h : CommandHandler.t) (payloadMap : list (string * JSON)) : string :=
  match Go.as_string (Go.index payloadMap "file_path") with
  | Some fp => if negb (String.eqb fp "") then fp else CommandHandler.filePath h
  | None => CommandHandler.filePath h
  end.

(** [uploader.GetFileSize]. *)
Definition GetFileSize (fs : string -> option File.t) (filePath : string) : option Z :=
  File.Size <$> fs filePath.

(** [CommandHandler.handleDownloadFile]: the frames written, in order,
    and the panic that ended the call, if one did. *)
Definition handleDownloadFile (fs : string -> option File.t) (do : Transport)
    (h : CommandHandler.t) (cmd : sharedModels.CommandMessage.t) : list Frame * option string :=
  let MessageID := sharedModels.CommandMessage.MessageID cmd in
  let Action := sharedModels.CommandMessage.Action cmd in
  match sharedModels.CommandMessage.Payload cmd with
  | sharedModels.Decoded (JObject payloadMap) =>
      match Go.as_object (Go.index payloadMap "upload_config") with
      | None => ([sendErrorResponse MessageID Action "missing upload_config"], None)
      | Some uploadConfigMap =>
          match parseUploadConfig uploadConfigMap with
          | inr err =>
              ([sendErrorResponse MessageID Action ("failed to parse upload config: " +:+ err)],
               None)
          | inl uploadConfig =>
              let filePath := effective_filePath h payloadMap in
              let started :=
                SendResponse sharedModels.ResponseStatusInProgress MessageID Action
                  (sharedModels.Decoded
                     (JObject [("upload_id", JString (sharedModels.UploadConfig.UploadID uploadConfig));
                               ("file_path", JString filePath);
                               ("status", JString "starting")]))
                  "" in
              match GetFileSize fs filePath with
              | None =>
                  ([started; sendErrorResponse MessageID Action "failed to get file size"], None)
              | Some _ =>
                  let '(result, calls) := Upload fs do (NewUploader filePath uploadConfig) in
                  let statuses :=
                    (fun p =>
                       SendStatus "uploading"
                         (sharedModels.UploadStatus.mk
                            (sharedModels.UploadConfig.UploadID uploadConfig) filePath
                            (Progress.totalBytes p) (Progress.totalParts p)
                            (Progress.partNumber p) (Progress.bytesUploaded p))) <$> calls in
                  match result with
                  | Failed err =>
                      (started :: statuses
                         ++ [sendErrorResponse MessageID Action ("upload failed: " +:+ err)],
                       None)
                  | Panicked why => (started :: statuses, Some why)
                  | Returned result =>
                      (started :: statuses
                         ++ [SendResponse sharedModels.ResponseStatusSuccess MessageID Action
                               (sharedModels.Report
                                  (sharedModels.DownloadFileResponse.mk
                                     (UploadResult.UploadID result) filePath
                                     (UploadResult.FileSize result)
                                     (UploadResult.TotalParts result)
                                     (UploadResult.CompletedParts result)
                                     (sharedModels.UploadConfig.Key uploadConfig)))
                               ""],
                       None)
                  end
              end
          end
      end
  | _ => ([sendErrorResponse MessageID Action "invalid payload format"], None)
  end.

(** [CommandHandler.handleHealthCheck]; [now] is the reading of the clock
    as the encoder writes it. *)
Definition handleHealthCheck (now : string) (cmd : sharedModels.CommandMessage.t)
    : list Frame * option string :=
  ([SendResponse sharedModels.ResponseStatusSuccess
      (sharedModels.CommandMessage.MessageID cmd) (sharedModels.CommandMessage.Action cmd)
      (sharedModels.Decoded
         (JObject [("status", JString "healthy"); ("timestamp", JString now)]))
      ""],
   None).

(** [CommandHandler.handleCancelUpload]. *)
Definition handleCancelUpload (cmd : sharedModels.CommandMessage.t)
    : list Frame * option string :=
  ([SendResponse sharedModels.ResponseStatusCancelled
      (sharedModels.CommandMessage.MessageID cmd) (sharedModels.CommandMessage.Action cmd)
      (sharedModels.Decoded (JObject [("status", JString "cancelled")]))
      ""],
   None).

(** [CommandHandler.HandleCommand]. *)
Definition HandleCommand (fs : string -> option File.t) (do : Transport) (now : string)
    (h : CommandHandler.t) (cmd : sharedModels.CommandMessage.t) : list Frame * option string :=
  let Action := sharedModels.CommandMessage.Action cmd in
  if String.eqb Action sharedModels.CommandActionDownloadFile then handleDownloadFile fs do h cmd
  else if String.eqb Action sharedModels.CommandActionHealthCheck then handleHealthCheck now cmd
  else if String.eqb Action sharedModels.CommandActionCancelUpload then handleCancelUpload cmd
  else
    ([sendErrorResponse (sharedModels.CommandMessage.MessageID cmd) Action
        ("unknown command: " +:+ Action)],
     None).

(** [Client.SendResponse] and [Client.SendStatus] of the agent [clientID],
    seen from the other end: the frame as the coordinator's [handleMessage]
    decodes it. *)
Definition sent (clientID : string) (f : Frame) : coordinator.Inbound :=
  match f with
  | SendResponse status commandID action payload errMsg =>
      coordinator.ResponseFrame
        (Some (sharedModels.ResponseMessage.mk commandID status commandID action
                 (sharedModels.wire payload) errMsg))
  | SendStatus status currentUpload =>
      coordinator.StatusFrame
        (Some (sharedModels.StatusMessage.mk clientID status (Some currentUpload)))
  end.

(** A response that closes its command: any but [in_progress]. *)
Definition closing (f : Frame) : bool :=
  match f with
  | SendResponse status _ _ _ _ =>
      negb (String.eqb status sharedModels.ResponseStatusInProgress)
  | SendStatus _ _ => false
  end.

(** A response that carries the id and the action of [cmd]; status frames
    carry neither. *)
Definition answers (cmd : sharedModels.CommandMessage.t) (f : Frame) : Prop :=
  match f with
  | SendResponse _ commandID action _ _ =>
      commandID = sharedModels.CommandMessage.MessageID cmd
      /\ action = sharedModels.CommandMessage.Action cmd
  | SendStatus _ _ => True
  end.

End handler.

(** ** client/websocket: the agent's channel and its reconnection *)

Module wsclient.

(** [time.Duration] counts nanoseconds. *)
Definition Second : Z := 1000000000.
Definition Minute : Z := 60 * Second.

Module Config.
Record t : Type := mk { ReconnectDelay : Z; MaxReconnect : Z }.
End Config.

Module Client.
Record t : Type := mk { reconnectDelay : Z; maxReconnect : Z }.
End Client.

(** [NewClient]. *)
Definition NewClient (cfg : Config.t) : Client.t :=
  Client.mk
    (if Config.ReconnectDelay cfg =? 0 then 5 * Second else Config.ReconnectDelay cfg)
    (if Config.MaxReconnect cfg =? 0 then 5 * Minute else Config.MaxReconnect cfg).

(** What one turn of the loop of [Start] meets. *)
Inductive Event : Type :=
| Stopped                         (* the context or the stop channel, seen first *)
| DialFailed (timerFired : bool)  (* [Connect] fails; the timer fires, or a stop comes first *)
| Session (stopSeen : bool).      (* [Connect] succeeds; the channel later drops *)

(** The waits the loop makes. *)
Inductive Wait : Type :=
| After (d : Z)   (* [time.After(reconnectDelay)] after a failed dial *)
| Sleep (d : Z).  (* [time.Sleep(reconnectDelay)] after a lost session *)

(** The update of the local [reconnectDelay] when the timer fires. *)
Definition backoff (c : Client.t) (reconnectDelay : Z) : Z :=
  let reconnectDelay := Go.int64 (reconnectDelay * 2) in
  if reconnectDelay >? Client.maxReconnect c then Client.maxReconnect c else reconnectDelay.

(** The loop of [Client.Start] from a value of the local [reconnectDelay]:
    the waits begun, in order, and the value of the variable at the end of
    the events. *)
Fixpoint Start_loop (c : Client.t) (reconnectDelay : Z) (events : list Event) : list Wait * Z :=
  match events with
  | [] => ([], reconnectDelay)
  | Stopped :: _ => ([], reconnectDelay)
  | DialFailed false :: _ => ([After reconnectDelay], reconnectDelay)
  | DialFailed true :: events' =>
      let '(waits, final) := Start_loop c (backoff c reconnectDelay) events' in
      (After reconnectDelay :: waits, final)
  | Session true :: _ => ([], Client.reconnectDelay c)
  | Session false :: events' =>
      let '(waits, final) := Start_loop c (Client.reconnectDelay c) events' in
      (Sleep (Client.reconnectDelay c) :: waits, final)
  end.

(** [Client.Start]. *)
Definition Start (c : Client.t) (events : list Event) : list Wait * Z :=
  Start_loop c (Client.reconnectDelay c) events.

Definition duration (w : Wait) : Z :=
  match w with After d => d | Sleep d => d end.

End wsclient.

(** ** shared/auth and server/websocket/handler.go: who may connect *)

Module auth.

Module Claims.
Record t : Type := mk {
  ClientID : string;
  Issuer : string;
  Subject : string;
  IssuedAt : Z;
  ExpiresAt : Z;
  NotBefore : Z
}.
End Claims.

Module TokenManager.
Record t : Type := mk { secretKey : string; issuer : string }.
End TokenManager.

(** What [jwt.ParseWithClaims] makes of a token under a key (the key
    function of [ValidateToken] refuses every signing method but HMAC,
    which the library reports as an error like any other): the claims of a
    valid token, an error that is [jwt.ErrTokenExpired], or anything else. *)
Inductive Parsed : Type :=
| Valid (claims : Claims.t)
| Expired
| Rejected.

(** The JWT library: parsing under a key, and signing claims with HS256
    (a token, or the text of an error). *)
Record JWT : Type := mkJWT {
  ParseWithClaims : string -> string -> Parsed;
  SignedString : string -> Claims.t -> string + string
}.

Inductive Error : Type :=
| ErrInvalidToken
| ErrExpiredToken
| ErrSigning (text : string).

(** [TokenManager.GenerateToken] at the time [now]. *)
Definition GenerateToken (jwt : JWT) (tm : TokenManager.t) (now : Z) (clientID : string)
    (expiresIn : Z) : string + Error :=
  let claims :=
    Claims.mk clientID (TokenManager.issuer tm) clientID now (now + expiresIn) now in
  match SignedString jwt (TokenManager.secretKey tm) claims with
  | inl token => inl token
  | inr text => inr (ErrSigning text)
  end.

(** [TokenManager.ValidateToken]. *)
Definition ValidateToken (jwt : JWT) (tm : TokenManager.t) (tokenString : string)
    : Claims.t + Error :=
  match ParseWithClaims jwt (TokenManager.secretKey tm) tokenString with
  | Valid claims => inl claims
  | Expired => inr ErrExpiredToken
  | Rejected => inr ErrInvalidToken
  end.

(** [TokenManager.RefreshToken]: after an expired token the claims pointer
    is nil, and reading its [ClientID] is a nil dereference. *)
Definition RefreshToken (jwt : JWT) (tm : TokenManager.t) (now : Z) (oldToken : string)
    (expiresIn : Z) : outcome string + Error :=
  match ValidateToken jwt tm oldToken with
  | inr ErrExpiredToken => inl (Panicked "invalid memory address or nil pointer dereference")
  | inr err => inr err
  | inl claims =>
      match GenerateToken jwt tm now (Claims.ClientID claims) expiresIn with
      | inl token => inl (Returned token)
      | inr err => inr err
      end
  end.

(** [ValidateClientID]. *)
Definition ValidateClientID (clientID : string) : bool :=
  (0 <? Z.of_nat (String.length clientID)) && (Z.of_nat (String.length clientID) <=? 128).

End auth.

Module wshandler.

Import models.

(** The parts of the HTTP request [HandleConnect] reads: two query
    parameters and two headers, empty when absent. *)
Module Request.
Record t : Type := mk {
  client_id : string;
  token : string;
  X_Client_ID : string;
  Authorization : string
}.
End Request.

Module Handler.
Record t : Type := mk { tokenManager : option auth.TokenManager.t }.
End Handler.

(** How [HandleConnect] ends: an HTTP error, a failed upgrade, or a call
    of [Manager.HandleClient] on the upgraded connection. *)
Inductive Reply : Type :=
| Error (status : Z) (message : string)
| NotUpgraded
| HandleClient (clientID : string) (conn : Conn).

(** The token [HandleConnect] looks at. *)
Definition presented_token (r : Request.t) : string :=
  if String.eqb (Request.token r) "" then
    match Go.after_prefix "Bearer " (Request.Authorization r) with
    | Some token => token
    | None => ""
    end
  else Request.token r.

(** [Handler.HandleConnect]; [Upgrade] is the connection the upgrader
    makes of the request, if it can. *)
Definition HandleConnect (jwt : auth.JWT) (h : Handler.t) (Upgrade : option Conn)
    (r : Request.t) : Reply :=
  let clientID :=
    if String.eqb (Request.client_id r) "" then Request.X_Client_ID r
    else Request.client_id r in
  if String.eqb clientID "" then Error 400 "Client ID is required"
  else if negb (auth.ValidateClientID clientID) then Error 400 "Invalid client ID"
  else
    let token := presented_token r in
    let checked :=
      match Handler.tokenManager h with
      | Some tm =>
          if negb (String.eqb token "") then
            match auth.ValidateToken jwt tm token with
            | inr _ => Some (Error 401 "Invalid token")
            | inl claims =>
                if negb (String.eqb (auth.Claims.ClientID claims) clientID)
                then Some (Error 401 "Client ID mismatch")
                else None
            end
          else None
      | None => None
      end in
    match checked with
    | Some reply => reply
    | None =>
        match Upgrade with
        | None => NotUpgraded
        | Some conn => HandleClient clientID conn
        end
    end.

End wshandler.

(** ** A run of the system, used to exercise the definitions

    One agent, ["agent-1"], holding a 12 MB file; a coordinator configured
    as [server/main.go] does by default (5 MB chunks, prefix ["uploads"]);
    a blob store that accepts everything. *)

Module scenario.

Import models server api.

Definition is_slash (c : ascii) : bool := Ascii.eqb c "/"%char.

Fixpoint drop_slashes (cs : list ascii) : list ascii :=
  match cs with
  | c :: cs' => if is_slash c then drop_slashes cs' else cs
  | [] => []
  end.

Fixpoint until_slash (cs : list ascii) : list ascii :=
  match cs with
  | c :: cs' => if is_slash c then [] else c :: until_slash cs'
  | [] => []
  end.

(** [path.Base]. *)
Definition path_Base (p : string) : string :=
  match p with
  | EmptyString => "."
  | _ =>
      match drop_slashes (reverse (String.list_ascii_of_string p)) with
      | [] => "/"
      | cs => String.string_of_list_ascii (reverse (until_slash cs))
      end
  end.

Definition digit (n : Z) : string := String (ascii_of_N (Z.to_N (48 + n))) "".

(** Part numbers below one hundred, in decimal. *)
Definition decimal (n : Z) : string :=
  if n <? 10 then digit n else digit (n / 10) +:+ digit (n mod 10).

(** A store that opens a session for every request and signs every part. *)
Definition store_up : s3.SDK :=
  fun _ r =>
    match r with
    | s3.CreateMultipartUploadInput _ _ _ => inl "session-1"
    | s3.UploadPartInput bucket key _ partNumber _ =>
        inl ("https://" +:+ bucket +:+ ".store/" +:+ key +:+ "?partNumber=" +:+ decimal partNumber)
    | _ => inl ""
    end.


Definition env_with (sdk : s3.SDK) : Env :=
  mkEnv (fun n => 1761998400 + Z.of_nat n) (fun _ => "20251101-120000") path_Base
    (fun n => Some (fun i => Byte.x2a)) sdk (fun _ _ => None) map_to_list.

Definition env : Env := env_with store_up.

Definition h : Handler.t :=
  NewHandler (s3.Client.mk "file-download-system-uploads" "us-east-1" 900)
    (Config.mk (5 * 1024 * 1024) "uploads").

(** The agent has registered on connection [1]. *)
Definition registered : World := RegisterClient env NewManager "agent-1" 1%nat.

(** [POST /trigger-download/agent-1] without a body. *)
Definition trigger : Request.t := Request.mk "POST" "/trigger-download/agent-1" None.

Definition uploadID : string := "2a2a2a2a2a2a2a2a2a2a2a2a2a2a2a2a".

(** The coordinator after the trigger. *)
Definition triggered : World := (TriggerDownload env h registered trigger).2.

(** The tickets carried by the command frames written so far. *)
Definition tickets (w : World) : list sharedModels.UploadConfig.t :=
  omap (fun f =>
          match sharedModels.CommandMessage.Payload f.2 with
          | sharedModels.Built p => Some (sharedModels.DownloadFilePayload.Config p)
          | _ => None
          end) (written w).

(** The agent's side: a 12 MB file of zeros at the default path, and a
    store that acknowledges every PUT. *)
Definition file : uploader.File.t := uploader.File.mk (12 * 1024 * 1024) (fun _ => Byte.x00).

Definition fs (path : string) : option uploader.File.t :=
  if String.eqb path "/data/test-file.bin" then Some file else None.

Definition do : uploader.Transport :=
  fun url _ => inl (uploader.Response.mk 200 ("etag-of-" +:+ url) "").

Definition agent : handler.CommandHandler.t := handler.CommandHandler.mk "/data/report.bin".

(** A [success] response for the transfer that carries three digests,
    listed out of order. *)
Definition success : sharedModels.ResponseMessage.t :=
  sharedModels.ResponseMessage.mk uploadID sharedModels.ResponseStatusSuccess uploadID
    sharedModels.CommandActionDownloadFile
    (sharedModels.Decoded
       (JObject [("upload_id", JString uploadID);
                 ("etags", JObject [("3", JString "c"); ("1", JString "a"); ("2", JString "b")])]))
    "".

(** The coordinator after that response. *)
Definition completed : World := HandleResponse env h triggered "agent-1" success.

(** A [success] response for the transfer with two digests, one of them
    under a part number that does not fit 32 bits. *)
Definition oversized : sharedModels.ResponseMessage.t :=
  sharedModels.ResponseMessage.mk uploadID sharedModels.ResponseStatusSuccess uploadID
    sharedModels.CommandActionDownloadFile
    (sharedModels.Decoded
       (JObject [("upload_id", JString uploadID);
                 ("etags", JObject [("2", JString "a"); ("4294967297", JString "b")])]))
    "".

(** A progress frame for the transfer: one part, one byte. *)
Definition progress : sharedModels.StatusMessage.t :=
  sharedModels.StatusMessage.mk "agent-1" "uploading"
    (Some (sharedModels.UploadStatus.mk uploadID "/data/test-file.bin" (12 * 1024 * 1024) 20 1 1)).

(** The command frame the coordinator wrote, as the agent decodes it. *)
Definition command : sharedModels.CommandMessage.t :=
  sharedModels.receive
    (default (sharedModels.CommandMessage.mk "" 0 "" "" sharedModels.Nil)
       (snd <$> last (written triggered))).

Definition key : string := "uploads/agent-1/20251101-120000-test-file.bin".

Definition url (partNumber : Z) : string :=
  "https://file-download-system-uploads.store/" +:+ key +:+ "?partNumber="
    +:+ decimal partNumber.

(** The ticket in that command: twenty parts of 5 MB. *)
Definition ticket : sharedModels.UploadConfig.t :=
  sharedModels.UploadConfig.mk uploadID "file-download-system-uploads" key "" (5 * 1024 * 1024)
    ((fun n => sharedModels.PresignedURL.mk n (url n)) <$> seqZ 1 20).

(** The frames the agent writes while it works on the command. *)
Definition started : handler.Frame :=
  handler.SendResponse sharedModels.ResponseStatusInProgress uploadID
    sharedModels.CommandActionDownloadFile
    (sharedModels.Decoded
       (JObject [("upload_id", JString uploadID);
                 ("file_path", JString "/data/test-file.bin");
                 ("status", JString "starting")]))
    "".

Definition uploading (partNumber bytesUploaded : Z) : handler.Frame :=
  handler.SendStatus "uploading"
    (sharedModels.UploadStatus.mk uploadID "/data/test-file.bin" (12 * 1024 * 1024) 20
       partNumber bytesUploaded).

(** The coordinator after the same response has arrived a second time. *)
Definition replayed : World := HandleResponse env h completed "agent-1" success.

(** The record of the transfer in a state of the coordinator. *)
Definition record (w : World) : option UploadStatus.t := uploads w !! uploadID.

(** A second file, of ten bytes, and tickets for it in parts of four
    bytes. *)
Definition note : uploader.File.t := uploader.File.mk 10 (fun _ => Byte.x61).

Definition notes (path : string) : option uploader.File.t :=
  if String.eqb path "/data/note.txt" then Some note else None.

Definition note_ticket (parts : Z) : sharedModels.UploadConfig.t :=
  sharedModels.UploadConfig.mk "note-1" "file-download-system-uploads" "uploads/note.txt" ""
    4 ((fun n => sharedModels.PresignedURL.mk n (url n)) <$> seqZ 1 parts).

(** The same ten bytes followed by others. *)
Definition note' : uploader.File.t :=
  uploader.File.mk 10 (fun i => if i <? 8 then Byte.x61 else Byte.x62).

Definition notes' (path : string) : option uploader.File.t :=
  if String.eqb path "/data/note.txt" then Some note' else None.

(** A store that refuses the PUT of the part whose URL is [refused]. *)
Definition do_but (refused : string) : uploader.Transport :=
  fun url data =>
    if String.eqb url refused then inl (uploader.Response.mk 403 "" "AccessDenied")
    else do url data.

(** The same surroundings with a channel on which no frame can be
    written. *)
Definition env_mute : Env :=
  mkEnv (time_Now env) (time_Format env) path_Base (rand_Read env) store_up
    (fun _ _ => Some "broken pipe") map_to_list.

(** An [error] response for the transfer, as a peer that fills in the
    payload would send it. *)
Definition failure : sharedModels.ResponseMessage.t :=
  sharedModels.ResponseMessage.mk uploadID sharedModels.ResponseStatusError uploadID
    sharedModels.CommandActionDownloadFile
    (sharedModels.Decoded (JObject [("upload_id", JString uploadID)]))
    "disk full".

(** A [success] response for a transfer nobody has triggered. *)
Definition stray : sharedModels.ResponseMessage.t :=
  sharedModels.ResponseMessage.mk "0000" sharedModels.ResponseStatusSuccess "0000"
    sharedModels.CommandActionDownloadFile
    (sharedModels.Decoded
       (JObject [("upload_id", JString "0000"); ("etags", JObject [("1", JString "a")])]))
    "".

(** A [download_file] command for the ten-byte file, as the agent decodes
    it, and the response that closes it. *)
Definition note_command : sharedModels.CommandMessage.t :=
  sharedModels.receive
    (sharedModels.CommandMessage.mk sharedModels.MessageTypeCommand 1761998403 "note-1"
       sharedModels.CommandActionDownloadFile
       (sharedModels.Built
          (sharedModels.DownloadFilePayload.mk "/data/note.txt" (note_ticket 3) ∅))).

Definition note_done : handler.Frame :=
  handler.SendResponse sharedModels.ResponseStatusSuccess "note-1"
    sharedModels.CommandActionDownloadFile
    (sharedModels.Report
       (sharedModels.DownloadFileResponse.mk "note-1" "/data/note.txt" 10 3 3
          "uploads/note.txt"))
    "".

End scenario.

(** * Properties *)

(** ** Integers that do not wrap *)

Lemma int64_id (x : Z) : - 2 ^ 63 <= x < 2 ^ 63 -> Go.int64 x = x.
Proof.
  intros Hx. unfold Go.int64, Go.wrap.
  change (64 - 1) with 63.
  replace (2 ^ 64) with (2 * 2 ^ 63) by reflexivity.
  rewrite Z.mod_small; lia.
Qed.

Lemma int32_id (x : Z) : - 2 ^ 31 <= x < 2 ^ 31 -> Go.int32 x = x.
Proof.
  intros Hx. unfold Go.int32, Go.wrap.
  change (32 - 1) with 31.
  replace (2 ^ 32) with (2 * 2 ^ 31) by reflexivity.
  rewrite Z.mod_small; lia.
Qed.

Lemma two_63 : 2 ^ 63 = 9223372036854775808.
Proof. reflexivity. Qed.

(** ** The blob-store session behind a ticket *)

Section Session.

Lemma presign_parts_numbers sdk c key uploadID todo urls log urls' log' :
  s3.presign_parts sdk c key uploadID todo urls log = (Returned urls', log') ->
  s3.PresignedURL.PartNumber <$> urls'
  = (s3.PresignedURL.PartNumber <$> urls) ++ ((fun i => Go.int64 (i + 1)) <$> todo).
Proof.
  revert urls log. induction todo as [|i todo IH]; intros urls log; simpl.
  - intros [= <- <-]. by rewrite app_nil_r.
  - destruct (sdk log _) as [url|err]; simpl.
    + intros H. apply IH in H. rewrite H, fmap_app. simpl. by rewrite <- app_assoc.
    + unfold s3.AbortMultipartUpload, s3.call.
      by destruct (sdk _ (s3.AbortMultipartUploadInput _ _ _)).
Qed.

Lemma presign_parts_never_panics sdk c key uploadID todo urls log why log' :
  s3.presign_parts sdk c key uploadID todo urls log <> (Panicked why, log').
Proof.
  revert urls log. induction todo as [|i todo IH]; intros urls log; simpl.
  - discriminate.
  - destruct (sdk log _) as [url|err]; simpl.
    + apply IH.
    + unfold s3.AbortMultipartUpload, s3.call.
      by destruct (sdk _ (s3.AbortMultipartUploadInput _ _ _)).
Qed.

Lemma quotient_bounds F C : 0 < C -> 0 <= F -> 0 <= F / C <= F.
Proof.
  intros HC HF. split; [apply Z.div_pos; lia|]. apply Z.div_le_upper_bound; [lia|].
  replace F with (1 * F) at 1 by lia. apply Z.mul_le_mono_nonneg_r; lia.
Qed.

Lemma InitiateMultipartUpload_parts sdk c log cfg mu log' :
  0 < s3.MultipartUploadConfig.ChunkSize cfg ->
  0 <= s3.MultipartUploadConfig.FileSize cfg < 2 ^ 62 ->
  s3.InitiateMultipartUpload sdk c log cfg = (Returned mu, log') ->
  s3.MultipartUpload.TotalParts mu
    = s3.ceiling (s3.MultipartUploadConfig.FileSize cfg) (s3.MultipartUploadConfig.ChunkSize cfg)
  /\ s3.PresignedURL.PartNumber <$> s3.MultipartUpload.PresignedURLs mu
    = seqZ 1 (s3.MultipartUpload.TotalParts mu).
Proof.
  intros Hc Hf. unfold s3.InitiateMultipartUpload, s3.call.
  destruct cfg as [key F C md]; simpl in *.
  destruct (sdk log _) as [uploadID|err]; [|discriminate].
  destruct (Z.eqb_spec C 0) as [->|_]; [lia|].
  pose proof (quotient_bounds F C Hc (proj1 Hf)) as Hq.
  assert (HF : F = C * (F / C) + F mod C) by (apply Z.div_mod; lia).
  assert (Hm : 0 <= F mod C < C) by (apply Z.mod_pos_bound; lia).
  rewrite Z.quot_div_nonneg, Z.rem_mod_nonneg by lia.
  rewrite (int64_id (F / C)) by lia.
  set (n := if negb (F mod C =? 0) then Go.int64 (F / C + 1) else F / C).
  assert (Hn : n = s3.ceiling F C).
  { unfold n, s3.ceiling. destruct (Z.eqb_spec (F mod C) 0) as [H0|H0]; simpl.
    - apply Z.div_unique with (r := C - 1); lia.
    - rewrite int64_id by lia.
      apply Z.div_unique with (r := F mod C - 1); lia. }
  assert (0 <= n <= F / C + 1).
  { unfold n. destruct (negb _); [rewrite int64_id|]; lia. }
  destruct (Z.ltb_spec n 0); [lia|].
  destruct (s3.presign_parts _ _ _ _ _ _ _) as [[urls|err|why] log1] eqn:Hp; [|discriminate..].
  intros [= <- <-]; simpl. split; [done|].
  apply presign_parts_numbers in Hp. rewrite Hp. simpl.
  apply list_eq. intros i. rewrite list_lookup_fmap.
  destruct (decide (Z.of_nat i < n)) as [Hi|Hi].
  - rewrite !lookup_seqZ_lt by lia. simpl. f_equal. rewrite int64_id; lia.
  - rewrite !lookup_seqZ_ge by lia. done.
Qed.

Lemma InitiateMultipartUpload_no_panic sdk c log cfg why log' :
  0 < s3.MultipartUploadConfig.ChunkSize cfg ->
  0 <= s3.MultipartUploadConfig.FileSize cfg < 2 ^ 62 ->
  s3.InitiateMultipartUpload sdk c log cfg <> (Panicked why, log').
Proof.
  intros Hc Hf. unfold s3.InitiateMultipartUpload, s3.call.
  destruct cfg as [key F C md]; simpl in *.
  destruct (sdk log _) as [uploadID|err]; [|discriminate].
  destruct (Z.eqb_spec C 0) as [->|_]; [lia|].
  pose proof (quotient_bounds F C Hc (proj1 Hf)) as Hq.
  rewrite Z.quot_div_nonneg by lia.
  rewrite (int64_id (F / C)) by lia.
  set (n := if negb (Z.rem F C =? 0) then Go.int64 (F / C + 1) else F / C).
  assert (0 <= n) by (unfold n; destruct (negb _); [rewrite int64_id|]; lia).
  destruct (Z.ltb_spec n 0); [lia|].
  destruct (s3.presign_parts _ _ _ _ _ _ _) as [[urls|err|why'] log1] eqn:Hp;
    try discriminate.
  by apply presign_parts_never_panics in Hp.
Qed.

End Session.

(** ** Triggering a transfer *)

Section Trigger.

Import models server api.

#[local] Arguments Go.hex_EncodeToString : simpl never.

Lemma estimatedFileSize_eq : estimatedFileSize = 104857600.
Proof. reflexivity. Qed.

Lemma commanded_path_nonempty r : commanded_path r <> "".
Proof.
  unfold commanded_path.
  destruct (String.eqb_spec (TriggerDownloadRequest.FilePath
              (default (TriggerDownloadRequest.mk "" ∅) (Request.Body r))) "");
    [discriminate|done].
Qed.

(** A trigger that is answered with a transfer id has drawn the id from
    the random source, opened a blob-store session, filed a record and
    written one command frame. *)
Lemma TriggerDownload_issued env h w r status data w' :
  TriggerDownload env h w r = (sendJSON status data, w') ->
  exists src mu client stamp began,
    let uploadID := TriggerDownloadResponse.UploadID data in
    let clientID := path_Base env (Request.Path r) in
    status = 200
    /\ rand_Read env (draws w) = Some src
    /\ uploadID = Go.hex_EncodeToString (src <$> seq 0 16)
    /\ clients w !! clientID = Some client
    /\ s3.InitiateMultipartUpload (sdk env) (Handler.s3Client h) (requests w)
         (s3.MultipartUploadConfig.mk (TriggerDownloadResponse.S3Key data) estimatedFileSize
            (Handler.chunkSize h) (commanded_metadata r))
       = (Returned mu, requests w')
    /\ written w'
       = written w
         ++ [(ClientConnection.Connection client,
              sharedModels.CommandMessage.mk sharedModels.MessageTypeCommand stamp uploadID
                sharedModels.CommandActionDownloadFile
                (sharedModels.Built
                   (sharedModels.DownloadFilePayload.mk (commanded_path r)
                      (ticket_of h uploadID mu) (commanded_metadata r))))]
    /\ uploads w'
       = <[uploadID :=
             SetS3UploadID
               (NewUploadStatus uploadID clientID (commanded_path r)
                  (s3.MultipartUpload.Bucket mu) (s3.MultipartUpload.Key mu)
                  estimatedFileSize (Handler.chunkSize h) (s3.MultipartUpload.TotalParts mu)
                  began)
               (s3.MultipartUpload.UploadID mu)]> (uploads w).
Proof.
  unfold TriggerDownload, generateUploadID, Read, SendCommand, GetClient, IsClientConnected.
  fold (commanded_path r). fold (commanded_metadata r).
  destruct (negb (String.eqb _ "POST")); [discriminate|].
  destruct (_ || _); [discriminate|].
  case_bool_decide as Hc; simpl; [|discriminate].
  destruct Hc as [client Hc].
  destruct (rand_Read env (draws w)) as [src|] eqn:Hsrc; simpl; [|discriminate].
  destruct (s3.InitiateMultipartUpload _ _ _ _) as [[mu|err|why] log] eqn:Hmu; simpl;
    [|discriminate..].
  rewrite Hc. simpl.
  destruct (WriteJSON env _ _) as [err|]; simpl; [discriminate|].
  intros [= <- <- <-]. simpl.
  eexists src, mu, client, _, _. repeat split; try done.
Qed.





(** C9, as stated, fails: the trigger for the agent that holds a 12 MB
    file, with 5 MB chunks, issues a ticket of 20 parts and files a record
    of 20 parts, where the file needs 3. *)
Lemma ticket_size_counterexample :
  (fun ticket => length (sharedModels.UploadConfig.PresignedURLs ticket))
    <$> scenario.tickets scenario.triggered = [20%nat]
  /\ UploadStatus.TotalParts <$> scenario.record scenario.triggered = Some 20
  /\ uploader.CalculateParts (uploader.File.Size scenario.file) (Handler.chunkSize scenario.h) = 3.
Proof. repeat split; vm_compute; reflexivity. Qed.

(** C9, amended: the ticket of a triggered transfer is sized to the fixed
    ceiling of 100 MB, whatever the size of the file: it carries the parts
    1, 2, ... up to the number of chunks that cover 100 MB, the record
    carries the same total and the ceiling as file size; with 5 MB chunks
    that is exactly 20 presigned part URLs. *)
Theorem ticket_covers_the_ceiling env h w r status data w' :
  0 < Handler.chunkSize h ->
  TriggerDownload env h w r = (sendJSON status data, w') ->
  exists conn cmd payload record,
    let ticket := sharedModels.DownloadFilePayload.Config payload in
    let parts := s3.ceiling (100 * 1024 * 1024) (Handler.chunkSize h) in
    written w' = written w ++ [(conn, cmd)]
    /\ sharedModels.CommandMessage.Payload cmd = sharedModels.Built payload
    /\ sharedModels.PresignedURL.PartNumber <$> sharedModels.UploadConfig.PresignedURLs ticket
       = seqZ 1 parts
    /\ uploads w' !! TriggerDownloadResponse.UploadID data = Some record
    /\ UploadStatus.TotalParts record = parts
    /\ UploadStatus.FileSize record = 100 * 1024 * 1024
    /\ (Handler.chunkSize h = 5 * 1024 * 1024 ->
        length (sharedModels.UploadConfig.PresignedURLs ticket) = 20%nat).
Proof.
  intros Hpos HT.
  apply TriggerDownload_issued in HT
    as (src & mu & client & stamp & began & -> & _ & _ & _ & Hmu & Hw & Hup).
  apply InitiateMultipartUpload_parts in Hmu as [Htotal Hnum];
    [|done|simpl; rewrite estimatedFileSize_eq; lia].
  simpl in Htotal. rewrite estimatedFileSize_eq in Htotal.
  eexists _, _, _, _. repeat split.
  - exact Hw.
  - reflexivity.
  - simpl. rewrite <- list_fmap_compose. simpl.
    change (100 * 1024 * 1024) with 104857600. rewrite <- Htotal, <- Hnum.
    by apply list_fmap_ext.
  - rewrite Hup. apply lookup_insert_eq.
  - simpl. by rewrite Htotal.
  - reflexivity.
  - intros H5. simpl. rewrite length_fmap.
    rewrite <- (length_fmap s3.PresignedURL.PartNumber), Hnum, length_seqZ, Htotal, H5.
    reflexivity.
Qed.

(** The amended C9 at work on the trigger for ["agent-1"]. *)
Lemma ticket_covers_the_ceiling_witness :
  exists conn cmd payload record,
    written scenario.triggered = written scenario.registered ++ [(conn, cmd)]
    /\ sharedModels.CommandMessage.Payload cmd = sharedModels.Built payload
    /\ sharedModels.PresignedURL.PartNumber
         <$> sharedModels.UploadConfig.PresignedURLs
               (sharedModels.DownloadFilePayload.Config payload)
       = seqZ 1 (s3.ceiling (100 * 1024 * 1024) (Handler.chunkSize scenario.h))
    /\ uploads scenario.triggered !! scenario.uploadID = Some record
    /\ UploadStatus.TotalParts record
       = s3.ceiling (100 * 1024 * 1024) (Handler.chunkSize scenario.h)
    /\ UploadStatus.FileSize record = 100 * 1024 * 1024
    /\ (Handler.chunkSize scenario.h = 5 * 1024 * 1024 ->
        length (sharedModels.UploadConfig.PresignedURLs
                  (sharedModels.DownloadFilePayload.Config payload)) = 20%nat).
Proof.
  apply (ticket_covers_the_ceiling scenario.env scenario.h scenario.registered scenario.trigger
           200
           (TriggerDownloadResponse.mk true "Download triggered for client agent-1"
              scenario.uploadID scenario.key)
           scenario.triggered);
    [vm_compute; reflexivity|vm_compute; reflexivity].
Defined.



End Trigger.

(** ** The channel registry *)

Section Registry.

Import models server api coordinator.

Lemma run_snoc env w ops op : run env w (ops ++ [op]) = step env (run env w ops) op.
Proof. unfold run. by rewrite foldl_app. Qed.

Lemma RegisterClient_clients env w clientID conn :
  clients (RegisterClient env w clientID conn)
  = <[clientID := NewClientConnection clientID conn (time_Now env (ticks w))]> (clients w).
Proof. unfold RegisterClient. by destruct (clients w !! clientID). Qed.

Lemma RegisterClient_closed env w clientID conn :
  closed (RegisterClient env w clientID conn)
  = closed w ++ match clients w !! clientID with
                | Some old => [ClientConnection.Connection old]
                | None => []
                end.
Proof.
  unfold RegisterClient. destruct (clients w !! clientID); simpl; [done|].
  by rewrite app_nil_r.
Qed.

Lemma UnregisterClient_clients w clientID :
  clients (UnregisterClient w clientID) = delete clientID (clients w).
Proof.
  unfold UnregisterClient. destruct (clients w !! clientID) eqn:H; simpl; [done|].
  by rewrite delete_id.
Qed.

Lemma UnregisterClient_closed w clientID :
  closed (UnregisterClient w clientID)
  = closed w ++ match clients w !! clientID with
                | Some old => [ClientConnection.Connection old]
                | None => []
                end.
Proof.
  unfold UnregisterClient. destruct (clients w !! clientID); simpl; [done|].
  by rewrite app_nil_r.
Qed.

(** The handlers of frames and of triggers close nothing and keep every
    handle where it is, but for the time of its last activity. *)
Lemma HandleStatus_channels w clientID msg : same_channels w (HandleStatus w clientID msg).
Proof.
  unfold HandleStatus, GetUpload.
  destruct (sharedModels.StatusMessage.CurrentUpload msg) as [current|]; [|by split; [|left]].
  destruct (uploads w !! _); by split; [|left].
Qed.

Lemma HandleResponse_channels env h w clientID msg :
  same_channels w (HandleResponse env h w clientID msg).
Proof.
  unfold HandleResponse, GetUpload.
  destruct (negb _); [by split; [|left]|].
  destruct (sharedModels.ResponseMessage.Payload msg) as [| | |[| | | | |payload]];
    try by split; [|left].
  destruct (uploads w !! _) as [upload|]; [|by split; [|left]].
  destruct (String.eqb _ sharedModels.ResponseStatusSuccess).
  - simpl. destruct (0 <? _); [|by split; [|left]].
    unfold s3.CompleteMultipartUpload, s3.call. simpl.
    destruct (sdk env _ _); by split; [|left].
  - destruct (String.eqb _ sharedModels.ResponseStatusError).
    { unfold s3.AbortMultipartUpload, s3.call. simpl.
      destruct (sdk env _ _); by split; [|left]. }
    destruct (String.eqb _ sharedModels.ResponseStatusCancelled); [|by split; [|left]].
    unfold s3.AbortMultipartUpload, s3.call. simpl.
    destruct (sdk env _ _); by split; [|left].
Qed.

Lemma TriggerDownload_channels env h w r :
  same_channels w (TriggerDownload env h w r).2.
Proof.
  unfold TriggerDownload, generateUploadID, Read, SendCommand, GetClient, IsClientConnected.
  destruct (negb (String.eqb _ "POST")); [by split; [|left]|].
  destruct (_ || _); [by split; [|left]|].
  case_bool_decide as Hc; simpl; [|by split; [|left]].
  destruct Hc as [client Hc].
  destruct (rand_Read env (draws w)) as [src|]; simpl; [|by split; [|left]].
  destruct (s3.InitiateMultipartUpload _ _ _ _) as [[mu|err|why] log]; simpl;
    [|by split; [|left]..].
  rewrite Hc. simpl.
  destruct (WriteJSON env _ _) as [err|]; simpl; [by split; [|left]|].
  split; [done|]. right. by eexists _, client, _.
Qed.

Lemma step_channels env w op :
  match op with Enter _ _ | Leave _ => True | _ => same_channels w (step env w op) end.
Proof.
  destruct op; simpl; [done|done|..].
  - apply HandleResponse_channels.
  - apply HandleStatus_channels.
  - apply TriggerDownload_channels.
Qed.

Lemma same_channels_keyed w w' : same_channels w w' -> keyed w -> keyed w'.
Proof.
  intros [_ [Heq|(id & client & now & Hl & Heq)]] Hk k c; rewrite Heq; [by apply Hk|].
  intros [[<- <-]|[_ H]]%lookup_insert_Some; [by apply (Hk id client)|by apply Hk].
Qed.

Lemma step_keyed env w op : keyed w -> keyed (step env w op).
Proof.
  intros Hk. pose proof (step_channels env w op) as Hsame.
  destruct op as [clientID conn|clientID| | |]; try by eapply same_channels_keyed.
  - intros k c. unfold step.
    rewrite RegisterClient_clients. intros [[<- <-]|[_ H]]%lookup_insert_Some; [done|].
    by apply Hk.
  - intros k c. unfold step.
    rewrite UnregisterClient_clients. intros [_ H]%lookup_delete_Some. by apply Hk.
Qed.

Lemma run_keyed env ops : keyed (run env NewManager ops).
Proof.
  induction ops as [|op ops IH] using rev_ind.
  - intros k c. simpl. by rewrite lookup_empty.
  - rewrite run_snoc. by apply step_keyed.
Qed.

Lemma handles_of_keyed w clientID :
  keyed w ->
  handles_of w clientID
  = match clients w !! clientID with
    | Some handle => {[clientID := handle]}
    | None => ∅
    end.
Proof.
  intros Hk. apply map_eq. intros k. unfold handles_of.
  destruct (decide (k = clientID)) as [->|Hne].
  - destruct (clients w !! clientID) as [handle|] eqn:Hl.
    + rewrite lookup_singleton_eq. apply map_lookup_filter_Some. split; [done|].
      simpl. by apply Hk.
    + rewrite lookup_empty. apply map_lookup_filter_None. left. done.
  - transitivity (@None ClientConnection.t).
    + apply map_lookup_filter_None. right. intros c Hc. simpl.
      apply Hk in Hc. congruence.
    + destruct (clients w !! clientID); [by rewrite lookup_singleton_ne|by rewrite lookup_empty].
Qed.

Lemma same_channels_open w w' clientID conn :
  same_channels w w' ->
  (conn ∈ closed w
   \/ exists handle, clients w !! clientID = Some handle
                     /\ ClientConnection.Connection handle = conn) ->
  conn ∈ closed w'
  \/ exists handle, clients w' !! clientID = Some handle
                    /\ ClientConnection.Connection handle = conn.
Proof.
  intros [Hcl Hclients] [Hin|(handle & Hl & Hc)]; [left; by rewrite Hcl|]. right.
  destruct Hclients as [Heq|(id & client & now & Hid & Heq)]; rewrite Heq; [by exists handle|].
  destruct (decide (id = clientID)) as [->|Hne].
  - rewrite lookup_insert_eq. eexists. split; [done|]. simpl. congruence.
  - rewrite lookup_insert_ne by done. by exists handle.
Qed.

(** A connection registered for an agent is the one the registry holds
    for it, or has been closed. *)
Lemma run_no_leak env ops clientID conn :
  Enter clientID conn ∈ ops ->
  let w := run env NewManager ops in
  conn ∈ closed w
  \/ exists handle, clients w !! clientID = Some handle
                    /\ ClientConnection.Connection handle = conn.
Proof.
  induction ops as [|op ops IH] using rev_ind; [by intros ?%elem_of_nil|].
  intros [Hin|Hin%list_elem_of_singleton]%elem_of_app; rewrite run_snoc.
  - specialize (IH Hin). simpl in IH. set (w := run env NewManager ops) in *.
    pose proof (step_channels env w op) as Hsame.
    destruct op as [id c|id| | |]; try by eapply same_channels_open.
    + unfold step. rewrite RegisterClient_closed, RegisterClient_clients.
      destruct IH as [Hcl|(handle & Hl & Hc)]; [left; set_solver|].
      destruct (decide (id = clientID)) as [->|Hne].
      * left. rewrite Hl. set_solver.
      * right. exists handle. by rewrite lookup_insert_ne.
    + unfold step. rewrite UnregisterClient_closed, UnregisterClient_clients.
      destruct IH as [Hcl|(handle & Hl & Hc)]; [left; set_solver|].
      destruct (decide (id = clientID)) as [->|Hne].
      * left. rewrite Hl. set_solver.
      * right. exists handle. by rewrite lookup_delete_ne.
  - subst op. unfold step. right. rewrite RegisterClient_clients, lookup_insert_eq.
    by eexists.
Qed.

(** C7: in every state the coordinator reaches from [NewManager], while
    channels come (register) and go (unregister) and frames and triggers
    are handled, the registry holds at most one handle for an agent id.
    Registering a channel for the id closes the connection of the handle
    already there, if any, and leaves exactly one handle for the id, the
    new one.  Of all the connections ever registered for the id, the only
    one that may still be open is the one of the handle the registry
    holds. *)
Theorem one_handle_per_agent env ops clientID :
  let w := run env NewManager ops in
  (size (handles_of w clientID) <= 1)%nat
  /\ (forall conn,
        let w' := RegisterClient env w clientID conn in
        size (handles_of w' clientID) = 1%nat
        /\ (exists handle,
              clients w' !! clientID = Some handle
              /\ ClientConnection.Connection handle = conn
              /\ ClientConnection.ClientID handle = clientID)
        /\ (forall old, clients w !! clientID = Some old ->
              closed w' = closed w ++ [ClientConnection.Connection old])
        /\ (clients w !! clientID = None -> closed w' = closed w))
  /\ (forall conn,
        Enter clientID conn ∈ ops ->
        conn ∈ closed w
        \/ exists handle, clients w !! clientID = Some handle
                          /\ ClientConnection.Connection handle = conn).
Proof.
  intros w. pose proof (run_keyed env ops) as Hk. fold w in Hk. split; [|split].
  - rewrite handles_of_keyed by done.
    destruct (clients w !! clientID); [rewrite map_size_singleton|rewrite map_size_empty]; lia.
  - intros conn w'.
    assert (Hk' : keyed w') by apply (step_keyed env w (Enter clientID conn) Hk).
    assert (Hl : clients w' !! clientID
                 = Some (NewClientConnection clientID conn (time_Now env (ticks w)))).
    { unfold w'. by rewrite RegisterClient_clients, lookup_insert_eq. }
    repeat split.
    + rewrite handles_of_keyed, Hl by done. by rewrite map_size_singleton.
    + by eexists.
    + intros old Hold. unfold w'. by rewrite RegisterClient_closed, Hold.
    + intros Hnone. unfold w'. by rewrite RegisterClient_closed, Hnone, app_nil_r.
  - intros conn Hin. by apply run_no_leak.
Qed.

(** C7 at work: ["agent-1"] registers on connection 1, a transfer is
    triggered, and, the socket still open, the agent registers again on
    connection 2.  Connection 1 is closed by the second registration and
    the registry holds one handle, for connection 2. *)
Lemma one_handle_per_agent_witness :
  let w := run scenario.env NewManager
             [Enter "agent-1" 1%nat; Trigger scenario.h scenario.trigger] in
  let w' := RegisterClient scenario.env w "agent-1" 2%nat in
  size (handles_of w' "agent-1") = 1%nat
  /\ (exists handle,
        clients w' !! "agent-1" = Some handle
        /\ ClientConnection.Connection handle = 2%nat
        /\ ClientConnection.ClientID handle = "agent-1")
  /\ closed w' = [1%nat].
Proof.
  intros w w'.
  destruct (one_handle_per_agent scenario.env
              [Enter "agent-1" 1%nat; Trigger scenario.h scenario.trigger] "agent-1")
    as (_ & Hregister & _).
  destruct (Hregister 2%nat) as (Hone & Hnew & Hclose & _).
  split; [exact Hone|]. split; [exact Hnew|].
  etransitivity.
  - apply (Hclose (default (NewClientConnection "" 0%nat 0) (clients w !! "agent-1"))).
    vm_compute. reflexivity.
  - vm_compute. reflexivity.
Defined.

End Registry.

(** ** [sort.Slice] on keys that are pairwise different *)

Section Sorting.

Context {A : Type} (key : A -> Z).

Local Abbreviation less := (fun a b : A => key a <? key b).

Lemma sort_insert_perm x l : Go.sort_insert less x l ≡ₚ x :: l.
Proof.
  induction l as [|y l IH]; simpl; [done|].
  destruct (key y <? key x); [|done]. rewrite IH. apply Permutation_swap.
Qed.

Lemma sort_Slice_perm l : Go.sort_Slice less l ≡ₚ l.
Proof.
  induction l as [|x l IH]; simpl; [done|]. by rewrite sort_insert_perm, IH.
Qed.

Lemma sort_insert_sorted x l :
  StronglySorted (fun a b => key a <= key b) l ->
  StronglySorted (fun a b => key a <= key b) (Go.sort_insert less x l).
Proof.
  induction 1 as [|y l Hs IH Hy]; simpl; [repeat constructor|].
  destruct (Z.ltb_spec (key y) (key x)) as [Hlt|Hge].
  - constructor; [done|].
    rewrite sort_insert_perm. constructor; [lia|done].
  - constructor; [by constructor|].
    constructor; [done|]. eapply Forall_impl; [exact Hy|]. simpl. intros. lia.
Qed.

Lemma sort_Slice_sorted l :
  StronglySorted (fun a b => key a <= key b) (Go.sort_Slice less l).
Proof.
  induction l as [|x l IH]; simpl; [constructor|]. by apply sort_insert_sorted.
Qed.

Lemma sorted_strict l :
  StronglySorted (fun a b => key a <= key b) l ->
  NoDup (key <$> l) ->
  StronglySorted (fun a b => key a < key b) l.
Proof.
  induction 1 as [|x l Hs IH Hx]; [constructor|].
  rewrite fmap_cons. intros [Hnotin Hnd]%NoDup_cons. constructor; [by apply IH|].
  rewrite Forall_forall in Hx |- *. intros y Hy.
  specialize (Hx y Hy). simpl in Hx.
  assert (key x <> key y); [|lia].
  intros Heq. apply Hnotin. rewrite Heq. by apply list_elem_of_fmap_2.
Qed.

Lemma sort_Slice_strict l :
  NoDup (key <$> l) ->
  StronglySorted (fun a b => key a < key b) (Go.sort_Slice less l).
Proof.
  intros Hnd. apply sorted_strict; [apply sort_Slice_sorted|].
  by rewrite sort_Slice_perm.
Qed.

(** Whatever algorithm the library runs, an ordered rearrangement of a
    slice with pairwise different keys is the list [sort_Slice] returns. *)
Lemma sort_Slice_unique l l' :
  l' ≡ₚ l ->
  StronglySorted (fun a b => key a <= key b) l' ->
  NoDup (key <$> l) ->
  l' = Go.sort_Slice less l.
Proof.
  intros Hp Hs Hnd.
  assert (Hnd' : NoDup (key <$> l')) by by rewrite Hp.
  assert (Hp' : l' ≡ₚ Go.sort_Slice less l) by by rewrite sort_Slice_perm.
  pose proof (sort_Slice_strict l Hnd) as Hs2.
  apply sorted_strict in Hs; [|done].
  clear Hp Hnd Hnd'. revert Hp' Hs Hs2. generalize (Go.sort_Slice less l). intros l2.
  revert l2. induction l' as [|x l' IH]; intros l2 Hp Hs Hs2.
  - by apply Permutation_nil_l in Hp.
  - destruct l2 as [|y l2]; [by apply Permutation_nil_r in Hp|].
    apply StronglySorted_inv in Hs as [Hs Hx]. apply StronglySorted_inv in Hs2 as [Hs2 Hy].
    rewrite Forall_forall in Hx, Hy.
    assert (x = y) as ->.
    { assert (Hxin : x ∈ y :: l2) by (rewrite <- Hp; left).
      assert (Hyin : y ∈ x :: l') by (rewrite Hp; left).
      apply elem_of_cons in Hxin as [|Hxin]; [done|].
      apply elem_of_cons in Hyin as [|Hyin]; [done|].
      specialize (Hx _ Hyin). specialize (Hy _ Hxin). simpl in *. lia. }
    f_equal. apply IH; [|done..]. by apply Permutation_cons_inv in Hp.
Qed.

End Sorting.

(** ** Responses and status frames at the coordinator *)

Section Completion.

Import models server api.

Lemma completed_parts_ascending env etags :
  faithful_range env ->
  StronglySorted (fun a b => s3.CompletedPart.PartNumber a < s3.CompletedPart.PartNumber b)
    (completed_parts env etags).
Proof.
  intros Hr. unfold completed_parts. apply (sort_Slice_strict s3.CompletedPart.PartNumber).
  rewrite <- list_fmap_compose.
  erewrite list_fmap_ext; [|intros ? [n e] _; reflexivity]. simpl.
  change (NoDup ((range_etags env etags).*1)).
  rewrite (Hr etags). apply NoDup_fst_map_to_list.
Qed.

Lemma completed_parts_entries env etags n e :
  faithful_range env ->
  s3.CompletedPart.mk n e ∈ completed_parts env etags <-> etags !! n = Some e.
Proof.
  intros Hr. unfold completed_parts.
  rewrite (sort_Slice_perm s3.CompletedPart.PartNumber), (Hr etags).
  rewrite list_elem_of_fmap. split.
  - intros ([n' e'] & [= -> ->] & Hin). by apply elem_of_map_to_list in Hin.
  - intros Hl. exists (n, e). split; [done|]. by apply elem_of_map_to_list.
Qed.

Lemma narrowed_ascending parts :
  StronglySorted (fun a b => s3.CompletedPart.PartNumber a < s3.CompletedPart.PartNumber b)
    parts ->
  Forall (fun p => - 2 ^ 31 <= s3.CompletedPart.PartNumber p < 2 ^ 31) parts ->
  StronglySorted (fun a b : Z * string => a.1 < b.1) (s3.narrowed <$> parts).
Proof.
  induction 1 as [|x l Hs IH Hx]; intros Hr; [constructor|].
  apply Forall_cons in Hr as [Hrx Hr]. rewrite fmap_cons. constructor; [by apply IH|].
  rewrite Forall_fmap. rewrite Forall_forall in Hx, Hr |- *. intros y Hy.
  specialize (Hx y Hy). specialize (Hr y Hy). simpl in *.
  rewrite !int32_id by lia. done.
Qed.

(** What [HandleResponse] asks of the blob store: nothing, one completion
    (a success with digests) or one abort (an error or a cancellation). *)
Lemma HandleResponse_requests env h w clientID msg :
  requests (HandleResponse env h w clientID msg) = requests w
  \/ (exists upload,
        (sharedModels.ResponseMessage.Status msg = sharedModels.ResponseStatusSuccess
         /\ digests_of msg <> ∅
         /\ requests (HandleResponse env h w clientID msg)
            = requests w
              ++ [s3.CompleteMultipartUploadInput (s3.Client.bucket (Handler.s3Client h))
                    (UploadStatus.S3Key upload) (UploadStatus.S3UploadID upload)
                    (s3.narrowed <$> completed_parts env (digests_of msg))])
        \/ (sharedModels.ResponseMessage.Status msg <> sharedModels.ResponseStatusSuccess
            /\ requests (HandleResponse env h w clientID msg)
               = requests w
                 ++ [s3.AbortMultipartUploadInput (s3.Client.bucket (Handler.s3Client h))
                       (UploadStatus.S3Key upload) (UploadStatus.S3UploadID upload)])).
Proof.
  unfold HandleResponse, digests_of.
  destruct (negb _); [by left|].
  destruct (sharedModels.ResponseMessage.Payload msg) as [| | |[| | | | |payload]]; try by left.
  unfold GetUpload.
  destruct (uploads w !! _) as [upload|] eqn:Hup; [|by left].
  destruct (String.eqb_spec (sharedModels.ResponseMessage.Status msg)
              sharedModels.ResponseStatusSuccess) as [Hs|Hs].
  - simpl. set (etags := match Go.as_object _ with Some _ => _ | None => _ end).
    destruct (Z.ltb_spec 0 (Z.of_nat (size etags))) as [Hpos|Hzero]; [|by left].
    right. exists upload. left. split; [done|]. split.
    { intros Hempty. rewrite Hempty, map_size_empty in Hpos. lia. }
    unfold s3.CompleteMultipartUpload, s3.call. simpl.
    by destruct (sdk env _ _).
  - destruct (String.eqb_spec (sharedModels.ResponseMessage.Status msg)
                sharedModels.ResponseStatusError).
    { right. exists upload. right. split; [done|].
      unfold s3.AbortMultipartUpload, s3.call. simpl. by destruct (sdk env _ _). }
    destruct (String.eqb_spec (sharedModels.ResponseMessage.Status msg)
                sharedModels.ResponseStatusCancelled); [|by left].
    right. exists upload. right. split; [done|].
    unfold s3.AbortMultipartUpload, s3.call. simpl. by destruct (sdk env _ _).
Qed.

(** A success response with digests for a known transfer: exactly one
    request is made, the completion of the record's session with the
    sorted parts, each narrowed to the SDK's 32 bits. *)
Lemma HandleResponse_completes env h w clientID msg payload upload :
  sharedModels.ResponseMessage.Action msg = sharedModels.CommandActionDownloadFile ->
  sharedModels.ResponseMessage.Payload msg = sharedModels.Decoded (JObject payload) ->
  uploads w !! default "" (Go.as_string (Go.index payload "upload_id")) = Some upload ->
  sharedModels.ResponseMessage.Status msg = sharedModels.ResponseStatusSuccess ->
  digests_of msg <> ∅ ->
  requests (HandleResponse env h w clientID msg)
  = requests w
    ++ [s3.CompleteMultipartUploadInput (s3.Client.bucket (Handler.s3Client h))
          (UploadStatus.S3Key upload) (UploadStatus.S3UploadID upload)
          (s3.narrowed <$> completed_parts env (digests_of msg))].
Proof.
  intros Haction Hpayload Hup Hstatus Hdigests.
  unfold HandleResponse, digests_of, GetUpload in *.
  rewrite Haction, Hpayload, Hstatus in *.
  replace (String.eqb sharedModels.CommandActionDownloadFile
             sharedModels.CommandActionDownloadFile) with true by done.
  replace (String.eqb sharedModels.ResponseStatusSuccess
             sharedModels.ResponseStatusSuccess) with true by done.
  cbn [negb]. rewrite Hup. simpl.
  set (etags := match Go.as_object _ with Some _ => _ | None => _ end) in *.
  destruct (Z.ltb_spec 0 (Z.of_nat (size etags))) as [Hpos|Hzero].
  - unfold s3.CompleteMultipartUpload, s3.call. simpl. by destruct (sdk env _ _).
  - exfalso. apply Hdigests, map_size_empty_iff. lia.
Qed.

Lemma narrowed_within parts :
  Forall (fun p => - 2 ^ 31 <= s3.CompletedPart.PartNumber p < 2 ^ 31) parts ->
  s3.narrowed <$> parts
  = (fun p => (s3.CompletedPart.PartNumber p, s3.CompletedPart.ETag p)) <$> parts.
Proof.
  intros Hr. apply Forall_fmap_ext. eapply Forall_impl; [exact Hr|].
  intros p Hp. unfold s3.narrowed. by rewrite int32_id.
Qed.

(** C3, as stated, fails: a success response for the transfer carries the
    digests of the parts 2 and 4294967297; the parts are sorted, and the
    list the blob-store client passes to the completion operation of the
    SDK, whose part numbers have 32 bits, is part 2 followed by part 1. *)
Lemma completion_order_counterexample :
  requests (HandleResponse scenario.env scenario.h scenario.triggered "agent-1"
              scenario.oversized)
  = requests scenario.triggered
    ++ [s3.CompleteMultipartUploadInput "file-download-system-uploads" scenario.key "session-1"
          [(2, "a"); (1, "b")]]
  /\ ~ Sorted (fun a b : Z * string => a.1 <= b.1) [(2, "a"); (1, "b")].
Proof.
  split; [vm_compute; reflexivity|].
  intros Hs. inversion Hs as [|? ? _ Hhd]. inversion Hhd as [|? ? Hle]. cbn in Hle. lia.
Qed.

(** C3, amended: a success response for a known transfer that carries
    digests makes the coordinator ask exactly one thing of the blob store,
    the completion of the transfer's session.  Whatever the order in which
    the digests arrive in the response and whatever the order in which
    [range] visits the two maps, the slice handed to the blob-store client
    is in strictly ascending order of part number and holds exactly the
    entries of the digest map.  What the client passes on to the SDK is
    that slice with each part number narrowed to 32 bits; when every part
    number of the response fits 32 bits it is the same list of parts, in
    strictly ascending order. *)
Theorem completion_in_part_order env h w clientID msg payload upload :
  faithful_range env ->
  sharedModels.ResponseMessage.Action msg = sharedModels.CommandActionDownloadFile ->
  sharedModels.ResponseMessage.Payload msg = sharedModels.Decoded (JObject payload) ->
  uploads w !! default "" (Go.as_string (Go.index payload "upload_id")) = Some upload ->
  sharedModels.ResponseMessage.Status msg = sharedModels.ResponseStatusSuccess ->
  digests_of msg <> ∅ ->
  exists parts,
    requests (HandleResponse env h w clientID msg)
    = requests w
      ++ [s3.CompleteMultipartUploadInput (s3.Client.bucket (Handler.s3Client h))
            (UploadStatus.S3Key upload) (UploadStatus.S3UploadID upload)
            (s3.narrowed <$> parts)]
    /\ StronglySorted
         (fun a b => s3.CompletedPart.PartNumber a < s3.CompletedPart.PartNumber b) parts
    /\ (forall n e, s3.CompletedPart.mk n e ∈ parts <-> digests_of msg !! n = Some e)
    /\ ((forall n, is_Some (digests_of msg !! n) -> - 2 ^ 31 <= n < 2 ^ 31) ->
        s3.narrowed <$> parts
        = (fun p => (s3.CompletedPart.PartNumber p, s3.CompletedPart.ETag p)) <$> parts
        /\ StronglySorted (fun a b : Z * string => a.1 < b.1) (s3.narrowed <$> parts)).
Proof.
  intros Hr Haction Hpayload Hup Hstatus Hdigests.
  exists (completed_parts env (digests_of msg)).
  pose proof (completed_parts_ascending env (digests_of msg) Hr) as Hs.
  split; [by eapply HandleResponse_completes|]. split; [done|].
  split; [intros n e; by apply completed_parts_entries|].
  intros Hfit.
  assert (Hall : Forall (fun p => - 2 ^ 31 <= s3.CompletedPart.PartNumber p < 2 ^ 31)
                   (completed_parts env (digests_of msg))).
  { apply Forall_forall. intros [n e] Hin.
    apply completed_parts_entries in Hin; [|done]. apply Hfit. by exists e. }
  split; [by apply narrowed_within|by apply narrowed_ascending].
Qed.

(** C3 at work: the digests of parts 3, 1 and 2, arriving in this order,
    are sent to the blob store as parts 1, 2, 3, in one request. *)
Lemma completion_in_part_order_witness :
  exists parts,
    requests scenario.completed
    = requests scenario.triggered
      ++ [s3.CompleteMultipartUploadInput
            (s3.Client.bucket (Handler.s3Client scenario.h))
            (UploadStatus.S3Key
               (SetS3UploadID
                  (NewUploadStatus scenario.uploadID "agent-1" "/data/test-file.bin"
                     "file-download-system-uploads" scenario.key 104857600 5242880 20
                     1761998402)
                  "session-1"))
            (UploadStatus.S3UploadID
               (SetS3UploadID
                  (NewUploadStatus scenario.uploadID "agent-1" "/data/test-file.bin"
                     "file-download-system-uploads" scenario.key 104857600 5242880 20
                     1761998402)
                  "session-1"))
            (s3.narrowed <$> parts)]
    /\ StronglySorted
         (fun a b => s3.CompletedPart.PartNumber a < s3.CompletedPart.PartNumber b) parts
    /\ (forall n e,
          s3.CompletedPart.mk n e ∈ parts <-> digests_of scenario.success !! n = Some e)
    /\ ((forall n, is_Some (digests_of scenario.success !! n) -> - 2 ^ 31 <= n < 2 ^ 31) ->
        s3.narrowed <$> parts
        = (fun p => (s3.CompletedPart.PartNumber p, s3.CompletedPart.ETag p)) <$> parts
        /\ StronglySorted (fun a b : Z * string => a.1 < b.1) (s3.narrowed <$> parts)).
Proof.
  apply (completion_in_part_order scenario.env scenario.h scenario.triggered "agent-1"
           scenario.success
           [("upload_id", JString scenario.uploadID);
            ("etags", JObject [("3", JString "c"); ("1", JString "a"); ("2", JString "b")])]);
    [intros etags; reflexivity | reflexivity | reflexivity | vm_compute; reflexivity
    | reflexivity | vm_compute; discriminate].
Defined.

(** C2, as stated, fails: the record of the transfer is completed, the
    same success response arrives again, and the record changes (its end
    time moves) and the blob store is asked a second time to complete the
    same session. *)
Lemma duplicate_success_counterexample :
  UploadStatus.Status <$> scenario.record scenario.completed = Some UploadStateCompleted
  /\ scenario.record scenario.replayed <> scenario.record scenario.completed
  /\ completions scenario.completed = [[(1, "a"); (2, "b"); (3, "c")]]
  /\ completions scenario.replayed
     = [[(1, "a"); (2, "b"); (3, "c")]; [(1, "a"); (2, "b"); (3, "c")]].
Proof.
  split; [vm_compute; reflexivity|]. split; [|split; vm_compute; reflexivity].
  intros Heq. apply (f_equal (fmap UploadStatus.EndTime)) in Heq.
  vm_compute in Heq. discriminate Heq.
Qed.

(** C2, amended: a further success response for a record that is already
    completed is not ignored.  The record is marked completed again: its
    end time is set to the time of the new response, everything else
    stays.  If the response carries no digest, nothing more happens.  If it
    carries digests, the blob store is asked once more to complete the
    session, with these digests in ascending part order, and if the store
    refuses, the record becomes failed. *)
Theorem duplicate_success_is_replayed env h w clientID msg payload uploadID upload :
  sharedModels.ResponseMessage.Action msg = sharedModels.CommandActionDownloadFile ->
  sharedModels.ResponseMessage.Payload msg = sharedModels.Decoded (JObject payload) ->
  Go.as_string (Go.index payload "upload_id") = Some uploadID ->
  sharedModels.ResponseMessage.Status msg = sharedModels.ResponseStatusSuccess ->
  uploads w !! uploadID = Some upload ->
  UploadStatus.Status upload = UploadStateCompleted ->
  let w' := HandleResponse env h w clientID msg in
  let again := MarkCompleted upload (time_Now env (ticks w)) in
  let request :=
    s3.CompleteMultipartUploadInput (s3.Client.bucket (Handler.s3Client h))
      (UploadStatus.S3Key upload) (UploadStatus.S3UploadID upload)
      (s3.narrowed <$> completed_parts env (digests_of msg)) in
  again = UploadStatus.with_end UploadStateCompleted (Some (time_Now env (ticks w)))
            (UploadStatus.Error upload) upload
  /\ (digests_of msg = ∅ ->
      requests w' = requests w /\ uploads w' = <[uploadID := again]> (uploads w))
  /\ (digests_of msg <> ∅ ->
      requests w' = requests w ++ [request]
      /\ uploads w'
         = <[uploadID :=
               match sdk env (requests w) request with
               | inl _ => again
               | inr err =>
                   MarkFailed again ("failed to complete multipart upload: " +:+ err)
                     (time_Now env (S (ticks w)))
               end]> (uploads w)).
Proof.
  intros Ha Hp Hid Hs Hup Hdone w' again request. split; [done|].
  assert (Hd : digests_of msg
               = match Go.as_object (Go.index payload "etags") with
                 | Some etagsRaw => extract_etags etagsRaw
                 | None => ∅
                 end) by (unfold digests_of; by rewrite Hp).
  subst request. rewrite Hd. clear Hd.
  unfold w', HandleResponse, GetUpload. rewrite Ha, Hp, Hid, Hs. simpl.
  rewrite Hup. simpl.
  set (etags := match Go.as_object _ with Some _ => _ | None => _ end).
  set (request := s3.CompleteMultipartUploadInput _ _ _ _).
  split.
  - intros ->. by rewrite map_size_empty.
  - intros Hne.
    assert (size etags <> 0%nat) by by intros ?%map_size_empty_inv.
    destruct (Z.ltb_spec 0 (Z.of_nat (size etags))); [|lia].
    unfold s3.CompleteMultipartUpload, s3.call. simpl.
    fold again. fold request.
    destruct (sdk env (requests w) request); simpl; [done|].
    unfold store, set_uploads. simpl. by rewrite insert_insert_eq.
Qed.

(** The amended C2 at work on the response that arrives twice. *)
Lemma duplicate_success_is_replayed_witness :
  requests scenario.replayed
  = requests scenario.completed
    ++ [s3.CompleteMultipartUploadInput "file-download-system-uploads" scenario.key "session-1"
          [(1, "a"); (2, "b"); (3, "c")]].
Proof.
  refine (proj1 (proj2 (proj2
    (duplicate_success_is_replayed scenario.env scenario.h scenario.completed "agent-1"
       scenario.success
       [("upload_id", JString scenario.uploadID);
        ("etags", JObject [("3", JString "c"); ("1", JString "a"); ("2", JString "b")])]
       scenario.uploadID
       (default (NewUploadStatus "" "" "" "" "" 0 0 0 0) (scenario.record scenario.completed))
       _ _ _ _ _ _)) _)).
  all: try (vm_compute; reflexivity).
  vm_compute. discriminate.
Defined.

(** A response changes neither the counters nor the digest map of any
    record. *)
Lemma HandleResponse_progress env h w clientID msg uploadID upload' :
  uploads (HandleResponse env h w clientID msg) !! uploadID = Some upload' ->
  exists upload,
    uploads w !! uploadID = Some upload
    /\ UploadStatus.CompletedParts upload' = UploadStatus.CompletedParts upload
    /\ UploadStatus.BytesUploaded upload' = UploadStatus.BytesUploaded upload
    /\ UploadStatus.ETags upload' = UploadStatus.ETags upload.
Proof.
  assert (Hsame : forall u, uploads w !! uploadID = Some u ->
            exists upload, uploads w !! uploadID = Some upload
              /\ UploadStatus.CompletedParts u = UploadStatus.CompletedParts upload
              /\ UploadStatus.BytesUploaded u = UploadStatus.BytesUploaded upload
              /\ UploadStatus.ETags u = UploadStatus.ETags upload) by eauto.
  unfold HandleResponse, GetUpload.
  destruct (negb _); [by apply Hsame|].
  destruct (sharedModels.ResponseMessage.Payload msg) as [| | |[| | | | |payload]];
    try by apply Hsame.
  set (id := default "" _).
  destruct (uploads w !! id) as [upload|] eqn:Hup; [|by apply Hsame].
  assert (Hone : forall u (m : gmap string UploadStatus.t),
            UploadStatus.CompletedParts u = UploadStatus.CompletedParts upload ->
            UploadStatus.BytesUploaded u = UploadStatus.BytesUploaded upload ->
            UploadStatus.ETags u = UploadStatus.ETags upload ->
            (m = uploads w \/ exists u0, m = <[id := u0]> (uploads w)) ->
            <[id := u]> m !! uploadID = Some upload' ->
            exists upload0, uploads w !! uploadID = Some upload0
              /\ UploadStatus.CompletedParts upload' = UploadStatus.CompletedParts upload0
              /\ UploadStatus.BytesUploaded upload' = UploadStatus.BytesUploaded upload0
              /\ UploadStatus.ETags upload' = UploadStatus.ETags upload0).
  { intros u m H1 H2 H3 Hm [[<- <-]|[Hne Hl]]%lookup_insert_Some; [by exists upload|].
    apply Hsame. destruct Hm as [->|[u0 ->]]; [done|]. by rewrite lookup_insert_ne in Hl. }
  destruct (String.eqb _ sharedModels.ResponseStatusSuccess).
  - simpl. destruct (0 <? _).
    + unfold s3.CompleteMultipartUpload, s3.call. simpl.
      destruct (sdk env _ _); simpl.
      * by apply Hone; [..|left].
      * by apply Hone; [..|right; eexists].
    + simpl. by apply Hone; [..|left].
  - destruct (String.eqb _ sharedModels.ResponseStatusError).
    { unfold s3.AbortMultipartUpload, s3.call. simpl. destruct (sdk env _ _); simpl.
      all: by apply Hone; [..|left]. }
    destruct (String.eqb _ sharedModels.ResponseStatusCancelled); [|by apply Hsame].
    unfold s3.AbortMultipartUpload, s3.call. simpl. destruct (sdk env _ _); simpl.
    all: by apply Hone; [..|left].
Qed.

Lemma UpdateProgress_counts u partNumber etag bytesUploaded :
  UploadStatus.CompletedParts u = Z.of_nat (size (UploadStatus.ETags u)) ->
  UploadStatus.CompletedParts u < 2 ^ 63 - 1 ->
  UploadStatus.CompletedParts (UpdateProgress u partNumber etag bytesUploaded)
  = Z.of_nat (size (UploadStatus.ETags (UpdateProgress u partNumber etag bytesUploaded))).
Proof.
  intros Hinv Hsmall. unfold UpdateProgress. simpl.
  destruct (UploadStatus.ETags u !! partNumber) as [old|] eqn:Hl.
  - rewrite Hinv. f_equal. symmetry.
    rewrite <- (insert_delete_eq (UploadStatus.ETags u)) by done.
    rewrite <- (insert_id (UploadStatus.ETags u) partNumber old) at 2 by done.
    rewrite <- (insert_delete_eq (UploadStatus.ETags u)) by done.
    by rewrite !map_size_insert_None by apply lookup_delete_eq.
  - rewrite map_size_insert_None by done. rewrite int64_id by lia. lia.
Qed.

(** C4, as stated, fails: a progress frame that reports one completed
    part, applied to the record of the transfer just triggered, leaves a
    counter of 1 beside a digest map without entries. *)
Lemma counters_counterexample :
  exists upload,
    scenario.record (HandleStatus scenario.triggered "agent-1" scenario.progress) = Some upload
    /\ UploadStatus.CompletedParts upload = 1
    /\ size (UploadStatus.ETags upload) = 0%nat
    /\ UploadStatus.CompletedParts upload <> Z.of_nat (size (UploadStatus.ETags upload)).
Proof.
  eexists. split; [vm_compute; reflexivity|]. repeat split; vm_compute; discriminate.
Qed.

(** C4, amended: after a status frame is applied, the completed-parts
    counter of the record is the number the frame reports, and the digest
    map is as before; a response changes neither the counter nor the
    digest map.  (The counter and the size of the digest map agree on a
    new record, and [UpdateProgress], which no handler calls, keeps them
    in agreement.) *)
Theorem counters_follow_the_frames :
  (forall w clientID msg current upload,
     sharedModels.StatusMessage.CurrentUpload msg = Some current ->
     uploads w !! sharedModels.UploadStatus.UploadID current = Some upload ->
     exists upload',
       uploads (HandleStatus w clientID msg) !! sharedModels.UploadStatus.UploadID current
       = Some upload'
       /\ UploadStatus.CompletedParts upload' = sharedModels.UploadStatus.CompletedParts current
       /\ UploadStatus.ETags upload' = UploadStatus.ETags upload)
  /\ (forall env h w clientID msg uploadID upload',
        uploads (HandleResponse env h w clientID msg) !! uploadID = Some upload' ->
        exists upload,
          uploads w !! uploadID = Some upload
          /\ UploadStatus.CompletedParts upload' = UploadStatus.CompletedParts upload
          /\ UploadStatus.ETags upload' = UploadStatus.ETags upload)
  /\ (forall uploadID clientID filePath bucket key fileSize chunkSize totalParts now,
        let u := NewUploadStatus uploadID clientID filePath bucket key fileSize chunkSize
                   totalParts now in
        UploadStatus.CompletedParts u = Z.of_nat (size (UploadStatus.ETags u)))
  /\ (forall u partNumber etag bytesUploaded,
        UploadStatus.CompletedParts u = Z.of_nat (size (UploadStatus.ETags u)) ->
        UploadStatus.CompletedParts u < 2 ^ 63 - 1 ->
        UploadStatus.CompletedParts (UpdateProgress u partNumber etag bytesUploaded)
        = Z.of_nat (size (UploadStatus.ETags (UpdateProgress u partNumber etag bytesUploaded)))).
Proof.
  split; [|split; [|split]].
  - intros w clientID msg current upload Hc Hup. unfold HandleStatus, GetUpload.
    rewrite Hc, Hup. simpl. rewrite lookup_insert_eq. by eexists.
  - intros env h w clientID msg uploadID upload' H.
    apply HandleResponse_progress in H as (upload & ? & ? & ? & ?). by exists upload.
  - intros. unfold u. simpl. by rewrite map_size_empty.
  - apply UpdateProgress_counts.
Qed.

(** The amended C4 at work on the progress frame of the scenario. *)
Lemma counters_follow_the_frames_witness :
  exists upload',
    scenario.record (HandleStatus scenario.triggered "agent-1" scenario.progress) = Some upload'
    /\ UploadStatus.CompletedParts upload' = 1
    /\ UploadStatus.ETags upload' = ∅.
Proof.
  apply (proj1 counters_follow_the_frames scenario.triggered "agent-1" scenario.progress
           (sharedModels.UploadStatus.mk scenario.uploadID "/data/test-file.bin"
              (12 * 1024 * 1024) 20 1 1)
           (default (NewUploadStatus "" "" "" "" "" 0 0 0 0)
              (scenario.record scenario.triggered)));
    vm_compute; reflexivity.
Defined.

(** C5, as stated, fails: the record of the transfer is completed, a
    progress frame for it arrives, and the byte and part counters of the
    record change from 0 to 1. *)
Lemma terminal_status_counterexample :
  exists before after,
    scenario.record scenario.completed = Some before
    /\ UploadStatus.Status before = UploadStateCompleted
    /\ scenario.record (HandleStatus scenario.completed "agent-1" scenario.progress)
       = Some after
    /\ UploadStatus.BytesUploaded before = 0 /\ UploadStatus.BytesUploaded after = 1
    /\ UploadStatus.CompletedParts before = 0 /\ UploadStatus.CompletedParts after = 1
    /\ after <> before.
Proof.
  eexists _, _. split; [vm_compute; reflexivity|]. split; [reflexivity|].
  split; [vm_compute; reflexivity|]. repeat split. discriminate.
Qed.

(** C5, amended: a status frame for a record in a terminal state is
    applied like any other: the byte and part counters of the record are
    overwritten with the numbers of the frame; every other field of the
    record (state, end time, error, digest map and the rest), every other
    record, the registry and the logs stay as they were. *)
Theorem status_frames_overwrite_counters w clientID msg current upload :
  sharedModels.StatusMessage.CurrentUpload msg = Some current ->
  uploads w !! sharedModels.UploadStatus.UploadID current = Some upload ->
  terminal (UploadStatus.Status upload) ->
  let w' := HandleStatus w clientID msg in
  (exists upload',
     uploads w' !! sharedModels.UploadStatus.UploadID current = Some upload'
     /\ UploadStatus.BytesUploaded upload' = sharedModels.UploadStatus.BytesUploaded current
     /\ UploadStatus.CompletedParts upload' = sharedModels.UploadStatus.CompletedParts current
     /\ UploadStatus.Status upload' = UploadStatus.Status upload
     /\ UploadStatus.EndTime upload' = UploadStatus.EndTime upload
     /\ UploadStatus.Error upload' = UploadStatus.Error upload
     /\ UploadStatus.ETags upload' = UploadStatus.ETags upload
     /\ upload'
        = UploadStatus.with_progress (sharedModels.UploadStatus.CompletedParts current)
            (sharedModels.UploadStatus.BytesUploaded current) (UploadStatus.ETags upload)
            (UploadStatus.Status upload) upload)
  /\ (forall other, other <> sharedModels.UploadStatus.UploadID current ->
        uploads w' !! other = uploads w !! other)
  /\ clients w' = clients w /\ requests w' = requests w /\ closed w' = closed w
  /\ written w' = written w.
Proof.
  intros Hc Hup _ w'. unfold w', HandleStatus, GetUpload. rewrite Hc, Hup. simpl.
  split; [|split].
  - eexists. rewrite lookup_insert_eq. by repeat split.
  - intros other Hne. by rewrite lookup_insert_ne.
  - done.
Qed.

(** The amended C5 at work on the completed record of the scenario. *)
Lemma status_frames_overwrite_counters_witness :
  exists upload',
    scenario.record (HandleStatus scenario.completed "agent-1" scenario.progress) = Some upload'
    /\ UploadStatus.BytesUploaded upload' = 1
    /\ UploadStatus.CompletedParts upload' = 1
    /\ UploadStatus.Status upload' = UploadStateCompleted.
Proof.
  destruct (status_frames_overwrite_counters scenario.completed "agent-1" scenario.progress
              (sharedModels.UploadStatus.mk scenario.uploadID "/data/test-file.bin"
                 (12 * 1024 * 1024) 20 1 1)
              (default (NewUploadStatus "" "" "" "" "" 0 0 0 0)
                 (scenario.record scenario.completed)))
    as [(upload' & Hl & Hb & Hp & Hs & _) _].
  - reflexivity.
  - vm_compute. reflexivity.
  - left. reflexivity.
  - exists upload'. split; [exact Hl|]. split; [exact Hb|]. split; [exact Hp|].
    rewrite Hs. reflexivity.
Defined.

End Completion.

(** ** The agent's reconnection *)

Section Reconnect.

Import wsclient.

Lemma backoff_doubles c d :
  0 < d <= Client.maxReconnect c ->
  Client.maxReconnect c < 2 ^ 62 ->
  backoff c d = Z.min (d * 2) (Client.maxReconnect c).
Proof.
  intros Hd Hcap. unfold backoff. rewrite int64_id by lia.
  destruct (Z.gtb_spec (d * 2) (Client.maxReconnect c)); lia.
Qed.

Lemma min_pow_step d cap k :
  0 < d <= cap ->
  Z.min (Z.min (d * 2) cap * 2 ^ Z.of_nat k) cap = Z.min (d * 2 ^ Z.of_nat (S k)) cap.
Proof.
  intros Hd. rewrite Nat2Z.inj_succ, Z.pow_succ_r by lia.
  assert (1 <= 2 ^ Z.of_nat k) by (apply Z.lt_pred_le, Z.pow_pos_nonneg; lia).
  destruct (Z.le_gt_cases (d * 2) cap).
  - rewrite (Z.min_l (d * 2) cap) by lia. f_equal. lia.
  - rewrite (Z.min_r (d * 2) cap) by lia.
    rewrite !Z.min_r; [done| nia | nia].
Qed.

(** A run of [n] failed dials, each waited out, from a delay [d]. *)
Lemma Start_loop_failures c d n rest :
  0 < d <= Client.maxReconnect c ->
  Client.maxReconnect c < 2 ^ 62 ->
  Start_loop c d (replicate n (DialFailed true) ++ rest)
  = (((fun k => After (Z.min (d * 2 ^ Z.of_nat k) (Client.maxReconnect c))) <$> seq 0 n)
       ++ (Start_loop c (Z.min (d * 2 ^ Z.of_nat n) (Client.maxReconnect c)) rest).1,
     (Start_loop c (Z.min (d * 2 ^ Z.of_nat n) (Client.maxReconnect c)) rest).2).
Proof.
  intros Hd Hcap. revert d Hd. induction n as [|n IH]; intros d Hd.
  - simpl. rewrite Z.mul_1_r, Z.min_l by lia. by destruct (Start_loop c d rest).
  - cbn [replicate app Start_loop]. rewrite backoff_doubles by done.
    rewrite IH by lia. rewrite min_pow_step by done. cbn [fst snd].
    f_equal. cbn [seq]. rewrite fmap_cons, <- fmap_S_seq, <- list_fmap_compose.
    rewrite <- app_comm_cons. f_equal.
    + f_equal. change (2 ^ Z.of_nat 0) with 1. lia.
    + f_equal. apply list_fmap_ext. intros i k _. cbn [compose]. f_equal.
      by apply min_pow_step.
Qed.

(** C6, as stated, fails: with the default delays (5 s, at most 5 min)
    the wait after the first failed dial is 5 s, not min(5 s * 2, 5 min)
    = 10 s. *)
Lemma reconnect_wait_counterexample :
  let c := NewClient (Config.mk 0 0) in
  Client.reconnectDelay c = 5 * Second
  /\ Client.maxReconnect c = 5 * Minute
  /\ (Start c (replicate 1 (DialFailed true))).1 = [After (5 * Second)]
  /\ Z.min (Client.reconnectDelay c * 2 ^ 1) (Client.maxReconnect c) = 10 * Second
  /\ After (5 * Second) <> After (10 * Second).
Proof. repeat split. discriminate. Qed.

(** C6, amended: with a base delay that is positive and not above the
    cap (and a cap below 2^62 ns, so that doubling does not overflow),
    the waits of [N >= 1] consecutive dial failures are base, 2 base,
    4 base, ..., each capped: the wait between the N-th failure and the next
    attempt is min(base * 2^(N-1), cap), and the delay kept for the failure
    after that is min(base * 2^N, cap).  A successful connect resets the
    delay to base: when that session is lost, the sleep before the next
    dial and the wait after a failure of that dial are both base. *)
Theorem reconnect_waits_double c N :
  0 < Client.reconnectDelay c <= Client.maxReconnect c ->
  Client.maxReconnect c < 2 ^ 62 ->
  (1 <= N)%nat ->
  let base := Client.reconnectDelay c in
  let cap := Client.maxReconnect c in
  let failures := replicate N (DialFailed true) in
  (Start c failures).1 = (fun k => After (Z.min (base * 2 ^ Z.of_nat k) cap)) <$> seq 0 N
  /\ last (Start c failures).1 = Some (After (Z.min (base * 2 ^ (Z.of_nat N - 1)) cap))
  /\ (Start c failures).2 = Z.min (base * 2 ^ Z.of_nat N) cap
  /\ (forall stopSeen, (Start c (failures ++ [Session stopSeen])).2 = base)
  /\ (Start c (failures ++ [Session false; DialFailed true])).1
     = (Start c failures).1 ++ [Sleep base; After base].
Proof.
  intros Hb Hcap HN base cap failures. unfold Start. fold base.
  assert (Hrun : forall rest,
            Start_loop c base (failures ++ rest)
            = (((fun k => After (Z.min (base * 2 ^ Z.of_nat k) cap)) <$> seq 0 N)
                 ++ (Start_loop c (Z.min (base * 2 ^ Z.of_nat N) cap) rest).1,
               (Start_loop c (Z.min (base * 2 ^ Z.of_nat N) cap) rest).2))
    by (intros rest; by apply Start_loop_failures).
  assert (Hnil : Start_loop c base failures
                 = ((fun k => After (Z.min (base * 2 ^ Z.of_nat k) cap)) <$> seq 0 N,
                    Z.min (base * 2 ^ Z.of_nat N) cap)).
  { rewrite <- (app_nil_r failures), Hrun. simpl. by rewrite app_nil_r. }
  rewrite Hnil. cbn [fst snd]. repeat split.
  - destruct N as [|n]; [lia|]. rewrite seq_S, fmap_app.
    change ((fun k => After (Z.min (base * 2 ^ Z.of_nat k) cap)) <$> [(0 + n)%nat])
      with [After (Z.min (base * 2 ^ Z.of_nat (0 + n)) cap)].
    rewrite last_snoc. by replace (Z.of_nat (S n) - 1) with (Z.of_nat (0 + n)) by lia.
  - intros stopSeen. rewrite Hrun. by destruct stopSeen.
  - rewrite Hrun. reflexivity.
Qed.

(** The amended C6 at work with the default delays: the waits of eight
    failures in a row are 5, 10, 20, 40, 80, 160 s and twice 300 s. *)
Lemma reconnect_waits_double_witness :
  (Start (NewClient (Config.mk 0 0)) (replicate 8 (DialFailed true))).1
  = [After (5 * Second); After (10 * Second); After (20 * Second); After (40 * Second);
     After (80 * Second); After (160 * Second); After (300 * Second); After (300 * Second)].
Proof.
  apply (reconnect_waits_double (NewClient (Config.mk 0 0)) 8);
    [vm_compute; split; [reflexivity|discriminate] | vm_compute; reflexivity | lia].
Defined.

End Reconnect.

(** ** The transfer executor *)

Section Executor.

Import uploader handler.

#[local] Arguments ReadAt : simpl never.
#[local] Arguments uploadPart : simpl never.

Lemma ReadAt_at file len offset :
  0 <= offset -> (ReadAt file len offset).2 <> Some NegativeOffset.
Proof.
  intros Ho. unfold ReadAt. destruct (Z.ltb_spec offset 0); [lia|]. simpl.
  by destruct (_ <? len).
Qed.

(** A part that begins inside the file, or at its end: the bytes from
    [(p - 1) * C] up to the smaller of [p * C] and the size are read and
    put to the part's URL. *)
Lemma upload_parts_within do file C S total u todo etags bytes calls :
  let p := sharedModels.PresignedURL.PartNumber u in
  0 < C -> 1 <= p -> p * C < 2 ^ 63 -> 0 <= S < 2 ^ 63 -> (p - 1) * C <= S ->
  upload_parts do file C S total (u :: todo) etags bytes calls
  = let partSize := Z.min C (S - (p - 1) * C) in
    match uploadPart do (sharedModels.PresignedURL.URL u)
            (ReadAt file partSize ((p - 1) * C)).1 with
    | inr err => (Failed ("failed to upload part: " +:+ err), calls)
    | inl etag =>
        upload_parts do file C S total todo (<[p := etag]> etags) (Go.int64 (bytes + partSize))
          (calls ++ [Progress.mk p total (Go.int64 (bytes + partSize)) S])
    end.
Proof.
  intros p HC Hp Hmax HS Hin. cbn [upload_parts]. fold p.
  assert (Hoff : (p - 1) * C = p * C - C) by ring.
  assert (0 <= (p - 1) * C) by (apply Z.mul_nonneg_nonneg; lia).
  rewrite (int64_id (p - 1)) by lia. rewrite (int64_id ((p - 1) * C)) by lia.
  replace ((p - 1) * C + C) with (p * C) by lia. rewrite (int64_id (p * C)) by lia.
  assert (Hsize : (if p * C >? S then Go.int64 (S - (p - 1) * C) else C)
                  = Z.min C (S - (p - 1) * C)).
  { destruct (Z.gtb_spec (p * C) S); [rewrite int64_id|]; lia. }
  rewrite Hsize. cbn zeta.
  destruct (Z.ltb_spec (Z.min C (S - (p - 1) * C)) 0); [lia|].
  pose proof (ReadAt_at file (Z.min C (S - (p - 1) * C)) ((p - 1) * C)) as Hr.
  destruct (ReadAt file _ _) as [partData [[]|]]; simpl in *; try done.
  exfalso. apply Hr; [lia|done].
Qed.

(** A part that begins past the end of the file. *)
Lemma upload_parts_beyond do file C S total u todo etags bytes calls :
  let p := sharedModels.PresignedURL.PartNumber u in
  0 < C -> 1 <= p -> p * C < 2 ^ 63 -> 0 <= S < 2 ^ 63 -> S < (p - 1) * C ->
  upload_parts do file C S total (u :: todo) etags bytes calls
  = (Panicked "makeslice: len out of range", calls).
Proof.
  intros p HC Hp Hmax HS Hout. cbn [upload_parts]. fold p.
  assert (Hoff : (p - 1) * C = p * C - C) by ring.
  assert (0 <= (p - 1) * C) by (apply Z.mul_nonneg_nonneg; lia).
  rewrite (int64_id (p - 1)) by lia. rewrite (int64_id ((p - 1) * C)) by lia.
  replace ((p - 1) * C + C) with (p * C) by lia. rewrite (int64_id (p * C)) by lia.
  destruct (Z.gtb_spec (p * C) S); [|lia].
  rewrite int64_id by lia.
  destruct (Z.ltb_spec (S - (p - 1) * C) 0); [done|lia].
Qed.

(** A ticket with a part past the end of the file is never uploaded to
    the end, whatever the store answers. *)
Lemma upload_parts_short do file C S total todo etags bytes calls u :
  u ∈ todo ->
  let p := sharedModels.PresignedURL.PartNumber u in
  0 < C -> 1 <= p -> p * C < 2 ^ 63 -> 0 <= S < 2 ^ 63 -> S < (p - 1) * C ->
  forall result, (upload_parts do file C S total todo etags bytes calls).1 <> Returned result.
Proof.
  intros Hin p HC Hp Hmax HS Hout. revert etags bytes calls.
  induction todo as [|v todo IH]; intros etags bytes calls result;
    [by apply elem_of_nil in Hin|].
  apply elem_of_cons in Hin as [<-|Hin].
  - by rewrite upload_parts_beyond.
  - cbn [upload_parts].
    destruct (_ <? 0); [done|].
    destruct (ReadAt file _ _) as [partData [[]|]].
    2: done.
    all: destruct (uploadPart do _ partData); [by apply IH|done].
Qed.

Lemma Upload_short fs do path cfg file u :
  fs path = Some file ->
  u ∈ sharedModels.UploadConfig.PresignedURLs cfg ->
  let p := sharedModels.PresignedURL.PartNumber u in
  let C := sharedModels.UploadConfig.ChunkSize cfg in
  0 < C -> 1 <= p -> p * C < 2 ^ 63 -> 0 <= File.Size file < 2 ^ 63 ->
  File.Size file < (p - 1) * C ->
  forall result, (Upload fs do (NewUploader path cfg)).1 <> Returned result.
Proof.
  intros Hfs Hin p C HC Hp Hmax HS Hout result. unfold Upload, NewUploader. simpl.
  rewrite Hfs.
  pose proof (upload_parts_short do file C (File.Size file)
                (Z.of_nat (length (sharedModels.UploadConfig.PresignedURLs cfg)))
                _ ∅ 0 [] u Hin HC Hp Hmax HS Hout) as Hnever.
  destruct (upload_parts _ _ _ _ _ _ _ _ _) as [[[etags b]|err|why] calls]; simpl in *;
    [|done..].
  by destruct (Hnever (etags, b)).
Qed.

(** [handleDownloadFile] on a command that names a ticket and a file
    that is there: an in-progress response, a status frame for every
    progress callback, and a final response unless the upload panics. *)
Lemma handleDownloadFile_download fs do h cmd payloadMap uploadConfigMap uploadConfig file :
  sharedModels.CommandMessage.Payload cmd = sharedModels.Decoded (JObject payloadMap) ->
  Go.as_object (Go.index payloadMap "upload_config") = Some uploadConfigMap ->
  parseUploadConfig uploadConfigMap = inl uploadConfig ->
  fs (effective_filePath h payloadMap) = Some file ->
  let filePath := effective_filePath h payloadMap in
  let MessageID := sharedModels.CommandMessage.MessageID cmd in
  let Action := sharedModels.CommandMessage.Action cmd in
  let begun :=
    SendResponse sharedModels.ResponseStatusInProgress MessageID Action
      (sharedModels.Decoded
         (JObject [("upload_id", JString (sharedModels.UploadConfig.UploadID uploadConfig));
                   ("file_path", JString filePath);
                   ("status", JString "starting")]))
      "" in
  let run := Upload fs do (NewUploader filePath uploadConfig) in
  let statuses :=
    (fun p =>
       SendStatus "uploading"
         (sharedModels.UploadStatus.mk (sharedModels.UploadConfig.UploadID uploadConfig) filePath
            (Progress.totalBytes p) (Progress.totalParts p)
            (Progress.partNumber p) (Progress.bytesUploaded p))) <$> run.2 in
  handleDownloadFile fs do h cmd
  = match run.1 with
    | Failed err =>
        (begun :: statuses ++ [sendErrorResponse MessageID Action ("upload failed: " +:+ err)],
         None)
    | Panicked why => (begun :: statuses, Some why)
    | Returned result =>
        (begun :: statuses
           ++ [SendResponse sharedModels.ResponseStatusSuccess MessageID Action
                 (sharedModels.Report
                    (sharedModels.DownloadFileResponse.mk (UploadResult.UploadID result) filePath
                       (UploadResult.FileSize result) (UploadResult.TotalParts result)
                       (UploadResult.CompletedParts result)
                       (sharedModels.UploadConfig.Key uploadConfig)))
                 ""],
         None)
    end.
Proof.
  intros Hp Hc Hparse Hfs. cbv zeta. unfold handleDownloadFile, GetFileSize.
  rewrite Hp, Hc, Hparse, Hfs. cbn [fmap option_fmap option_map].
  by destruct (Upload _ _ _) as [[result|err|why] calls].
Qed.

Lemma command_payload :
  sharedModels.CommandMessage.Payload scenario.command
  = sharedModels.Decoded
      (JObject [("file_path", JString "/data/test-file.bin");
                ("upload_config", sharedModels.wire_UploadConfig scenario.ticket)]).
Proof. vm_compute. reflexivity. Qed.

Lemma command_ticket :
  exists m,
    sharedModels.wire_UploadConfig scenario.ticket = JObject m
    /\ parseUploadConfig m = inl scenario.ticket.
Proof. eexists. split; [reflexivity|]. vm_compute. reflexivity. Qed.

Lemma do_acknowledges url data :
  uploadPart scenario.do url data = inl ("etag-of-" +:+ url).
Proof. reflexivity. Qed.

Lemma ticket_parts :
  sharedModels.UploadConfig.PresignedURLs scenario.ticket
  = ((fun n => sharedModels.PresignedURL.mk n (scenario.url n)) <$> [1; 2; 3; 4])
    ++ ((fun n => sharedModels.PresignedURL.mk n (scenario.url n)) <$> seqZ 5 16).
Proof. reflexivity. Qed.

Lemma Upload_of_the_file :
  Upload scenario.fs scenario.do (NewUploader "/data/test-file.bin" scenario.ticket)
  = (Panicked "makeslice: len out of range",
     [Progress.mk 1 20 5242880 12582912;
      Progress.mk 2 20 10485760 12582912;
      Progress.mk 3 20 12582912 12582912]).
Proof.
  unfold Upload, NewUploader.
  cbn [Uploader.filePath Uploader.uploadConfig].
  change (scenario.fs "/data/test-file.bin") with (Some scenario.file).
  change (File.Size scenario.file) with 12582912.
  change (sharedModels.UploadConfig.ChunkSize scenario.ticket) with 5242880.
  change (Z.of_nat (length (sharedModels.UploadConfig.PresignedURLs scenario.ticket))) with 20.
  rewrite ticket_parts. cbn [fmap list_fmap app].
  rewrite upload_parts_within
    by (cbn [sharedModels.PresignedURL.PartNumber File.Size scenario.file];
        rewrite ?two_63; lia).
  cbn [sharedModels.PresignedURL.PartNumber sharedModels.PresignedURL.URL].
  rewrite do_acknowledges.
  rewrite upload_parts_within
    by (cbn [sharedModels.PresignedURL.PartNumber File.Size scenario.file];
        rewrite ?two_63; lia).
  cbn [sharedModels.PresignedURL.PartNumber sharedModels.PresignedURL.URL].
  rewrite do_acknowledges.
  rewrite upload_parts_within
    by (cbn [sharedModels.PresignedURL.PartNumber File.Size scenario.file];
        rewrite ?two_63; lia).
  cbn [sharedModels.PresignedURL.PartNumber sharedModels.PresignedURL.URL].
  rewrite do_acknowledges.
  rewrite upload_parts_beyond
    by (cbn [sharedModels.PresignedURL.PartNumber File.Size scenario.file];
        rewrite ?two_63; lia).
  reflexivity.
Qed.

(** C1 fails on the code.  The agent holds a 12 MB file, which needs 3
    parts of 5 MB, and receives the coordinator's command with its ticket
    of 20 parts.  Whatever the store answers, the agent never sends a
    success response; with a store that acknowledges every PUT it reports
    parts 1, 2 and 3 (bytes up to 5 MB, 10 MB and the 12 MB of the file) and
    then, at part 4, whose offset of 15 MB lies past the end of the file,
    panics on a buffer of negative length, so that neither a digest map
    nor any final response leaves the agent. *)
Theorem short_file_is_never_reported :
  CalculateParts (File.Size scenario.file)
    (sharedModels.UploadConfig.ChunkSize scenario.ticket) = 3
  /\ length (sharedModels.UploadConfig.PresignedURLs scenario.ticket) = 20%nat
  /\ (forall do,
        Forall (fun frame =>
                  match frame with
                  | SendResponse status _ _ _ _ => status <> sharedModels.ResponseStatusSuccess
                  | SendStatus _ _ => True
                  end)
          (handleDownloadFile scenario.fs do scenario.agent scenario.command).1)
  /\ handleDownloadFile scenario.fs scenario.do scenario.agent scenario.command
     = ([scenario.started; scenario.uploading 1 5242880; scenario.uploading 2 10485760;
         scenario.uploading 3 12582912],
        Some "makeslice: len out of range").
Proof.
  destruct command_ticket as (m & Hwire & Hparse).
  assert (Hrun : forall do, _) by
    (intros do; apply (handleDownloadFile_download scenario.fs do scenario.agent
                         scenario.command _ m scenario.ticket scenario.file command_payload);
       [by rewrite Hwire|done|reflexivity]).
  cbv zeta in Hrun.
  change (effective_filePath scenario.agent _) with "/data/test-file.bin" in Hrun.
  split; [reflexivity|]. split; [reflexivity|]. split.
  - intros do. rewrite Hrun.
    pose proof (Upload_short scenario.fs do "/data/test-file.bin" scenario.ticket scenario.file
                  (sharedModels.PresignedURL.mk 4 (scenario.url 4))) as Hshort.
    destruct (Upload scenario.fs do _) as [[result|err|why] calls].
    + exfalso. eapply (Hshort eq_refl); [| | | | | |reflexivity].
      * rewrite ticket_parts. cbn [fmap list_fmap app]. rewrite !elem_of_cons.
        do 3 right. by left.
      * reflexivity.
      * cbn. lia.
      * reflexivity.
      * split; [discriminate|reflexivity].
      * reflexivity.
    + cbn [fst snd]. constructor; [discriminate|].
      apply Forall_app. split; [by apply Forall_fmap, Forall_true|].
      apply Forall_singleton. discriminate.
    + cbn [fst snd]. constructor; [discriminate|]. by apply Forall_fmap, Forall_true.
  - rewrite Hrun, Upload_of_the_file. reflexivity.
Qed.

End Executor.

(** ** The executor on tickets that fit the file *)

Section Tickets.

Import uploader handler.

#[local] Arguments ReadAt : simpl never.
#[local] Arguments uploadPart : simpl never.

(** The bytes of part [p]: from [(p - 1) * C] up to the smaller of
    [p * C] and the size [S]. *)
Local Abbreviation part_data file C S p :=
  (ReadAt file (Z.min C (S - (p - 1) * C)) ((p - 1) * C)).1.

Local Abbreviation PN := sharedModels.PresignedURL.PartNumber.
Local Abbreviation URL := sharedModels.PresignedURL.URL.

Lemma upload_parts_app do file C S total pre rest etags bytes calls etags' bytes' calls' :
  upload_parts do file C S total pre etags bytes calls = (Returned (etags', bytes'), calls') ->
  upload_parts do file C S total (pre ++ rest) etags bytes calls
  = upload_parts do file C S total rest etags' bytes' calls'.
Proof.
  revert etags bytes calls. induction pre as [|u pre IH]; intros etags bytes calls.
  - by intros [= -> -> ->].
  - cbn [upload_parts app].
    destruct (_ <? 0); [done|].
    destruct (ReadAt file _ _) as [partData [[]|]].
    2: done.
    all: destruct (uploadPart do _ partData); [apply IH|done].
Qed.

Lemma upload_parts_acknowledged do file C S total todo :
  forall a etags calls,
  0 < C -> 1 <= a -> 0 <= S < 2 ^ 63 ->
  PN <$> todo = seqZ a (Z.of_nat (length todo)) ->
  (a + Z.of_nat (length todo) - 1) * C < 2 ^ 63 ->
  (todo <> [] -> (a + Z.of_nat (length todo) - 2) * C <= S) ->
  (forall u data, u ∈ todo -> exists e, uploadPart do (URL u) data = inl e) ->
  (forall p, a <= p -> etags !! p = None) ->
  exists etags',
    upload_parts do file C S total todo etags (Z.min ((a - 1) * C) S) calls
    = (Returned (etags', Z.min ((a + Z.of_nat (length todo) - 1) * C) S),
       calls ++ ((fun p => Progress.mk p total (Z.min (p * C) S) S)
                   <$> seqZ a (Z.of_nat (length todo))))
    /\ size etags' = (size etags + length todo)%nat
    /\ (forall p, ~ (a <= p < a + Z.of_nat (length todo)) -> etags' !! p = etags !! p)
    /\ (forall u, u ∈ todo ->
          exists e, etags' !! PN u = Some e
                    /\ uploadPart do (URL u) (part_data file C S (PN u)) = inl e).
Proof.
  induction todo as [|u todo IH]; intros a etags calls HC Ha HS Hn Hmax Hin Hack Hfresh.
  - exists etags. cbn [upload_parts length Z.of_nat]. rewrite Z.add_0_r.
    rewrite seqZ_nil by lia. rewrite app_nil_r.
    split; [done|]. split; [lia|]. split; [done|].
    intros u Hu. by apply elem_of_nil in Hu.
  - cbn [length] in *. rewrite Nat2Z.inj_succ in *.
    rewrite seqZ_cons in Hn |- * by lia.
    rewrite Z.pred_succ in Hn |- *. rewrite fmap_cons in Hn.
    injection Hn as Hu Hn.
    assert (Hprod : (a + Z.succ (Z.of_nat (length todo)) - 2) * C
                    = (a - 1) * C + Z.of_nat (length todo) * C) by ring.
    assert (Hprod' : (a + Z.succ (Z.of_nat (length todo)) - 1) * C
                     = a * C + Z.of_nat (length todo) * C) by ring.
    assert (Hone : (a - 1) * C = a * C - C) by ring.
    assert (0 <= Z.of_nat (length todo) * C) by (apply Z.mul_nonneg_nonneg; lia).
    assert (0 <= (a - 1) * C) by (apply Z.mul_nonneg_nonneg; lia).
    assert (Hstart : (a - 1) * C <= S) by (specialize (Hin ltac:(done)); lia).
    rewrite upload_parts_within by (rewrite ?Hu; lia). cbn zeta. rewrite !Hu.
    destruct (Hack u (part_data file C S a)) as [e He]; [left|].
    rewrite He.
    assert (Hbytes : Go.int64 (Z.min ((a - 1) * C) S + Z.min C (S - (a - 1) * C))
                     = Z.min ((Z.succ a - 1) * C) S).
    { rewrite int64_id by lia. replace (Z.succ a - 1) with a by lia. lia. }
    rewrite Hbytes.
    destruct (IH (Z.succ a) (<[a := e]> etags)
                (calls ++ [Progress.mk a total (Z.min ((Z.succ a - 1) * C) S) S]))
      as (etags' & Hrun & Hsize & Hout & Hdone); try lia.
    + by rewrite Hn.
    + intros Hne. destruct todo; [done|]. cbn [length] in *.
      rewrite Nat2Z.inj_succ in *. specialize (Hin ltac:(done)). lia.
    + intros v data Hv. apply Hack. by right.
    + intros p Hp. rewrite lookup_insert_ne by lia. apply Hfresh. lia.
    + exists etags'. rewrite Hrun. repeat split.
      * f_equal; [do 2 f_equal; lia|].
        rewrite <- app_assoc. cbn [app fmap list_fmap].
        do 4 f_equal. lia.
      * rewrite Hsize, map_size_insert_None by (apply Hfresh; lia). lia.
      * intros p Hp. rewrite Hout by lia. apply lookup_insert_ne. lia.
      * intros v Hv. apply elem_of_cons in Hv as [->|Hv]; [|by apply Hdone].
        exists e. rewrite Hu. split; [|done].
        rewrite Hout by lia. apply lookup_insert_eq.
Qed.

Lemma ReadAt_agree file file' len offset bound :
  File.Size file' = File.Size file ->
  (forall i, 0 <= i < bound -> File.byte_at file' i = File.byte_at file i) ->
  0 <= offset -> offset + len <= bound ->
  ReadAt file' len offset = ReadAt file len offset.
Proof.
  intros HS Hagree Ho Hb. unfold ReadAt. rewrite HS.
  destruct (offset <? 0); [done|]. f_equal.
  apply Forall_fmap_ext, Forall_forall. intros i Hi%elem_of_seqZ.
  destruct (Z.ltb_spec i (Z.min len (Z.max 0 (File.Size file - offset)))); [|done].
  apply Hagree. lia.
Qed.

Lemma upload_parts_agree do file file' C total m todo :
  0 < C -> m * C < 2 ^ 63 -> 0 <= File.Size file < 2 ^ 63 ->
  File.Size file' = File.Size file ->
  (forall i, 0 <= i < m * C -> File.byte_at file' i = File.byte_at file i) ->
  Forall (fun u => 1 <= PN u <= m) todo ->
  forall etags bytes calls,
    upload_parts do file' C (File.Size file) total todo etags bytes calls
    = upload_parts do file C (File.Size file) total todo etags bytes calls.
Proof.
  intros HC Hm HS Hsize Hagree Hall.
  induction Hall as [|u todo [Hp Hpm] _ IH]; intros etags bytes calls; [done|].
  assert (Hle : PN u * C <= m * C) by (apply Z.mul_le_mono_nonneg_r; lia).
  assert (Hone : (PN u - 1) * C = PN u * C - C) by ring.
  assert (0 <= (PN u - 1) * C) by (apply Z.mul_nonneg_nonneg; lia).
  destruct (Z.le_gt_cases ((PN u - 1) * C) (File.Size file)) as [Hin|Hout].
  - rewrite !upload_parts_within by lia. cbn zeta.
    rewrite (ReadAt_agree file file' _ _ (m * C) Hsize Hagree) by lia.
    destruct (uploadPart do _ _); [apply IH|done].
  - by rewrite !upload_parts_beyond by lia.
Qed.

(** X1.  A ticket whose parts are numbered 1 to n, the last of them beginning
    inside the file, and a store that acknowledges every PUT: [Upload]
    reports success, one digest for each of the n parts and no other,
    each of them the store's answer to the PUT of that part's byte range,
    and makes n progress calls, the p-th of which reports the smaller of
    p chunks and the file size. *)
Theorem Upload_delivers_the_ticket fs do path cfg file :
  let C := sharedModels.UploadConfig.ChunkSize cfg in
  let urls := sharedModels.UploadConfig.PresignedURLs cfg in
  let n := Z.of_nat (length urls) in
  let S := File.Size file in
  fs path = Some file ->
  0 < C -> 0 <= S < 2 ^ 63 -> n * C < 2 ^ 63 ->
  PN <$> urls = seqZ 1 n ->
  (n - 1) * C <= S ->
  (forall u data, u ∈ urls -> exists e, uploadPart do (URL u) data = inl e) ->
  exists r,
    Upload fs do (NewUploader path cfg)
    = (Returned r, (fun p => Progress.mk p n (Z.min (p * C) S) S) <$> seqZ 1 n)
    /\ UploadResult.Success r = true
    /\ UploadResult.UploadID r = sharedModels.UploadConfig.UploadID cfg
    /\ UploadResult.FileSize r = S
    /\ UploadResult.TotalParts r = n
    /\ UploadResult.CompletedParts r = n
    /\ (forall p, is_Some (UploadResult.ETags r !! p) <-> 1 <= p <= n)
    /\ (forall u, u ∈ urls ->
          exists e, UploadResult.ETags r !! PN u = Some e
                    /\ uploadPart do (URL u) (part_data file C S (PN u)) = inl e).
Proof.
  intros C urls n S Hfs HC HS Hmax Hn Hlast Hack.
  destruct (upload_parts_acknowledged do file C S n urls 1 ∅ []) as
    (etags & Hrun & Hsize & Hout & Hdone); try done; try lia.
  replace (Z.min ((1 - 1) * C) S) with 0 in Hrun by lia.
  replace (1 + Z.of_nat (length urls) - 1) with n in Hrun by lia.
  fold n in Hrun. cbn [app] in Hrun.
  unfold Upload, NewUploader. cbn [Uploader.filePath Uploader.uploadConfig].
  rewrite Hfs. fold C urls S n. rewrite Hrun.
  eexists. split; [reflexivity|].
  cbn [UploadResult.Success UploadResult.UploadID UploadResult.FileSize
       UploadResult.TotalParts UploadResult.CompletedParts UploadResult.ETags].
  do 4 (split; [done|]). split; [|split; [|done]].
  - rewrite Hsize, map_size_empty. subst n. lia.
  - intros p. split.
    + intros [e He]. destruct (decide (1 <= p <= n)) as [|Hp]; [done|].
      rewrite Hout, lookup_empty in He by lia. done.
    + intros [Hp1 Hpn].
      assert (Hp : p ∈ PN <$> urls) by (rewrite Hn; apply elem_of_seqZ; lia).
      apply list_elem_of_fmap in Hp as (u & -> & Hu).
      destruct (Hdone u Hu) as (e & -> & _). done.
Qed.

Lemma Upload_delivers_the_ticket_witness :
  exists r,
    Upload scenario.notes scenario.do (NewUploader "/data/note.txt" (scenario.note_ticket 3))
    = (Returned r, [Progress.mk 1 3 4 10; Progress.mk 2 3 8 10; Progress.mk 3 3 10 10])
    /\ UploadResult.Success r = true
    /\ UploadResult.UploadID r = "note-1"
    /\ UploadResult.FileSize r = 10
    /\ UploadResult.TotalParts r = 3
    /\ UploadResult.CompletedParts r = 3
    /\ (forall p, is_Some (UploadResult.ETags r !! p) <-> 1 <= p <= 3)
    /\ (forall u, u ∈ sharedModels.UploadConfig.PresignedURLs (scenario.note_ticket 3) ->
          exists e, UploadResult.ETags r !! PN u = Some e
                    /\ uploadPart scenario.do (URL u) (part_data scenario.note 4 10 (PN u))
                       = inl e).
Proof.
  apply (Upload_delivers_the_ticket scenario.notes scenario.do "/data/note.txt"
           (scenario.note_ticket 3) scenario.note);
    [reflexivity | reflexivity | vm_compute; split; [discriminate|reflexivity]
    | reflexivity | reflexivity | vm_compute; discriminate | ].
  intros u data _. eexists. reflexivity.
Defined.

(** X2.  [Upload] never looks at a byte past the last chunk of the
    ticket: on two files of one size that agree below m chunks, with a
    ticket whose part numbers lie between 1 and m, it does the same,
    whatever the store answers. *)
Theorem Upload_reads_only_the_ticketed_range fs fs' do path cfg file file' m :
  let C := sharedModels.UploadConfig.ChunkSize cfg in
  fs path = Some file -> fs' path = Some file' ->
  0 < C -> m * C < 2 ^ 63 -> 0 <= File.Size file < 2 ^ 63 ->
  File.Size file' = File.Size file ->
  (forall i, 0 <= i < m * C -> File.byte_at file' i = File.byte_at file i) ->
  Forall (fun u => 1 <= PN u <= m) (sharedModels.UploadConfig.PresignedURLs cfg) ->
  Upload fs' do (NewUploader path cfg) = Upload fs do (NewUploader path cfg).
Proof.
  intros C Hfs Hfs' HC Hm HS Hsize Hagree Hall.
  unfold Upload, NewUploader. cbn [Uploader.filePath Uploader.uploadConfig].
  rewrite Hfs, Hfs', Hsize.
  by rewrite (upload_parts_agree do file file' C _ m).
Qed.

Lemma Upload_reads_only_the_ticketed_range_witness :
  Upload scenario.notes' scenario.do (NewUploader "/data/note.txt" (scenario.note_ticket 2))
  = Upload scenario.notes scenario.do (NewUploader "/data/note.txt" (scenario.note_ticket 2)).
Proof.
  apply (Upload_reads_only_the_ticketed_range scenario.notes scenario.notes' scenario.do
           "/data/note.txt" (scenario.note_ticket 2) scenario.note scenario.note' 2);
    [reflexivity | reflexivity | reflexivity | reflexivity
    | vm_compute; split; [discriminate|reflexivity] | reflexivity | | ].
  - intros i Hi. cbn in *. destruct (Z.ltb_spec i 8); [reflexivity|lia].
  - unfold scenario.note_ticket. cbn [sharedModels.UploadConfig.PresignedURLs].
    change (seqZ 1 2) with [1; 2]. cbn [fmap list_fmap].
    repeat (constructor; [cbn; lia|]). constructor.
Defined.

(** X3.  [Upload] stops at the first part the store refuses: the parts
    before it have been put and reported, the error names the refusal, and
    nothing is put or reported for the parts after it. *)
Theorem Upload_stops_at_the_first_refusal fs do path cfg file pre u post err :
  let C := sharedModels.UploadConfig.ChunkSize cfg in
  let S := File.Size file in
  let k := Z.of_nat (length pre) in
  let n := Z.of_nat (length (pre ++ u :: post)) in
  fs path = Some file ->
  sharedModels.UploadConfig.PresignedURLs cfg = pre ++ u :: post ->
  0 < C -> 0 <= S < 2 ^ 63 -> (k + 1) * C < 2 ^ 63 -> k * C <= S ->
  PN <$> pre = seqZ 1 k -> PN u = k + 1 ->
  (forall v data, v ∈ pre -> exists e, uploadPart do (URL v) data = inl e) ->
  uploadPart do (URL u) (part_data file C S (k + 1)) = inr err ->
  Upload fs do (NewUploader path cfg)
  = (Failed ("failed to upload part: " +:+ err),
     (fun p => Progress.mk p n (p * C) S) <$> seqZ 1 k).
Proof.
  intros C S k n Hfs Hurls HC HS Hmax Hin Hpre Hu Hack Hrefused.
  assert (Hk : (k + 1) * C = k * C + C) by ring.
  assert (0 <= k * C) by (apply Z.mul_nonneg_nonneg; lia).
  destruct (upload_parts_acknowledged do file C S n pre 1 ∅ []) as
    (etags & Hrun & _); try done; try lia.
  replace (Z.min ((1 - 1) * C) S) with 0 in Hrun by lia.
  fold k in Hrun. replace (1 + k - 1) with k in Hrun by lia. cbn [app] in Hrun.
  unfold Upload, NewUploader. cbn [Uploader.filePath Uploader.uploadConfig].
  rewrite Hfs, Hurls. fold C S n.
  rewrite (upload_parts_app _ _ _ _ _ _ _ _ _ _ _ _ _ Hrun).
  rewrite upload_parts_within by (rewrite ?Hu; lia). cbn zeta. rewrite !Hu.
  replace (k + 1 - 1) with k by lia.
  replace (k + 1 - 1) with k in Hrefused by lia.
  rewrite Hrefused. cbn [app]. f_equal. fold k.
  apply Forall_fmap_ext, Forall_forall. intros p Hp%elem_of_seqZ.
  f_equal. assert (p * C <= k * C) by (apply Z.mul_le_mono_nonneg_r; lia). lia.
Qed.

Lemma Upload_stops_at_the_first_refusal_witness :
  Upload scenario.notes (scenario.do_but (scenario.url 2))
    (NewUploader "/data/note.txt" (scenario.note_ticket 3))
  = (Failed "failed to upload part: upload failed with status: AccessDenied",
     [Progress.mk 1 3 4 10]).
Proof.
  apply (Upload_stops_at_the_first_refusal scenario.notes (scenario.do_but (scenario.url 2))
           "/data/note.txt" (scenario.note_ticket 3) scenario.note
           [sharedModels.PresignedURL.mk 1 (scenario.url 1)]
           (sharedModels.PresignedURL.mk 2 (scenario.url 2))
           [sharedModels.PresignedURL.mk 3 (scenario.url 3)]
           "upload failed with status: AccessDenied");
    [reflexivity | reflexivity | reflexivity | vm_compute; split; [discriminate|reflexivity]
    | reflexivity | vm_compute; discriminate | reflexivity | reflexivity | | reflexivity].
  intros v data ->%list_elem_of_singleton. eexists. reflexivity.
Defined.

End Tickets.

(** ** Commands as the agent answers them *)

Section Commands.

Import uploader handler.

#[local] Arguments Upload : simpl never.
#[local] Arguments parseUploadConfig : simpl never.
#[local] Arguments sharedModels.wire_UploadConfig : simpl never.

(** X4.  Whatever the command, the file system and the store: every
    response the agent writes carries the id and the action of the
    command; unless the upload panics, the last frame written is the one
    response that closes the command (success, error or cancelled) and none
    before it does; when the upload panics, which only a [download_file]
    command can cause, no closing response is written at all. *)
Theorem HandleCommand_answers_once fs do now h cmd :
  let frames := (HandleCommand fs do now h cmd).1 in
  Forall (answers cmd) frames
  /\ match (HandleCommand fs do now h cmd).2 with
     | None =>
         exists before final,
           frames = before ++ [final] /\ closing final = true
           /\ Forall (fun f => closing f = false) before
     | Some _ =>
         Forall (fun f => closing f = false) frames
         /\ sharedModels.CommandMessage.Action cmd = sharedModels.CommandActionDownloadFile
     end.
Proof.
  cbv zeta. unfold HandleCommand.
  destruct (String.eqb_spec (sharedModels.CommandMessage.Action cmd)
              sharedModels.CommandActionDownloadFile) as [Hdl|_].
  2: { destruct (String.eqb _ sharedModels.CommandActionHealthCheck);
         [|destruct (String.eqb _ sharedModels.CommandActionCancelUpload)];
         cbn; (split; [by repeat constructor|]); eexists [], _; by repeat split. }
  unfold handleDownloadFile.
  destruct (sharedModels.CommandMessage.Payload cmd) as [| | |[| | | | |payloadMap]];
    try (cbn; split; [by repeat constructor|]; eexists [], _; by repeat split).
  destruct (Go.as_object _) as [uploadConfigMap|];
    [|cbn; split; [by repeat constructor|]; eexists [], _; by repeat split].
  destruct (parseUploadConfig uploadConfigMap) as [uploadConfig|err];
    [|cbn; split; [by repeat constructor|]; eexists [], _; by repeat split].
  destruct (GetFileSize fs _);
    [|cbn; split; [by repeat constructor|]; eexists [_], _; by repeat constructor].
  destruct (Upload fs do _) as [[result|err|why] calls]; cbn [fst snd].
  - split.
    + constructor; [done|]. apply Forall_app. split; [|by repeat constructor].
      apply Forall_fmap, Forall_forall. by intros p _.
    + eexists (_ :: _), _. split; [reflexivity|]. split; [done|].
      constructor; [done|]. apply Forall_fmap, Forall_forall. by intros p _.
  - split.
    + constructor; [done|]. apply Forall_app. split; [|by repeat constructor].
      apply Forall_fmap, Forall_forall. by intros p _.
    + eexists (_ :: _), _. split; [reflexivity|]. split; [done|].
      constructor; [done|]. apply Forall_fmap, Forall_forall. by intros p _.
  - split; [|split; [|done]].
    all: constructor; [done|]; apply Forall_fmap, Forall_forall; by intros p _.
Qed.

(** Integers of at most 53 bits pass the decoder's [float64] unchanged;
    the first one that does not is [2 ^ 53 + 1]. *)
Lemma float64_id n : - 2 ^ 53 <= n <= 2 ^ 53 -> Go.float64 n = n.
Proof.
  intros Hn. unfold Go.float64.
  destruct (Z.ltb_spec (Z.abs n) (2 ^ 53)) as [|Hbig]; [done|].
  assert (n = 2 ^ 53 \/ n = - 2 ^ 53) as [-> | ->] by lia; reflexivity.
Qed.

Lemma float64_rounds : Go.float64 (2 ^ 53 + 1) = 2 ^ 53.
Proof. reflexivity. Qed.

Lemma number_read_back n :
  - 2 ^ 53 <= n <= 2 ^ 53 -> Go.int64_of_float64 (Go.float64 n) = n.
Proof.
  intros Hn. rewrite float64_id by done. unfold Go.int64_of_float64.
  assert (2 ^ 53 < 2 ^ 63) by reflexivity.
  destruct (Z.leb_spec (- 2 ^ 63) n); [|lia].
  destruct (Z.ltb_spec n (2 ^ 63)); [done|lia].
Qed.

Lemma parseUploadConfig_wire c :
  sharedModels.UploadConfig.UploadID c <> "" ->
  sharedModels.UploadConfig.PresignedURLs c <> [] ->
  - 2 ^ 53 <= sharedModels.UploadConfig.ChunkSize c <= 2 ^ 53 ->
  Forall (fun u => - 2 ^ 53 <= sharedModels.PresignedURL.PartNumber u <= 2 ^ 53)
    (sharedModels.UploadConfig.PresignedURLs c) ->
  exists uploadConfigMap,
    sharedModels.wire_UploadConfig c = JObject uploadConfigMap
    /\ parseUploadConfig uploadConfigMap = inl c.
Proof.
  intros Hid Hurls Hchunk Hnumbers.
  destruct c as [UploadID Bucket Key Region ChunkSize PresignedURLs].
  cbn [sharedModels.UploadConfig.UploadID sharedModels.UploadConfig.PresignedURLs
       sharedModels.UploadConfig.ChunkSize] in *.
  eexists. split; [reflexivity|].
  unfold parseUploadConfig. cbn -[Go.int64_of_float64 Go.float64 bool_decide fmap].
  rewrite number_read_back by done.
  assert (Hback :
    (fun urlInterface =>
       match urlInterface with
       | JObject urlMap =>
           sharedModels.PresignedURL.mk
             (Go.int64_of_float64 (number_or_zero (Go.index urlMap "part_number")))
             (default "" (Go.as_string (Go.index urlMap "url")))
       | _ => sharedModels.PresignedURL.mk 0 ""
       end) <$> (sharedModels.wire_PresignedURL <$> PresignedURLs) = PresignedURLs).
  { rewrite <- list_fmap_compose. rewrite <- (list_fmap_id PresignedURLs) at 2.
    apply Forall_fmap_ext. eapply Forall_impl; [exact Hnumbers|].
    intros [n u] Hn. cbn -[Go.int64_of_float64 Go.float64] in *.
    by rewrite number_read_back. }
  rewrite Hback. cbn [sharedModels.UploadConfig.UploadID].
  destruct (String.eqb_spec UploadID ""); [done|].
  by rewrite bool_decide_eq_false_2.
Qed.

(** X5.  A ticket survives the wire: what the agent's parser makes of a
    [download_file] payload the coordinator has built is the ticket that
    was put in, whenever the ticket has a transfer id, at least one part,
    and a chunk size and part numbers of at most [2 ^ 53] in magnitude,
    which the decoder's [float64] holds exactly (larger ones come back
    rounded); and the file the agent will read is the one the payload
    names, or the agent's own when it names none. *)
Theorem ticket_survives_the_wire h p :
  let c := sharedModels.DownloadFilePayload.Config p in
  sharedModels.UploadConfig.UploadID c <> "" ->
  sharedModels.UploadConfig.PresignedURLs c <> [] ->
  - 2 ^ 53 <= sharedModels.UploadConfig.ChunkSize c <= 2 ^ 53 ->
  Forall (fun u => - 2 ^ 53 <= sharedModels.PresignedURL.PartNumber u <= 2 ^ 53)
    (sharedModels.UploadConfig.PresignedURLs c) ->
  exists payloadMap uploadConfigMap,
    sharedModels.wire (sharedModels.Built p) = sharedModels.Decoded (JObject payloadMap)
    /\ Go.as_object (Go.index payloadMap "upload_config") = Some uploadConfigMap
    /\ parseUploadConfig uploadConfigMap = inl c
    /\ effective_filePath h payloadMap
       = if String.eqb (sharedModels.DownloadFilePayload.FilePath p) ""
         then CommandHandler.filePath h
         else sharedModels.DownloadFilePayload.FilePath p.
Proof.
  intros c Hid Hurls Hchunk Hnumbers.
  destruct (parseUploadConfig_wire c Hid Hurls Hchunk Hnumbers) as (uploadConfigMap & Hwire & Hparse).
  subst c. destruct p as [FilePath c Metadata].
  cbn [sharedModels.DownloadFilePayload.Config sharedModels.DownloadFilePayload.FilePath] in *.
  eexists _, uploadConfigMap. split; [reflexivity|]. split; [|split; [done|]].
  - cbn. by rewrite Hwire.
  - unfold effective_filePath. cbn.
    by destruct (String.eqb FilePath "").
Qed.

Lemma ticket_survives_the_wire_witness :
  exists payloadMap uploadConfigMap,
    sharedModels.wire
      (sharedModels.Built
         (sharedModels.DownloadFilePayload.mk "" (scenario.note_ticket 3) ∅))
    = sharedModels.Decoded (JObject payloadMap)
    /\ Go.as_object (Go.index payloadMap "upload_config") = Some uploadConfigMap
    /\ parseUploadConfig uploadConfigMap = inl (scenario.note_ticket 3)
    /\ effective_filePath scenario.agent payloadMap = "/data/report.bin".
Proof.
  apply (ticket_survives_the_wire scenario.agent
           (sharedModels.DownloadFilePayload.mk "" (scenario.note_ticket 3) ∅));
    [discriminate | discriminate | vm_compute; split; discriminate | ].
  unfold scenario.note_ticket. cbn [sharedModels.DownloadFilePayload.Config
                                    sharedModels.UploadConfig.PresignedURLs].
  change (seqZ 1 3) with [1; 2; 3]. cbn [fmap list_fmap].
  repeat (constructor; [vm_compute; split; discriminate|]). constructor.
Defined.

(** X6.  [CalculateParts] is the ceiling of the quotient: for a positive
    chunk size and a size that fits 64 bits, the chunks it counts cover
    the file and one fewer would not. *)
Theorem CalculateParts_covers fileSize chunkSize :
  0 < chunkSize -> 0 <= fileSize < 2 ^ 63 ->
  CalculateParts fileSize chunkSize = s3.ceiling fileSize chunkSize
  /\ (CalculateParts fileSize chunkSize - 1) * chunkSize < fileSize
     <= CalculateParts fileSize chunkSize * chunkSize.
Proof.
  intros HC HF. unfold CalculateParts, s3.ceiling.
  rewrite Z.quot_div_nonneg, Z.rem_mod_nonneg by lia.
  pose proof (Z.div_mod fileSize chunkSize ltac:(lia)) as Hdm.
  pose proof (Z.mod_pos_bound fileSize chunkSize HC) as Hr.
  assert (0 <= fileSize / chunkSize) by (apply Z.div_pos; lia).
  assert (Hq : fileSize / chunkSize <= fileSize).
  { apply Z.div_le_upper_bound; [lia|]. nia. }
  assert (Hquot : chunkSize * (fileSize / chunkSize) <= fileSize) by lia.
  rewrite (int64_id (fileSize / chunkSize)) by lia.
  destruct (Z.eqb_spec (fileSize mod chunkSize) 0) as [H0|Hn0]; cbn [negb].
  - split; [|nia].
    apply (Z.div_unique _ _ _ (chunkSize - 1)); lia.
  - assert (fileSize / chunkSize + 1 < 2 ^ 63).
    { destruct (Z.eq_dec chunkSize 1) as [->|]; [rewrite Z.mod_1_r in Hn0; done|]. nia. }
    rewrite int64_id by lia. split; [|nia].
    apply (Z.div_unique _ _ _ (fileSize mod chunkSize - 1)); lia.
Qed.

Lemma CalculateParts_covers_witness :
  CalculateParts (12 * 1024 * 1024) (5 * 1024 * 1024)
  = s3.ceiling (12 * 1024 * 1024) (5 * 1024 * 1024)
  /\ (CalculateParts (12 * 1024 * 1024) (5 * 1024 * 1024) - 1) * (5 * 1024 * 1024)
     < 12 * 1024 * 1024
     <= CalculateParts (12 * 1024 * 1024) (5 * 1024 * 1024) * (5 * 1024 * 1024).
Proof.
  apply (CalculateParts_covers (12 * 1024 * 1024) (5 * 1024 * 1024));
    [reflexivity | vm_compute; split; [discriminate|reflexivity]].
Defined.

End Commands.

(** ** Blob-store sessions: what is opened and what is cleaned up *)

Section Sessions.

Import models server api.

Local Abbreviation presign c key uploadID :=
  (fun i => s3.UploadPartInput (s3.Client.bucket c) key uploadID
              (Go.int32 (Go.int64 (i + 1))) (s3.Client.presignedURLExpiry c)).

Lemma presign_parts_log sdk c key uploadID todo :
  forall urls log,
    match s3.presign_parts sdk c key uploadID todo urls log with
    | (Returned _, log') => log' = log ++ (presign c key uploadID <$> todo)
    | (Failed _, log') =>
        exists done rest,
          todo = done ++ rest /\ done <> []
          /\ log' = log ++ (presign c key uploadID <$> done)
                      ++ [s3.AbortMultipartUploadInput (s3.Client.bucket c) key uploadID]
    | (Panicked _, _) => False
    end.
Proof.
  induction todo as [|i todo IH]; intros urls log; cbn [s3.presign_parts].
  - by rewrite app_nil_r.
  - unfold s3.call, s3.AbortMultipartUpload.
    destruct (sdk log _) as [url|err].
    + specialize (IH (urls ++ [s3.PresignedURL.mk (Go.int64 (i + 1)) url])
                    (log ++ [presign c key uploadID i])).
      destruct (s3.presign_parts _ _ _ _ _ _ _) as [[urls'|err|why] log']; [| |done].
      * by rewrite IH, <- app_assoc.
      * destruct IH as (done & rest & -> & _ & ->).
        exists (i :: done), rest. split; [done|]. split; [done|].
        by rewrite <- app_assoc.
    + unfold s3.call. destruct (sdk _ (s3.AbortMultipartUploadInput _ _ _)).
      all: exists [i], todo; by rewrite <- app_assoc.
Qed.

(** X7.  What [InitiateMultipartUpload] has asked of the store when it
    returns.  On success: the session, then one presigned URL for each of
    the parts 1 to [TotalParts], and nothing else.  On an error: either the
    session could not be opened and nothing more was asked, or a part could
    not be signed and the last request is the abort of the session just
    opened.  When it panics (a zero chunk size, a negative part count) the
    session has been opened and is left open. *)
Theorem InitiateMultipartUpload_settles_the_session sdk c log cfg :
  let key := s3.MultipartUploadConfig.Key cfg in
  let create :=
    s3.CreateMultipartUploadInput (s3.Client.bucket c) key
      (s3.MultipartUploadConfig.Metadata cfg) in
  match s3.InitiateMultipartUpload sdk c log cfg with
  | (Returned mu, log') =>
      let uploadID := s3.MultipartUpload.UploadID mu in
      sdk log create = inl uploadID
      /\ log' = log ++ create
                  :: (presign c key uploadID <$> seqZ 0 (s3.MultipartUpload.TotalParts mu))
      /\ Z.of_nat (length (s3.MultipartUpload.PresignedURLs mu))
         = s3.MultipartUpload.TotalParts mu
  | (Failed _, log') =>
      (exists err, sdk log create = inr err /\ log' = log ++ [create])
      \/ (exists uploadID done,
            sdk log create = inl uploadID
            /\ done <> []
            /\ log' = log ++ create
                        :: (presign c key uploadID <$> done)
                        ++ [s3.AbortMultipartUploadInput (s3.Client.bucket c) key uploadID])
  | (Panicked _, log') =>
      exists uploadID, sdk log create = inl uploadID /\ log' = log ++ [create]
  end.
Proof.
  intros key create. unfold s3.InitiateMultipartUpload, s3.call. fold key create.
  destruct (sdk log create) as [uploadID|err] eqn:Hcreate; [|left; by exists err].
  destruct (_ =? 0); [by exists uploadID|].
  set (totalParts := if negb _ then _ else _).
  destruct (Z.ltb_spec totalParts 0) as [|Hpos]; [by exists uploadID|].
  pose proof (presign_parts_log sdk c key uploadID (seqZ 0 totalParts) [] (log ++ [create]))
    as Hlog.
  pose proof (presign_parts_numbers sdk c key uploadID (seqZ 0 totalParts) []
                (log ++ [create])) as Hnum.
  destruct (s3.presign_parts _ _ _ _ _ _ _) as [[urls|err|why] log']; [| |done].
  - cbn [s3.MultipartUpload.UploadID s3.MultipartUpload.TotalParts
         s3.MultipartUpload.PresignedURLs].
    split; [done|]. split; [by rewrite Hlog, <- app_assoc|].
    specialize (Hnum urls log' eq_refl).
    apply (f_equal length) in Hnum.
    rewrite length_app, !length_fmap, length_seqZ in Hnum. cbn in Hnum. lia.
  - right. destruct Hlog as (done & rest & _ & Hne & ->).
    exists uploadID, done. by rewrite <- app_assoc.
Qed.

Lemma InitiateMultipartUpload_asks_no_abort sdk c log cfg mu log' :
  s3.InitiateMultipartUpload sdk c log cfg = (Returned mu, log') ->
  exists new,
    log' = log ++ new
    /\ Forall (fun request =>
                 match request with s3.AbortMultipartUploadInput _ _ _ => False | _ => True end)
         new.
Proof.
  unfold s3.InitiateMultipartUpload, s3.call.
  destruct (sdk log _) as [uploadID|err]; [|discriminate].
  destruct (_ =? 0); [discriminate|].
  set (totalParts := if negb _ then _ else _).
  destruct (totalParts <? 0); [discriminate|].
  match goal with
  | |- context [s3.presign_parts ?sdk ?c ?key ?id ?todo ?urls ?log] =>
      pose proof (presign_parts_log sdk c key id todo urls log) as Hlog
  end.
  destruct (s3.presign_parts _ _ _ _ _ _ _) as [[urls|err|why] log'']; [|discriminate..].
  intros [= <- <-]. eexists (_ :: _). split; [by rewrite Hlog, <- app_assoc|].
  constructor; [done|]. apply Forall_fmap, Forall_forall. by intros i _.
Qed.

(** X8.  When the command cannot be written to the agent's channel,
    [TriggerDownload] answers 500 and leaves behind what it has set up:
    the blob-store session stays open (no abort is among the requests
    made), and the record of the transfer stays in the map, pending. *)
Theorem TriggerDownload_send_failure_leaves_the_session env h w r w' :
  TriggerDownload env h w r = (sendError 500 "Failed to send command to client", w') ->
  exists uploadID key mu record new,
    s3.InitiateMultipartUpload (sdk env) (Handler.s3Client h) (requests w)
      (s3.MultipartUploadConfig.mk key estimatedFileSize (Handler.chunkSize h)
         (commanded_metadata r))
    = (Returned mu, requests w')
    /\ requests w' = requests w ++ new
    /\ Forall (fun request =>
                 match request with s3.AbortMultipartUploadInput _ _ _ => False | _ => True end)
         new
    /\ uploads w' = <[uploadID := record]> (uploads w)
    /\ UploadStatus.Status record = UploadStatePending
    /\ UploadStatus.S3UploadID record = s3.MultipartUpload.UploadID mu
    /\ written w' = written w.
Proof.
  unfold TriggerDownload, generateUploadID, Read, SendCommand, GetClient, IsClientConnected.
  fold (commanded_metadata r).
  destruct (negb (String.eqb _ "POST")); [discriminate|].
  destruct (_ || _); [discriminate|].
  case_bool_decide as Hc; simpl; [|discriminate].
  destruct Hc as [client Hc].
  destruct (rand_Read env (draws w)) as [src|] eqn:Hsrc; simpl; [|discriminate].
  destruct (s3.InitiateMultipartUpload _ _ _ _) as [[mu|err|why] log] eqn:Hmu; simpl;
    [|discriminate..].
  destruct (InitiateMultipartUpload_asks_no_abort _ _ _ _ _ _ Hmu) as (new & Hnew & Hquiet).
  rewrite Hc. simpl.
  destruct (WriteJSON env _ _) as [err|]; simpl; [|discriminate].
  intros [= <-]. simpl.
  eexists _, _, mu, _, new. split; [exact Hmu|].
  split; [exact Hnew|]. split; [exact Hquiet|]. done.
Qed.

Lemma TriggerDownload_send_failure_leaves_the_session_witness :
  exists uploadID key mu record new,
    s3.InitiateMultipartUpload (sdk scenario.env_mute) (Handler.s3Client scenario.h)
      (requests scenario.registered)
      (s3.MultipartUploadConfig.mk key estimatedFileSize (Handler.chunkSize scenario.h)
         (commanded_metadata scenario.trigger))
    = (Returned mu,
       requests (TriggerDownload scenario.env_mute scenario.h scenario.registered
                   scenario.trigger).2)
    /\ requests (TriggerDownload scenario.env_mute scenario.h scenario.registered
                   scenario.trigger).2
       = requests scenario.registered ++ new
    /\ Forall (fun request =>
                 match request with s3.AbortMultipartUploadInput _ _ _ => False | _ => True end)
         new
    /\ uploads (TriggerDownload scenario.env_mute scenario.h scenario.registered
                  scenario.trigger).2
       = <[uploadID := record]> (uploads scenario.registered)
    /\ UploadStatus.Status record = UploadStatePending
    /\ UploadStatus.S3UploadID record = s3.MultipartUpload.UploadID mu
    /\ written (TriggerDownload scenario.env_mute scenario.h scenario.registered
                  scenario.trigger).2
       = written scenario.registered.
Proof.
  apply (TriggerDownload_send_failure_leaves_the_session scenario.env_mute scenario.h
           scenario.registered scenario.trigger).
  vm_compute. reflexivity.
Defined.

End Sessions.

(** ** Responses as the coordinator takes them *)

Section Responses.

Import models server api coordinator.

(** X9.  An [error] or [cancelled] response for a known transfer ends it
    whatever state it was in, a completed one included: the record becomes
    failed (with the error text of the response) or cancelled, its end
    time is the time of arrival, and exactly one request, the abort of the
    blob-store session, is made, whose outcome changes nothing. *)
Theorem HandleResponse_failure_ends_the_transfer env h w clientID msg payload uploadID upload :
  sharedModels.ResponseMessage.Action msg = sharedModels.CommandActionDownloadFile ->
  sharedModels.ResponseMessage.Payload msg = sharedModels.Decoded (JObject payload) ->
  Go.as_string (Go.index payload "upload_id") = Some uploadID ->
  uploads w !! uploadID = Some upload ->
  sharedModels.ResponseMessage.Status msg = sharedModels.ResponseStatusError
  \/ sharedModels.ResponseMessage.Status msg = sharedModels.ResponseStatusCancelled ->
  let w' := HandleResponse env h w clientID msg in
  let now := time_Now env (ticks w) in
  uploads w'
  = <[uploadID :=
        if String.eqb (sharedModels.ResponseMessage.Status msg) sharedModels.ResponseStatusError
        then MarkFailed upload (sharedModels.ResponseMessage.Error msg) now
        else MarkCancelled upload now]> (uploads w)
  /\ requests w'
     = requests w
       ++ [s3.AbortMultipartUploadInput (s3.Client.bucket (Handler.s3Client h))
             (UploadStatus.S3Key upload) (UploadStatus.S3UploadID upload)]
  /\ clients w' = clients w /\ written w' = written w /\ closed w' = closed w.
Proof.
  intros Haction Hpayload Hid Hup Hstatus w' now. subst w' now.
  unfold HandleResponse, GetUpload.
  rewrite Haction, Hpayload, Hid. cbn [negb String.eqb default from_option id].
  replace (String.eqb sharedModels.CommandActionDownloadFile
             sharedModels.CommandActionDownloadFile) with true by done.
  cbn [negb]. rewrite Hup.
  unfold s3.AbortMultipartUpload, s3.call.
  destruct Hstatus as [-> | ->]; cbn; by destruct (sdk env _ _).
Qed.

Lemma HandleResponse_failure_ends_the_transfer_witness :
  uploads (HandleResponse scenario.env scenario.h scenario.completed "agent-1" scenario.failure)
  = <[scenario.uploadID :=
        MarkFailed
          (MarkCompleted
             (SetS3UploadID
                (NewUploadStatus scenario.uploadID "agent-1" "/data/test-file.bin"
                   "file-download-system-uploads" scenario.key 104857600 5242880 20
                   1761998402)
                "session-1")
             1761998405)
          "disk full" (time_Now scenario.env (ticks scenario.completed))]>
      (uploads scenario.completed)
  /\ requests (HandleResponse scenario.env scenario.h scenario.completed "agent-1"
                scenario.failure)
     = requests scenario.completed
       ++ [s3.AbortMultipartUploadInput "file-download-system-uploads" scenario.key "session-1"]
  /\ clients (HandleResponse scenario.env scenario.h scenario.completed "agent-1"
               scenario.failure)
     = clients scenario.completed
  /\ written (HandleResponse scenario.env scenario.h scenario.completed "agent-1"
               scenario.failure)
     = written scenario.completed
  /\ closed (HandleResponse scenario.env scenario.h scenario.completed "agent-1"
              scenario.failure)
     = closed scenario.completed.
Proof.
  apply (HandleResponse_failure_ends_the_transfer scenario.env scenario.h scenario.completed
           "agent-1" scenario.failure [("upload_id", JString scenario.uploadID)]
           scenario.uploadID);
    [reflexivity | reflexivity | reflexivity | vm_compute; reflexivity | left; reflexivity].
Defined.

(** X10.  A response changes nothing at all when it is for another action
    than [download_file], when its payload is no object, when the
    transfer it names is not known, or when its status is none of
    [success], [error] and [cancelled]. *)
Theorem HandleResponse_ignores env h w clientID msg :
  sharedModels.ResponseMessage.Action msg <> sharedModels.CommandActionDownloadFile
  \/ (forall payload,
        sharedModels.ResponseMessage.Payload msg <> sharedModels.Decoded (JObject payload))
  \/ (forall payload,
        sharedModels.ResponseMessage.Payload msg = sharedModels.Decoded (JObject payload) ->
        uploads w !! default "" (Go.as_string (Go.index payload "upload_id")) = None)
  \/ (sharedModels.ResponseMessage.Status msg <> sharedModels.ResponseStatusSuccess
      /\ sharedModels.ResponseMessage.Status msg <> sharedModels.ResponseStatusError
      /\ sharedModels.ResponseMessage.Status msg <> sharedModels.ResponseStatusCancelled) ->
  HandleResponse env h w clientID msg = w.
Proof.
  intros Hwhy. unfold HandleResponse, GetUpload.
  destruct (String.eqb_spec (sharedModels.ResponseMessage.Action msg)
              sharedModels.CommandActionDownloadFile) as [Haction|Haction]; [|done].
  cbn [negb].
  destruct (sharedModels.ResponseMessage.Payload msg) as [| | |[| | | | |payload]] eqn:Hpayload;
    try done.
  destruct (uploads w !! _) as [upload|] eqn:Hup; [|done].
  destruct Hwhy as [Hwhy|[Hwhy|[Hwhy|(Hs & He & Hc)]]].
  - done.
  - by destruct (Hwhy payload).
  - by rewrite (Hwhy payload eq_refl) in Hup.
  - destruct (String.eqb_spec (sharedModels.ResponseMessage.Status msg)
                sharedModels.ResponseStatusSuccess); [done|].
    destruct (String.eqb_spec (sharedModels.ResponseMessage.Status msg)
                sharedModels.ResponseStatusError); [done|].
    by destruct (String.eqb_spec (sharedModels.ResponseMessage.Status msg)
                   sharedModels.ResponseStatusCancelled).
Qed.

Lemma HandleResponse_ignores_witness :
  HandleResponse scenario.env scenario.h scenario.triggered "agent-1" scenario.stray
  = scenario.triggered.
Proof.
  apply (HandleResponse_ignores scenario.env scenario.h scenario.triggered "agent-1"
           scenario.stray).
  right. right. left. intros payload [= <-]. vm_compute. reflexivity.
Defined.

End Responses.

(** ** The records of the transfers over time *)

Section Records.

Import models server api coordinator.

#[local] Arguments Go.hex_EncodeToString : simpl never.

(** Every way in which [HandleResponse] changes the state. *)
Lemma HandleResponse_cases env h w clientID msg :
  let w' := HandleResponse env h w clientID msg in
  let now := time_Now env (ticks w) in
  let Status := sharedModels.ResponseMessage.Status msg in
  w' = w
  \/ exists payload upload,
       let uploadID := default "" (Go.as_string (Go.index payload "upload_id")) in
       sharedModels.ResponseMessage.Action msg = sharedModels.CommandActionDownloadFile
       /\ sharedModels.ResponseMessage.Payload msg = sharedModels.Decoded (JObject payload)
       /\ uploads w !! uploadID = Some upload
       /\ clients w' = clients w /\ written w' = written w /\ closed w' = closed w
       /\ ((Status = sharedModels.ResponseStatusSuccess /\ digests_of msg = ∅
            /\ uploads w' = <[uploadID := MarkCompleted upload now]> (uploads w)
            /\ requests w' = requests w)
           \/ (Status = sharedModels.ResponseStatusSuccess /\ digests_of msg <> ∅
               /\ (uploads w' = <[uploadID := MarkCompleted upload now]> (uploads w)
                   \/ exists err now',
                        uploads w'
                        = <[uploadID := MarkFailed (MarkCompleted upload now) err now']>
                            (uploads w))
               /\ exists request, requests w' = requests w ++ [request])
           \/ (Status = sharedModels.ResponseStatusError
               /\ uploads w'
                  = <[uploadID := MarkFailed upload (sharedModels.ResponseMessage.Error msg) now]>
                      (uploads w)
               /\ exists request, requests w' = requests w ++ [request])
           \/ (Status = sharedModels.ResponseStatusCancelled
               /\ uploads w' = <[uploadID := MarkCancelled upload now]> (uploads w)
               /\ exists request, requests w' = requests w ++ [request])).
Proof.
  cbv zeta. unfold HandleResponse, digests_of, GetUpload.
  destruct (String.eqb_spec (sharedModels.ResponseMessage.Action msg)
              sharedModels.CommandActionDownloadFile) as [Haction|]; [|by left].
  cbn [negb].
  destruct (sharedModels.ResponseMessage.Payload msg) as [| | |[| | | | |payload]];
    try by left.
  destruct (uploads w !! _) as [upload|] eqn:Hup; [|by left].
  destruct (String.eqb_spec (sharedModels.ResponseMessage.Status msg)
              sharedModels.ResponseStatusSuccess) as [Hs|Hs].
  { right. exists payload, upload. do 3 (split; [done|]).
    cbn [Now fst snd]. set (etags := match Go.as_object _ with Some _ => _ | None => _ end).
    destruct (Z.ltb_spec 0 (Z.of_nat (size etags))) as [Hpos|Hzero].
    - unfold s3.CompleteMultipartUpload, s3.call.
      destruct (sdk env _ _) as [|err]; cbn.
      + do 3 (split; [done|]). right. left. split; [done|]. split.
        { intros Hempty. rewrite Hempty, map_size_empty in Hpos. lia. }
        split; [by left|]. by eexists.
      + do 3 (split; [done|]). right. left. split; [done|]. split.
        { intros Hempty. rewrite Hempty, map_size_empty in Hpos. lia. }
        split; [|by eexists]. right. eexists _, _. by rewrite insert_insert_eq.
    - cbn. do 3 (split; [done|]). left. split; [done|]. split; [|done].
      apply map_size_empty_iff. lia. }
  destruct (String.eqb_spec (sharedModels.ResponseMessage.Status msg)
              sharedModels.ResponseStatusError) as [He|He].
  { right. exists payload, upload. do 3 (split; [done|]).
    unfold s3.AbortMultipartUpload, s3.call. simpl.
    destruct (sdk env _ _); cbn; do 3 (split; [done|]); right; right; left;
      (split; [done|]); (split; [done|]); by eexists. }
  destruct (String.eqb_spec (sharedModels.ResponseMessage.Status msg)
              sharedModels.ResponseStatusCancelled) as [Hc|Hc]; [|by left].
  right. exists payload, upload. do 3 (split; [done|]).
  unfold s3.AbortMultipartUpload, s3.call. simpl.
  destruct (sdk env _ _); cbn; do 3 (split; [done|]); right; right; right;
    (split; [done|]); (split; [done|]); by eexists.
Qed.

Lemma HandleStatus_cases w clientID msg :
  HandleStatus w clientID msg = w
  \/ exists current upload,
       sharedModels.StatusMessage.CurrentUpload msg = Some current
       /\ uploads w !! sharedModels.UploadStatus.UploadID current = Some upload
       /\ HandleStatus w clientID msg
          = store (sharedModels.UploadStatus.UploadID current)
              (UploadStatus.with_progress
                 (sharedModels.UploadStatus.CompletedParts current)
                 (sharedModels.UploadStatus.BytesUploaded current)
                 (UploadStatus.ETags upload) (UploadStatus.Status upload) upload)
              w.
Proof.
  unfold HandleStatus, GetUpload.
  destruct (sharedModels.StatusMessage.CurrentUpload msg) as [current|]; [|by left].
  destruct (uploads w !! _) as [upload|] eqn:Hup; [|by left].
  right. by exists current, upload.
Qed.

Lemma TriggerDownload_uploads env h w r :
  uploads (TriggerDownload env h w r).2 = uploads w
  \/ exists uploadID clientID filePath bucket key totalParts now s3UploadID,
       uploads (TriggerDownload env h w r).2
       = <[uploadID :=
             SetS3UploadID
               (NewUploadStatus uploadID clientID filePath bucket key estimatedFileSize
                  (Handler.chunkSize h) totalParts now)
               s3UploadID]> (uploads w).
Proof.
  unfold TriggerDownload, generateUploadID, Read, SendCommand, GetClient, IsClientConnected.
  destruct (negb (String.eqb _ "POST")); [by left|].
  destruct (_ || _); [by left|].
  case_bool_decide as Hc; simpl; [|by left].
  destruct Hc as [client Hc].
  destruct (rand_Read env (draws w)) as [src|]; simpl; [|by left].
  destruct (s3.InitiateMultipartUpload _ _ _ _) as [[mu|err|why] log]; simpl;
    [|by left..].
  rewrite Hc. simpl.
  destruct (WriteJSON env _ _) as [err|]; simpl; right; by eexists _, _, _, _, _, _, _, _.
Qed.

(** What holds of every record: it is filed under its own id, it has no
    digest, it is not in progress, and it has an end time exactly when it
    is no longer pending. *)
Local Abbreviation settled id u :=
  (UploadStatus.UploadID u = id
   /\ UploadStatus.ETags u = ∅
   /\ UploadStatus.Status u <> UploadStateInProgress
   /\ (UploadStatus.EndTime u = None <-> UploadStatus.Status u = UploadStatePending)).

Lemma insert_settled (m : gmap string UploadStatus.t) k u' :
  (forall id u, m !! id = Some u -> settled id u) ->
  settled k u' ->
  forall id u, <[k := u']> m !! id = Some u -> settled id u.
Proof.
  intros Hm Hk id u. destruct (decide (k = id)) as [<-|Hne].
  - rewrite lookup_insert_eq. by intros [= <-].
  - rewrite lookup_insert_ne by done. apply Hm.
Qed.

Lemma step_settled env w op :
  (forall id u, uploads w !! id = Some u -> settled id u) ->
  forall id u, uploads (step env w op) !! id = Some u -> settled id u.
Proof.
  intros Hw. destruct op as [clientID conn|clientID|h clientID msg|clientID msg|h r];
    unfold step.
  - unfold RegisterClient. by destruct (clients w !! clientID).
  - unfold UnregisterClient. by destruct (clients w !! clientID).
  - destruct (HandleResponse_cases env h w clientID msg) as
      [->|(payload & upload & _ & _ & Hup & _ & _ & _ & Hcase)]; [done|].
    destruct (Hw _ _ Hup) as (Hid & Hetags & Hstatus & Hend).
    destruct Hcase as [(_ & _ & -> & _)|[(_ & _ & [->|(err & now' & ->)] & _)
                       |[(_ & -> & _)|(_ & -> & _)]]];
      apply insert_settled; try done; cbn; repeat split; try done; by intros.
  - destruct (HandleStatus_cases w clientID msg) as [->|(current & upload & _ & Hup & ->)];
      [done|].
    destruct (Hw _ _ Hup) as (Hid & Hetags & Hstatus & Hend).
    unfold store. cbn. apply insert_settled; [done|]. cbn. by repeat split; try apply Hend.
  - destruct (TriggerDownload_uploads env h w r) as
      [->|(uploadID & c & p & b & k & t & now & s & ->)]; [done|].
    apply insert_settled; [done|]. cbn. by repeat split.
Qed.

Lemma run_settled env w ops :
  (forall id u, uploads w !! id = Some u -> settled id u) ->
  forall id u, uploads (run env w ops) !! id = Some u -> settled id u.
Proof.
  intros Hw. induction ops as [|op ops IH] using rev_ind; [done|].
  rewrite run_snoc. by apply step_settled.
Qed.

(** X11.  In every state the coordinator reaches from its start, by
    registrations, losses of channels, responses, status frames and
    triggers in any order and with any content, each record of a transfer
    is filed under its own id, holds no digest, is not in progress, and
    has an end time exactly when it is no longer pending: nothing the
    coordinator does ever stores a digest or moves a transfer to "in
    progress". *)
Theorem records_hold_no_progress env ops id u :
  uploads (run env NewManager ops) !! id = Some u ->
  UploadStatus.UploadID u = id
  /\ UploadStatus.ETags u = ∅
  /\ UploadStatus.Status u <> UploadStateInProgress
  /\ (UploadStatus.EndTime u = None <-> UploadStatus.Status u = UploadStatePending).
Proof.
  apply run_settled. intros id' u'. cbn. by rewrite lookup_empty.
Qed.

Lemma records_hold_no_progress_witness :
  UploadStatus.UploadID
    (SetS3UploadID
       (NewUploadStatus scenario.uploadID "agent-1" "/data/test-file.bin"
          "file-download-system-uploads" scenario.key 104857600 5242880 20 1761998402)
       "session-1")
  = scenario.uploadID
  /\ UploadStatus.ETags
       (SetS3UploadID
          (NewUploadStatus scenario.uploadID "agent-1" "/data/test-file.bin"
             "file-download-system-uploads" scenario.key 104857600 5242880 20 1761998402)
          "session-1")
     = ∅
  /\ UploadStatus.Status
       (SetS3UploadID
          (NewUploadStatus scenario.uploadID "agent-1" "/data/test-file.bin"
             "file-download-system-uploads" scenario.key 104857600 5242880 20 1761998402)
          "session-1")
     <> UploadStateInProgress
  /\ (UploadStatus.EndTime
        (SetS3UploadID
           (NewUploadStatus scenario.uploadID "agent-1" "/data/test-file.bin"
              "file-download-system-uploads" scenario.key 104857600 5242880 20 1761998402)
           "session-1")
      = None
      <-> UploadStatus.Status
            (SetS3UploadID
               (NewUploadStatus scenario.uploadID "agent-1" "/data/test-file.bin"
                  "file-download-system-uploads" scenario.key 104857600 5242880 20
                  1761998402)
               "session-1")
          = UploadStatePending).
Proof.
  apply (records_hold_no_progress scenario.env
           [Enter "agent-1" 1%nat; Trigger scenario.h scenario.trigger] scenario.uploadID).
  vm_compute. reflexivity.
Defined.

Lemma step_keeps_records env w op id :
  is_Some (uploads w !! id) -> is_Some (uploads (step env w op) !! id).
Proof.
  intros Hid. destruct op as [clientID conn|clientID|h clientID msg|clientID msg|h r];
    unfold step.
  - unfold RegisterClient. by destruct (clients w !! clientID).
  - unfold UnregisterClient. by destruct (clients w !! clientID).
  - destruct (HandleResponse_cases env h w clientID msg) as
      [->|(payload & upload & _ & _ & Hup & _ & _ & _ & Hcase)]; [done|].
    destruct Hcase as [(_ & _ & -> & _)|[(_ & _ & [->|(err & now' & ->)] & _)
                       |[(_ & -> & _)|(_ & -> & _)]]];
      rewrite lookup_insert_is_Some; destruct (decide (default "" (Go.as_string
        (Go.index payload "upload_id")) = id)); auto.
  - destruct (HandleStatus_cases w clientID msg) as [->|(current & upload & _ & Hup & ->)];
      [done|].
    unfold store. cbn. rewrite lookup_insert_is_Some.
    destruct (decide (sharedModels.UploadStatus.UploadID current = id)); auto.
  - destruct (TriggerDownload_uploads env h w r) as
      [->|(uploadID & c & p & b & k & t & now & s & ->)]; [done|].
    rewrite lookup_insert_is_Some. destruct (decide (uploadID = id)); auto.
Qed.

Lemma run_keeps_records env w ops id :
  is_Some (uploads w !! id) -> is_Some (uploads (run env w ops) !! id).
Proof.
  intros Hid. induction ops as [|op ops IH] using rev_ind; [done|].
  rewrite run_snoc. by apply step_keeps_records.
Qed.

Lemma hex_EncodeToString_length bs :
  String.length (Go.hex_EncodeToString bs) = (2 * length bs)%nat.
Proof.
  induction bs as [|b bs IH]; [done|].
  change (Go.hex_EncodeToString (b :: bs))
    with (String (Go.hex_digit (Byte.to_N b / 16))
            (String (Go.hex_digit (Byte.to_N b mod 16)) (Go.hex_EncodeToString bs))).
  cbn [String.length length]. rewrite IH. lia.
Qed.

(** X12.  A transfer that [TriggerDownload] has announced can be asked
    for ever after: whatever the coordinator does next, [GetUploadStatus]
    on the id of the announcement answers 200, never 404; no record is
    ever removed from the map. *)
Theorem triggered_transfer_stays_visible env h w r status data w' ops q :
  TriggerDownload env h w r = (sendJSON status data, w') ->
  Request.Method q = "GET" ->
  path_Base env (Request.Path q) = TriggerDownloadResponse.UploadID data ->
  exists info, GetUploadStatus env (run env w' ops) q = statusJSON 200 info.
Proof.
  intros Htrigger Hmethod Hpath.
  destruct (TriggerDownload_issued _ _ _ _ _ _ _ Htrigger) as
    (src & mu & client & stamp & began & _ & _ & Hid & _ & _ & _ & Hup).
  cbv zeta in Hid, Hup.
  assert (Hlen : String.length (TriggerDownloadResponse.UploadID data) = 32%nat).
  { rewrite Hid, hex_EncodeToString_length, length_fmap, length_seq. done. }
  unfold GetUploadStatus, GetUpload. rewrite Hmethod, Hpath. cbn [String.eqb Ascii.eqb negb].
  replace (String.eqb "GET" "GET") with true by done. cbn [negb].
  destruct (String.eqb_spec (TriggerDownloadResponse.UploadID data) "") as [He|_];
    [by rewrite He in Hlen|].
  destruct (String.eqb_spec (TriggerDownloadResponse.UploadID data) "uploads") as [He|_];
    [by rewrite He in Hlen|].
  cbn [orb].
  destruct (run_keeps_records env w' ops (TriggerDownloadResponse.UploadID data)) as [u Hu].
  { rewrite Hup, lookup_insert_eq. by eexists. }
  rewrite Hu. by eexists.
Qed.

Lemma triggered_transfer_stays_visible_witness :
  exists info,
    GetUploadStatus scenario.env
      (run scenario.env scenario.triggered
         [Response scenario.h "agent-1" scenario.success; Leave "agent-1"])
      (Request.mk "GET" ("/uploads/" +:+ scenario.uploadID) None)
    = statusJSON 200 info.
Proof.
  apply (triggered_transfer_stays_visible scenario.env scenario.h scenario.registered
           scenario.trigger 200
           (TriggerDownloadResponse.mk true "Download triggered for client agent-1"
              scenario.uploadID scenario.key)
           scenario.triggered
           [Response scenario.h "agent-1" scenario.success; Leave "agent-1"]
           (Request.mk "GET" ("/uploads/" +:+ scenario.uploadID) None));
    [vm_compute; reflexivity | reflexivity | vm_compute; reflexivity].
Defined.

Lemma count_uploads_current clientID visit :
  Forall (fun u => UploadStatus.Status u <> UploadStateInProgress) visit ->
  (count_uploads clientID visit).2 = None.
Proof.
  unfold count_uploads.
  assert (Hgen : forall acc, acc.2 = None ->
            Forall (fun u => UploadStatus.Status u <> UploadStateInProgress) visit ->
            (foldl (fun '(total, success, failed, currentUpload) upload =>
                      if negb (String.eqb (UploadStatus.ClientID upload) clientID)
                      then (total, success, failed, currentUpload)
                      else
                        let total := Go.int64 (total + 1) in
                        match UploadStatus.Status upload with
                        | UploadStateCompleted =>
                            (total, Go.int64 (success + 1), failed, currentUpload)
                        | UploadStateFailed =>
                            (total, success, Go.int64 (failed + 1), currentUpload)
                        | UploadStateInProgress => (total, success, failed, Some upload)
                        | _ => (total, success, failed, currentUpload)
                        end) acc visit).2 = None).
  { induction visit as [|u visit IH]; intros acc Hacc Hall; [done|].
    apply Forall_cons in Hall as [Hu Hall]. cbn [foldl]. apply IH; [|done].
    destruct acc as [[[total success] failed] currentUpload]. cbn in Hacc. subst.
    destruct (negb _); [done|]. by destruct (UploadStatus.Status u). }
  intros Hall. by apply Hgen.
Qed.

(** X13.  In every state the coordinator reaches from its start, the
    status of an agent, as [GetStatus] answers it, reports no current
    upload, whatever the order in which the records are visited; and it
    reports the agent connected exactly when the registry holds a channel
    for it. *)
Theorem GetStatus_reports_no_current_upload env ops visit q :
  let w := run env NewManager ops in
  let clientID := path_Base env (Request.Path q) in
  Request.Method q = "GET" ->
  clientID <> "" -> clientID <> "status" ->
  visits w visit ->
  exists status,
    GetStatus env visit w q = statusJSON 200 status
    /\ status = GetClientStatus visit w clientID
    /\ ClientStatus.CurrentUpload status = None
    /\ ClientStatus.ClientID status = clientID
    /\ ClientStatus.Connected status = IsClientConnected w clientID.
Proof.
  intros w clientID Hmethod Hid Hstatus Hvisit.
  unfold GetStatus. rewrite Hmethod. fold clientID.
  replace (String.eqb "GET" "GET") with true by done. cbn [negb].
  destruct (String.eqb_spec clientID ""); [done|].
  destruct (String.eqb_spec clientID "status"); [done|]. cbn [orb].
  eexists. split; [reflexivity|]. split; [reflexivity|].
  unfold GetClientStatus.
  pose proof (count_uploads_current clientID visit) as Hnone.
  destruct (count_uploads clientID visit) as [[[total success] failed] currentUpload].
  cbn in *. rewrite Hnone; [done|].
  apply Forall_forall. intros u Hu. unfold visits in Hvisit. rewrite Hvisit in Hu.
  apply list_elem_of_fmap in Hu as ([id u'] & -> & Hu).
  apply elem_of_map_to_list in Hu.
  apply (run_settled env NewManager ops) in Hu as (_ & _ & Hs & _); [done|].
  intros id' u''. cbn. by rewrite lookup_empty.
Qed.

Lemma GetStatus_reports_no_current_upload_witness :
  exists status,
    GetStatus scenario.env (map_to_list (uploads scenario.completed)).*2
      (run scenario.env NewManager
         [Enter "agent-1" 1%nat; Trigger scenario.h scenario.trigger;
          Response scenario.h "agent-1" scenario.success])
      (Request.mk "GET" "/status/agent-1" None)
    = statusJSON 200 status
    /\ status
       = GetClientStatus (map_to_list (uploads scenario.completed)).*2
           (run scenario.env NewManager
              [Enter "agent-1" 1%nat; Trigger scenario.h scenario.trigger;
               Response scenario.h "agent-1" scenario.success])
           (path_Base scenario.env "/status/agent-1")
    /\ ClientStatus.CurrentUpload status = None
    /\ ClientStatus.ClientID status = path_Base scenario.env "/status/agent-1"
    /\ ClientStatus.Connected status
       = IsClientConnected
           (run scenario.env NewManager
              [Enter "agent-1" 1%nat; Trigger scenario.h scenario.trigger;
               Response scenario.h "agent-1" scenario.success])
           (path_Base scenario.env "/status/agent-1").
Proof.
  apply (GetStatus_reports_no_current_upload scenario.env
           [Enter "agent-1" 1%nat; Trigger scenario.h scenario.trigger;
            Response scenario.h "agent-1" scenario.success]
           (map_to_list (uploads scenario.completed)).*2
           (Request.mk "GET" "/status/agent-1" None));
    [reflexivity | vm_compute; discriminate | vm_compute; discriminate | ].
  unfold visits. vm_compute. reflexivity.
Defined.

End Records.

(** ** The agent's frames as the coordinator takes them *)

Section Exchange.

Import models server api coordinator.

#[local] Arguments uploader.Upload : simpl never.
#[local] Arguments handler.parseUploadConfig : simpl never.

(** The responses [HandleCommand] can write: for another action than
    [download_file], without a payload, in progress, or a success that
    carries the agent's report. *)
Lemma HandleCommand_frames fs do now a cmd f :
  f ∈ (handler.HandleCommand fs do now a cmd).1 ->
  match f with
  | handler.SendStatus _ _ => True
  | handler.SendResponse status _ action payload _ =>
      action <> sharedModels.CommandActionDownloadFile
      \/ payload = sharedModels.Nil
      \/ status = sharedModels.ResponseStatusInProgress
      \/ (status = sharedModels.ResponseStatusSuccess
          /\ exists r, payload = sharedModels.Report r)
  end.
Proof.
  unfold handler.HandleCommand.
  destruct (String.eqb_spec (sharedModels.CommandMessage.Action cmd)
              sharedModels.CommandActionDownloadFile) as [Hdl|Hother].
  2: { destruct (String.eqb _ sharedModels.CommandActionHealthCheck);
         [|destruct (String.eqb _ sharedModels.CommandActionCancelUpload)];
         cbn; intros ->%list_elem_of_singleton; by left. }
  unfold handler.handleDownloadFile.
  destruct (sharedModels.CommandMessage.Payload cmd) as [| | |[| | | | |payloadMap]];
    try (cbn; intros ->%list_elem_of_singleton; right; by left).
  destruct (Go.as_object _) as [uploadConfigMap|];
    [|cbn; intros ->%list_elem_of_singleton; right; by left].
  destruct (handler.parseUploadConfig uploadConfigMap) as [uploadConfig|err];
    [|cbn; intros ->%list_elem_of_singleton; right; by left].
  destruct (handler.GetFileSize fs _).
  2: { cbn. intros [->| ->%list_elem_of_singleton]%elem_of_cons;
         [right; right; by left|right; by left]. }
  destruct (uploader.Upload fs do _) as [[result|err|why] calls]; cbn [fst].
  - intros [->|[Hf| ->%list_elem_of_singleton]%elem_of_app]%elem_of_cons.
    + right; right; by left.
    + by apply list_elem_of_fmap in Hf as (p & -> & _).
    + right; right; right. split; [done|]. by eexists.
  - intros [->|[Hf| ->%list_elem_of_singleton]%elem_of_app]%elem_of_cons.
    + right; right; by left.
    + by apply list_elem_of_fmap in Hf as (p & -> & _).
    + right; by left.
  - intros [->|Hf]%elem_of_cons.
    + right; right; by left.
    + by apply list_elem_of_fmap in Hf as (p & -> & _).
Qed.

Lemma digests_of_Report messageID status commandID action r errMsg :
  digests_of
    (sharedModels.ResponseMessage.mk messageID status commandID action
       (sharedModels.wire (sharedModels.Report r)) errMsg)
  = ∅.
Proof.
  unfold digests_of. cbn.
  by destruct (String.eqb (sharedModels.DownloadFileResponse.S3Key r) "").
Qed.

(** X14.  Nothing the agent writes while it works on a command, whatever
    the command, the file and the store, makes the coordinator ask
    anything of the blob store: not the completion of the session after
    the agent's success, not its abort after the agent's failure.  Through
    these frames a record never becomes failed or cancelled and never
    gets a digest or an error text; at most it becomes completed. *)
Theorem agent_frames_ask_nothing_of_the_store env h w clientID fs do now a cmd f :
  f ∈ (handler.HandleCommand fs do now a cmd).1 ->
  let w' := handleMessage env h w clientID (handler.sent clientID f) in
  requests w' = requests w
  /\ forall id u',
       uploads w' !! id = Some u' ->
       exists u,
         uploads w !! id = Some u
         /\ (UploadStatus.Status u' = UploadStatus.Status u
             \/ UploadStatus.Status u' = UploadStateCompleted)
         /\ UploadStatus.Error u' = UploadStatus.Error u
         /\ UploadStatus.ETags u' = UploadStatus.ETags u.
Proof.
  intros Hf w'. apply HandleCommand_frames in Hf. subst w'.
  set (w1 := match GetClient w clientID with
             | Some client =>
                 let '(now, w) := Now env w in
                 set_clients (insert clientID (UpdateActivity client now)) w
             | None => w
             end).
  assert (Hup1 : uploads w1 = uploads w)
    by (subst w1; by destruct (GetClient w clientID)).
  assert (Hreq1 : requests w1 = requests w)
    by (subst w1; by destruct (GetClient w clientID)).
  assert (Hsame : forall w2, requests w2 = requests w1 -> uploads w2 = uploads w1 ->
            requests w2 = requests w
            /\ forall id u',
                 uploads w2 !! id = Some u' ->
                 exists u,
                   uploads w !! id = Some u
                   /\ (UploadStatus.Status u' = UploadStatus.Status u
                       \/ UploadStatus.Status u' = UploadStateCompleted)
                   /\ UploadStatus.Error u' = UploadStatus.Error u
                   /\ UploadStatus.ETags u' = UploadStatus.ETags u).
  { intros w2 -> ->. rewrite Hup1. split; [done|]. intros id u' Hu. exists u'. auto. }
  assert (Hone : forall w2 k u0 u1,
            requests w2 = requests w1 -> uploads w1 !! k = Some u0 ->
            uploads w2 = <[k := u1]> (uploads w1) ->
            (UploadStatus.Status u1 = UploadStatus.Status u0
             \/ UploadStatus.Status u1 = UploadStateCompleted) ->
            UploadStatus.Error u1 = UploadStatus.Error u0 ->
            UploadStatus.ETags u1 = UploadStatus.ETags u0 ->
            requests w2 = requests w
            /\ forall id u',
                 uploads w2 !! id = Some u' ->
                 exists u,
                   uploads w !! id = Some u
                   /\ (UploadStatus.Status u' = UploadStatus.Status u
                       \/ UploadStatus.Status u' = UploadStateCompleted)
                   /\ UploadStatus.Error u' = UploadStatus.Error u
                   /\ UploadStatus.ETags u' = UploadStatus.ETags u).
  { intros w2 k u0 u1 -> Hk -> Hs He Ht. rewrite Hup1 in *. split; [done|].
    intros id u'. destruct (decide (k = id)) as [<-|Hne].
    - rewrite lookup_insert_eq. intros [= <-]. by exists u0.
    - rewrite lookup_insert_ne by done. intros Hu. exists u'. auto. }
  destruct f as [status commandID action payload errMsg|status currentUpload];
    unfold handleMessage, handler.sent; fold w1.
  - destruct (HandleResponse_cases env h w1 clientID
                (sharedModels.ResponseMessage.mk commandID status commandID action
                   (sharedModels.wire payload) errMsg)) as
      [->|(payloadMap & upload & Haction & Hpayload & Hup & _ & _ & _ & Hcase)];
      [by apply Hsame|].
    cbn [sharedModels.ResponseMessage.Action sharedModels.ResponseMessage.Payload
         sharedModels.ResponseMessage.Status] in *.
    destruct Hf as [Hf|[->|[->|(-> & r & ->)]]]; [done|done| |].
    + by destruct Hcase as [(? & _)|[(? & _)|[(? & _)|(? & _)]]].
    + destruct Hcase as [(_ & _ & Hu & Hr)|[(_ & Hd & _)|[(? & _)|(? & _)]]]; try done.
      * eapply Hone; [exact Hr|exact Hup|exact Hu|by right|done|done].
      * by rewrite digests_of_Report in Hd.
  - destruct (HandleStatus_cases w1 clientID
                (sharedModels.StatusMessage.mk clientID status (Some currentUpload))) as
      [->|(current & upload & _ & Hup & ->)]; [by apply Hsame|].
    eapply Hone; [done|exact Hup|done|by left|done|done].
Qed.

Lemma agent_frames_ask_nothing_of_the_store_witness :
  requests (handleMessage scenario.env scenario.h scenario.triggered "agent-1"
              (handler.sent "agent-1" scenario.note_done))
  = requests scenario.triggered
  /\ forall id u',
       uploads (handleMessage scenario.env scenario.h scenario.triggered "agent-1"
                  (handler.sent "agent-1" scenario.note_done)) !! id = Some u' ->
       exists u,
         uploads scenario.triggered !! id = Some u
         /\ (UploadStatus.Status u' = UploadStatus.Status u
             \/ UploadStatus.Status u' = UploadStateCompleted)
         /\ UploadStatus.Error u' = UploadStatus.Error u
         /\ UploadStatus.ETags u' = UploadStatus.ETags u.
Proof.
  apply (agent_frames_ask_nothing_of_the_store scenario.env scenario.h scenario.triggered
           "agent-1" scenario.notes scenario.do "2025-11-01T12:00:03Z" scenario.agent
           scenario.note_command scenario.note_done).
  apply list_elem_of_In. vm_compute. auto 10.
Defined.

End Exchange.

(** ** From the coordinator's command to the agent's parser *)

Section Handover.

Import models server api.

#[local] Arguments Go.hex_EncodeToString : simpl never.
#[local] Arguments handler.parseUploadConfig : simpl never.
#[local] Arguments sharedModels.wire_UploadConfig : simpl never.

Lemma InitiateMultipartUpload_fields sdk c log cfg mu log' :
  s3.InitiateMultipartUpload sdk c log cfg = (Returned mu, log') ->
  s3.MultipartUpload.Key mu = s3.MultipartUploadConfig.Key cfg
  /\ s3.MultipartUpload.Bucket mu = s3.Client.bucket c
  /\ s3.MultipartUpload.ChunkSize mu = s3.MultipartUploadConfig.ChunkSize cfg.
Proof.
  unfold s3.InitiateMultipartUpload, s3.call.
  destruct (sdk log _) as [uploadID|err]; [|discriminate].
  destruct (_ =? 0); [discriminate|].
  destruct (_ <? 0); [discriminate|].
  destruct (s3.presign_parts _ _ _ _ _ _ _) as [[urls|err|why] log'']; [|discriminate..].
  by intros [= <- <-].
Qed.

(** X15.  The command of a successful trigger is one the agent accepts:
    with a positive chunk size of at most [2 ^ 53] (which the decoder's
    [float64] holds exactly), the frame written is a [download_file]
    command under the transfer id, and the agent's parser makes of its
    payload, as decoded from the wire, a ticket for that transfer, with
    the coordinator's chunk size and storage key and with the parts
    numbered from 1 to the ceiling of 100 MB over the chunk size; the file
    the agent will read is the one the request named, or
    [/data/test-file.bin] when it named none, never the agent's own. *)
Theorem issued_command_is_accepted env h w r status data w' a :
  0 < Handler.chunkSize h <= 2 ^ 53 ->
  TriggerDownload env h w r = (sendJSON status data, w') ->
  exists conn cmd payloadMap uploadConfigMap ticket,
    written w' = written w ++ [(conn, cmd)]
    /\ sharedModels.CommandMessage.Type_ cmd = sharedModels.MessageTypeCommand
    /\ sharedModels.CommandMessage.Action cmd = sharedModels.CommandActionDownloadFile
    /\ sharedModels.CommandMessage.MessageID cmd = TriggerDownloadResponse.UploadID data
    /\ sharedModels.CommandMessage.Payload (sharedModels.receive cmd)
       = sharedModels.Decoded (JObject payloadMap)
    /\ Go.as_object (Go.index payloadMap "upload_config") = Some uploadConfigMap
    /\ handler.parseUploadConfig uploadConfigMap = inl ticket
    /\ sharedModels.UploadConfig.UploadID ticket = TriggerDownloadResponse.UploadID data
    /\ sharedModels.UploadConfig.ChunkSize ticket = Handler.chunkSize h
    /\ sharedModels.UploadConfig.Key ticket = TriggerDownloadResponse.S3Key data
    /\ sharedModels.PresignedURL.PartNumber <$> sharedModels.UploadConfig.PresignedURLs ticket
       = seqZ 1 (s3.ceiling 104857600 (Handler.chunkSize h))
    /\ handler.effective_filePath a payloadMap = commanded_path r.
Proof.
  intros Hchunk Htrigger.
  assert (H53 : 2 ^ 53 = 9007199254740992) by reflexivity. rewrite H53 in Hchunk.
  destruct (TriggerDownload_issued _ _ _ _ _ _ _ Htrigger) as
    (src & mu & client & stamp & began & _ & _ & Hid & _ & Hmu & Hwritten & _).
  cbv zeta in Hid, Hwritten.
  pose proof (fun H1 H2 => InitiateMultipartUpload_parts _ _ _ _ _ _ H1 H2 Hmu) as Hparts.
  destruct Hparts as [Htotal Hparts];
    [cbn; lia | cbn; rewrite estimatedFileSize_eq; split; [lia|reflexivity] | ].
  destruct (InitiateMultipartUpload_fields _ _ _ _ _ _ Hmu) as (Hkey & _ & _).
  cbn [s3.MultipartUploadConfig.Key s3.MultipartUploadConfig.FileSize
       s3.MultipartUploadConfig.ChunkSize] in *.
  rewrite estimatedFileSize_eq in Htotal.
  set (ticket := ticket_of h (TriggerDownloadResponse.UploadID data) mu) in *.
  assert (Hnumbers : sharedModels.PresignedURL.PartNumber
                       <$> sharedModels.UploadConfig.PresignedURLs ticket
                     = seqZ 1 (s3.ceiling 104857600 (Handler.chunkSize h))).
  { subst ticket. unfold ticket_of. cbn [sharedModels.UploadConfig.PresignedURLs].
    rewrite <- list_fmap_compose, <- Htotal, <- Hparts. by apply list_fmap_ext. }
  assert (Hceil : 1 <= s3.ceiling 104857600 (Handler.chunkSize h) <= 104857600).
  { unfold s3.ceiling. split.
    - apply Z.div_le_lower_bound; lia.
    - apply Z.div_le_upper_bound; [lia|]. nia. }
  destruct (parseUploadConfig_wire ticket) as (uploadConfigMap & Hwire & Hparse).
  - subst ticket. cbn [ticket_of sharedModels.UploadConfig.UploadID]. intros Hempty.
    assert (Hlen : String.length (TriggerDownloadResponse.UploadID data) = 32%nat)
      by (rewrite Hid, hex_EncodeToString_length, length_fmap, length_seq; done).
    by rewrite Hempty in Hlen.
  - intros Hnil. rewrite Hnil in Hnumbers. cbn in Hnumbers.
    rewrite seqZ_cons in Hnumbers by lia. done.
  - subst ticket. cbn. rewrite H53. lia.
  - apply Forall_forall. intros u Hu.
    assert (Hin : sharedModels.PresignedURL.PartNumber u
                  ∈ sharedModels.PresignedURL.PartNumber
                      <$> sharedModels.UploadConfig.PresignedURLs ticket)
      by (by apply list_elem_of_fmap_2).
    rewrite Hnumbers in Hin. apply elem_of_seqZ in Hin. rewrite H53. lia.
  - eexists _, _, _, uploadConfigMap, ticket. split; [exact Hwritten|].
    do 3 (split; [done|]). split; [reflexivity|].
    split; [cbn; by rewrite Hwire|]. split; [exact Hparse|].
    split; [done|]. split; [done|]. split; [done|]. split; [exact Hnumbers|].
    unfold handler.effective_filePath. cbn.
    pose proof (commanded_path_nonempty r) as Hpath.
    by destruct (String.eqb_spec (commanded_path r) "").
Qed.

Lemma issued_command_is_accepted_witness :
  exists conn cmd payloadMap uploadConfigMap ticket,
    written scenario.triggered = written scenario.registered ++ [(conn, cmd)]
    /\ sharedModels.CommandMessage.Type_ cmd = sharedModels.MessageTypeCommand
    /\ sharedModels.CommandMessage.Action cmd = sharedModels.CommandActionDownloadFile
    /\ sharedModels.CommandMessage.MessageID cmd = scenario.uploadID
    /\ sharedModels.CommandMessage.Payload (sharedModels.receive cmd)
       = sharedModels.Decoded (JObject payloadMap)
    /\ Go.as_object (Go.index payloadMap "upload_config") = Some uploadConfigMap
    /\ handler.parseUploadConfig uploadConfigMap = inl ticket
    /\ sharedModels.UploadConfig.UploadID ticket = scenario.uploadID
    /\ sharedModels.UploadConfig.ChunkSize ticket = Handler.chunkSize scenario.h
    /\ sharedModels.UploadConfig.Key ticket = scenario.key
    /\ sharedModels.PresignedURL.PartNumber <$> sharedModels.UploadConfig.PresignedURLs ticket
       = seqZ 1 (s3.ceiling 104857600 (Handler.chunkSize scenario.h))
    /\ handler.effective_filePath scenario.agent payloadMap = commanded_path scenario.trigger.
Proof.
  apply (issued_command_is_accepted scenario.env scenario.h scenario.registered
           scenario.trigger 200
           (TriggerDownloadResponse.mk true "Download triggered for client agent-1"
              scenario.uploadID scenario.key)
           scenario.triggered scenario.agent);
    [vm_compute; split; [reflexivity|discriminate] | vm_compute; reflexivity].
Defined.

End Handover.

(** ** Channels: admission and replacement *)

Section Channels.

Import models server api coordinator.

(** X16.  A channel that has been replaced takes its successor down with
    it.  When an agent connects again while its earlier channel is still
    being served, the earlier call of [HandleClient] ends (its connection
    has been closed by the registration of the new one) and its deferred
    [UnregisterClient] removes the agent id, whose entry by then is the
    new channel: the new connection is closed too and the agent is no
    longer registered. *)
Theorem replaced_channel_unregisters_its_successor env w clientID old new :
  let w' := run env w [Enter clientID old; Enter clientID new; Leave clientID] in
  clients w' !! clientID = None
  /\ IsClientConnected w' clientID = false
  /\ closed w'
     = closed w
       ++ match clients w !! clientID with
          | Some before => [ClientConnection.Connection before]
          | None => []
          end
       ++ [old; new]
  /\ uploads w' = uploads w.
Proof.
  cbv zeta. unfold run. cbn [foldl]. unfold step.
  split; [|split; [|split]].
  - by rewrite UnregisterClient_clients, lookup_delete_eq.
  - unfold IsClientConnected. rewrite UnregisterClient_clients, lookup_delete_eq.
    apply bool_decide_eq_false_2. by intros [? ?].
  - rewrite UnregisterClient_closed, !RegisterClient_clients, !RegisterClient_closed,
      RegisterClient_clients, !lookup_insert_eq.
    cbn. by rewrite <- !app_assoc.
  - unfold UnregisterClient, RegisterClient.
    repeat (match goal with |- context [match ?x with _ => _ end] => destruct x end; cbn);
      done.
Qed.

(** X17.  Who [HandleConnect] hands to [HandleClient]: the request must
    name an agent id of 1 to 128 bytes (the query parameter, or the
    [X-Client-ID] header when the parameter is empty) and the upgrade must
    succeed; a token is looked at only when one is presented (the query
    parameter, or a [Bearer] authorization header when the parameter is
    empty) and a token manager is configured, and then it must be valid
    and issued for that same agent id.  A request without a token is
    admitted even when a token manager is configured. *)
Theorem HandleConnect_admits jwt h Upgrade r clientID conn :
  wshandler.HandleConnect jwt h Upgrade r = wshandler.HandleClient clientID conn
  <-> clientID = (if String.eqb (wshandler.Request.client_id r) ""
                  then wshandler.Request.X_Client_ID r
                  else wshandler.Request.client_id r)
      /\ (1 <= String.length clientID <= 128)%nat
      /\ Upgrade = Some conn
      /\ (forall tm,
            wshandler.Handler.tokenManager h = Some tm ->
            wshandler.presented_token r <> "" ->
            exists claims,
              auth.ValidateToken jwt tm (wshandler.presented_token r) = inl claims
              /\ auth.Claims.ClientID claims = clientID).
Proof.
  unfold wshandler.HandleConnect, auth.ValidateClientID.
  set (id := if String.eqb (wshandler.Request.client_id r) ""
             then wshandler.Request.X_Client_ID r else wshandler.Request.client_id r).
  destruct (String.eqb_spec id "") as [Hempty|Hfull].
  { split; [done|]. intros (-> & Hlen & _). rewrite Hempty in Hlen. cbn in Hlen. lia. }
  destruct (Z.ltb_spec 0 (Z.of_nat (String.length id))) as [Hpos|Hzero]; cbn [andb negb].
  2: { split; [done|]. intros (-> & Hlen & _). lia. }
  destruct (Z.leb_spec (Z.of_nat (String.length id)) 128) as [Hmax|Hlong]; cbn [negb].
  2: { split; [done|]. intros (-> & Hlen & _). lia. }
  destruct (wshandler.Handler.tokenManager h) as [tm|].
  - destruct (String.eqb_spec (wshandler.presented_token r) "") as [Hnone|Hsome]; cbn [negb].
    + destruct Upgrade as [c|]; split; try done.
      * intros [= <- <-]. repeat split; try lia. by intros tm' _ ?.
      * by intros (-> & _ & [= ->] & _).
      * by intros (_ & _ & ? & _).
    + destruct (auth.ValidateToken jwt tm _) as [claims|err] eqn:Hvalid.
      * destruct (String.eqb_spec (auth.Claims.ClientID claims) id) as [Hsame|Hother];
          cbn [negb].
        -- destruct Upgrade as [c|]; split; try done.
           ++ intros [= <- <-]. repeat split; try lia.
              intros tm' [= <-] _. by exists claims.
           ++ by intros (-> & _ & [= ->] & _).
           ++ by intros (_ & _ & ? & _).
        -- split; [done|]. intros (-> & _ & _ & Htoken).
           destruct (Htoken tm eq_refl Hsome) as (claims' & Hv & Hid).
           rewrite Hvalid in Hv. injection Hv as <-. done.
      * split; [done|]. intros (_ & _ & _ & Htoken).
        destruct (Htoken tm eq_refl Hsome) as (claims' & Hv & _).
        by rewrite Hvalid in Hv.
  - destruct Upgrade as [c|]; split; try done.
    + intros [= <- <-]. repeat split; try lia. by intros tm' ?.
    + by intros (-> & _ & [= ->] & _).
    + by intros (_ & _ & ? & _).
Qed.

(** X18.  [RefreshToken] issues a token only for an old token that is
    still valid, and then for the agent id of the old token, with the
    manager's issuer and an expiry counted from now.  An expired token is
    not refreshed: the call panics on the nil claims.  Any other token is
    refused as invalid. *)
Theorem RefreshToken_refreshes_only_valid_tokens jwt tm now oldToken expiresIn :
  let secret := auth.TokenManager.secretKey tm in
  match auth.RefreshToken jwt tm now oldToken expiresIn with
  | inl (Returned token) =>
      exists claims,
        auth.ParseWithClaims jwt secret oldToken = auth.Valid claims
        /\ auth.SignedString jwt secret
             (auth.Claims.mk (auth.Claims.ClientID claims) (auth.TokenManager.issuer tm)
                (auth.Claims.ClientID claims) now (now + expiresIn) now)
           = inl token
  | inl (Panicked _) => auth.ParseWithClaims jwt secret oldToken = auth.Expired
  | inl (Failed _) => False
  | inr auth.ErrInvalidToken => auth.ParseWithClaims jwt secret oldToken = auth.Rejected
  | inr auth.ErrExpiredToken => False
  | inr (auth.ErrSigning _) =>
      exists claims, auth.ParseWithClaims jwt secret oldToken = auth.Valid claims
  end.
Proof.
  cbv zeta. unfold auth.RefreshToken, auth.ValidateToken, auth.GenerateToken.
  destruct (auth.ParseWithClaims jwt _ oldToken) as [claims| |]; [|done..].
  destruct (auth.SignedString jwt _ _) as [token|text] eqn:Hsign; by exists claims.
Qed.

End Channels.

(** ** The agent's reconnection *)

Section Waits.

Import wsclient.

Lemma Start_loop_bounds c events :
  0 < Client.reconnectDelay c <= Client.maxReconnect c ->
  Client.maxReconnect c < 2 ^ 62 ->
  forall d,
    Client.reconnectDelay c <= d <= Client.maxReconnect c ->
    Forall (fun wait =>
              Client.reconnectDelay c <= duration wait <= Client.maxReconnect c
              /\ match wait with
                 | Sleep d' => d' = Client.reconnectDelay c
                 | After _ => True
                 end)
      (Start_loop c d events).1
    /\ Client.reconnectDelay c <= (Start_loop c d events).2 <= Client.maxReconnect c.
Proof.
  intros Hbase Hcap. induction events as [|e events IH]; intros d Hd; [by split|].
  destruct e as [|[]|[]]; cbn [Start_loop].
  - by split.
  - assert (Hnext : Client.reconnectDelay c <= backoff c d <= Client.maxReconnect c)
      by (rewrite backoff_doubles by lia; lia).
    specialize (IH _ Hnext).
    destruct (Start_loop c (backoff c d) events) as [waits final]. cbn in *.
    destruct IH as [IHw IHf]. split; [|done]. constructor; [|done]. cbn. by split.
  - split; [|done]. constructor; [|done]. cbn. by split.
  - split; [done|]. cbn. lia.
  - specialize (IH (Client.reconnectDelay c) ltac:(lia)).
    destruct (Start_loop c (Client.reconnectDelay c) events) as [waits final]. cbn in *.
    destruct IH as [IHw IHf]. split; [|done]. constructor; [|done]. cbn. split; [lia|done].
Qed.

(** X19.  Whatever happens to the agent's channel, in whatever order
    (dials that fail, sessions that drop, stops), every wait [Start] makes
    before it tries again lies between the configured delay and the
    configured maximum, and after a session that dropped it is the
    configured delay itself: the delay never grows past the cap, never
    falls below the start and never wraps around. *)
Theorem Start_waits_within_bounds c events :
  0 < Client.reconnectDelay c <= Client.maxReconnect c ->
  Client.maxReconnect c < 2 ^ 62 ->
  Forall (fun wait =>
            Client.reconnectDelay c <= duration wait <= Client.maxReconnect c
            /\ match wait with
               | Sleep d => d = Client.reconnectDelay c
               | After _ => True
               end)
    (Start c events).1.
Proof.
  intros Hbase Hcap. apply (Start_loop_bounds c events Hbase Hcap). lia.
Qed.

Lemma Start_waits_within_bounds_witness :
  Forall (fun wait =>
            Client.reconnectDelay (NewClient (Config.mk 0 0)) <= duration wait
            <= Client.maxReconnect (NewClient (Config.mk 0 0))
            /\ match wait with
               | Sleep d => d = Client.reconnectDelay (NewClient (Config.mk 0 0))
               | After _ => True
               end)
    (Start (NewClient (Config.mk 0 0))
       [DialFailed true; DialFailed true; Session false; DialFailed true; Stopped]).1.
Proof.
  apply (Start_waits_within_bounds (NewClient (Config.mk 0 0))
           [DialFailed true; DialFailed true; Session false; DialFailed true; Stopped]);
    [vm_compute; split; [reflexivity|discriminate] | reflexivity].
Defined.

End Waits.

(** ** Transfer ids *)

Section Identifiers.

Import models server api.

Lemma hex_digit_in n : Go.hex_digit n ∈ String.list_ascii_of_string "0123456789abcdef".
Proof.
  unfold Go.hex_digit. generalize (N.to_nat n). intros k.
  apply list_elem_of_In.
  do 16 (destruct k as [|k]; [cbn; tauto|]). cbn. tauto.
Qed.

Lemma hex_EncodeToString_digits bs :
  Forall (fun c => c ∈ String.list_ascii_of_string "0123456789abcdef")
    (String.list_ascii_of_string (Go.hex_EncodeToString bs)).
Proof.
  induction bs as [|b bs IH]; [constructor|].
  cbn [Go.hex_EncodeToString String.list_ascii_of_string].
  constructor; [apply hex_digit_in|]. constructor; [apply hex_digit_in|done].
Qed.

Lemma hex_byte_value b :
  let v := fun c => let n := Ascii.N_of_ascii c in
                    if (n <? 58)%N then (n - 48)%N else (n - 87)%N in
  (v (Go.hex_digit (Byte.to_N b / 16)) * 16 + v (Go.hex_digit (Byte.to_N b mod 16))
   = Byte.to_N b)%N.
Proof. destruct b; vm_compute; reflexivity. Qed.

Lemma hex_EncodeToString_inj bs bs' :
  Go.hex_EncodeToString bs = Go.hex_EncodeToString bs' -> bs = bs'.
Proof.
  revert bs'. induction bs as [|b bs IH]; intros [|b' bs']; cbn [Go.hex_EncodeToString];
    try done.
  intros [= H1 H2 Hrest].
  pose proof (hex_byte_value b) as Hb. pose proof (hex_byte_value b') as Hb'.
  cbv zeta in Hb, Hb'. rewrite H1, H2, Hb' in Hb.
  assert (Some b' = Some b) as [= ->]
    by (rewrite <- (Byte.of_to_N b), <- (Byte.of_to_N b'); by rewrite Hb).
  f_equal. by apply IH.
Qed.

#[local] Arguments Go.hex_EncodeToString : simpl never.

(** X20.  A transfer id is 32 characters, each a digit or a letter from
    a to f, and it is the random bytes written out: two ids drawn in two
    states are equal only if the sixteen bytes read from the random
    source were the same. *)
Theorem generateUploadID_spells_the_random_bytes env w1 w2 id1 id2 w1' w2' :
  generateUploadID env w1 = (Some id1, w1') ->
  generateUploadID env w2 = (Some id2, w2') ->
  String.length id1 = 32%nat
  /\ Forall (fun c => c ∈ String.list_ascii_of_string "0123456789abcdef")
       (String.list_ascii_of_string id1)
  /\ (id1 = id2 ->
      exists src1 src2,
        rand_Read env (draws w1) = Some src1 /\ rand_Read env (draws w2) = Some src2
        /\ src1 <$> seq 0 16 = src2 <$> seq 0 16).
Proof.
  unfold generateUploadID, Read.
  destruct (rand_Read env (draws w1)) as [src1|]; [|discriminate].
  destruct (rand_Read env (draws w2)) as [src2|]; [|discriminate].
  cbn [option_map]. intros [= <- _] [= <- _]. split; [|split].
  - by rewrite hex_EncodeToString_length.
  - apply hex_EncodeToString_digits.
  - intros Hsame%hex_EncodeToString_inj. by exists src1, src2.
Qed.

Lemma generateUploadID_spells_the_random_bytes_witness :
  String.length scenario.uploadID = 32%nat
  /\ Forall (fun c => c ∈ String.list_ascii_of_string "0123456789abcdef")
       (String.list_ascii_of_string scenario.uploadID)
  /\ (scenario.uploadID = scenario.uploadID ->
      exists src1 src2,
        rand_Read scenario.env (draws scenario.registered) = Some src1
        /\ rand_Read scenario.env (draws scenario.triggered) = Some src2
        /\ src1 <$> seq 0 16 = src2 <$> seq 0 16).
Proof.
  apply (generateUploadID_spells_the_random_bytes scenario.env scenario.registered
           scenario.triggered scenario.uploadID scenario.uploadID
           (generateUploadID scenario.env scenario.registered).2
           (generateUploadID scenario.env scenario.triggered).2);
    vm_compute; reflexivity.
Defined.

(** X21.  A handler made by [NewHandler] from a chunk size that is not
    negative (zero standing for the default of 5 MB) never makes
    [TriggerDownload] panic: every request is answered. *)
Theorem TriggerDownload_answers_with_a_sane_chunk env c cfg w r :
  0 <= Config.ChunkSize cfg ->
  match (TriggerDownload env (NewHandler c cfg) w r).1 with
  | aborted _ => False
  | sendError _ _ | sendJSON _ _ => True
  end.
Proof.
  intros Hchunk.
  assert (Hpos : 0 < Handler.chunkSize (NewHandler c cfg)).
  { unfold NewHandler. cbn. destruct (Z.eqb_spec (Config.ChunkSize cfg) 0); lia. }
  unfold TriggerDownload, generateUploadID, Read, SendCommand, GetClient, IsClientConnected.
  destruct (negb (String.eqb _ "POST")); [done|].
  destruct (_ || _); [done|].
  case_bool_decide as Hc; simpl; [|done].
  destruct Hc as [client Hc].
  destruct (rand_Read env (draws w)) as [src|]; simpl; [|done].
  destruct (s3.InitiateMultipartUpload _ _ _ _) as [[mu|err|why'] log] eqn:Hmu; simpl.
  - rewrite Hc. simpl. by destruct (WriteJSON env _ _).
  - done.
  - eapply InitiateMultipartUpload_no_panic; [| |exact Hmu].
    + cbn. destruct (Z.eqb_spec (Config.ChunkSize cfg) 0); lia.
    + cbn. rewrite estimatedFileSize_eq. split; [lia|reflexivity].
Qed.

Lemma TriggerDownload_answers_with_a_sane_chunk_witness :
  match (TriggerDownload scenario.env
           (NewHandler (s3.Client.mk "file-download-system-uploads" "us-east-1" 900)
              (Config.mk 0 ""))
           scenario.registered scenario.trigger).1 with
  | aborted _ => False
  | sendError _ _ | sendJSON _ _ => True
  end.
Proof.
  apply (TriggerDownload_answers_with_a_sane_chunk scenario.env
           (s3.Client.mk "file-download-system-uploads" "us-east-1" 900) (Config.mk 0 "")
           scenario.registered scenario.trigger).
  cbn. lia.
Defined.

End Identifiers.

(** ** The registry as the operator and the orchestrator see it *)

Section Registry_views.

Import models server api.

(** X22.  [ListClients] lists the agents that are connected, each of
    them once and no other id, and the count it gives is their number. *)
Theorem ListClients_lists_the_connected w q :
  Request.Method q = "GET" ->
  exists clientIDs,
    ListClients w q = statusJSON 200 (clientIDs, Z.of_nat (size (clients w)))
    /\ NoDup clientIDs
    /\ forall clientID, clientID ∈ clientIDs <-> IsClientConnected w clientID = true.
Proof.
  intros Hmethod. unfold ListClients, GetAllClients, IsClientConnected. rewrite Hmethod.
  replace (String.eqb "GET" "GET") with true by done. cbn [negb].
  eexists. split; [|split].
  - by rewrite length_fmap, length_map_to_list.
  - apply NoDup_fst_map_to_list.
  - intros clientID. rewrite bool_decide_eq_true. split.
    + intros ([id c] & -> & Hin%elem_of_map_to_list)%list_elem_of_fmap. by exists c.
    + intros [c Hc]. apply list_elem_of_fmap. exists (clientID, c).
      split; [done|]. by apply elem_of_map_to_list.
Qed.

Lemma ListClients_lists_the_connected_witness :
  exists clientIDs,
    ListClients scenario.registered (Request.mk "GET" "/clients" None)
    = statusJSON 200 (clientIDs, Z.of_nat (size (clients scenario.registered)))
    /\ NoDup clientIDs
    /\ forall clientID,
         clientID ∈ clientIDs <-> IsClientConnected scenario.registered clientID = true.
Proof.
  apply (ListClients_lists_the_connected scenario.registered
           (Request.mk "GET" "/clients" None)).
  reflexivity.
Defined.

(** X23.  [SendCommand] writes one frame or none.  When it reports no
    error, exactly one frame has been written, to the connection the
    registry holds for the agent; the frame is typed [command] and stamped
    by the coordinator, whatever type and time the caller had put in, and
    carries the caller's id, action and payload; the agent stays registered
    on the same connection.  When it reports an error nothing has been
    written and the registry is as before; for an agent that is not
    registered nothing at all has changed.  In no case is a connection
    closed, a record touched or the blob store asked anything. *)
Theorem SendCommand_writes_one_frame_or_none env w clientID cmd :
  let '(err, w') := SendCommand env w clientID cmd in
  uploads w' = uploads w /\ requests w' = requests w /\ closed w' = closed w
  /\ match err with
     | None =>
         exists client stamp later,
           clients w !! clientID = Some client
           /\ written w'
              = written w
                ++ [(ClientConnection.Connection client,
                     sharedModels.CommandMessage.mk sharedModels.MessageTypeCommand stamp
                       (sharedModels.CommandMessage.MessageID cmd)
                       (sharedModels.CommandMessage.Action cmd)
                       (sharedModels.CommandMessage.Payload cmd))]
           /\ clients w' = <[clientID := UpdateActivity client later]> (clients w)
     | Some text =>
         written w' = written w /\ clients w' = clients w
         /\ (clients w !! clientID = None ->
             w' = w /\ text = "client " +:+ clientID +:+ " not connected")
     end.
Proof.
  unfold SendCommand, GetClient.
  destruct (clients w !! clientID) as [client|] eqn:Hclient; [|done].
  cbn [Now]. destruct (WriteJSON env _ _) as [text|]; cbn.
  - by repeat split.
  - repeat split. by eexists client, _, _.
Qed.

End Registry_views.

(** ** Progress on a record *)

Section Progress.

Import models.

Local Abbreviation updated u updates :=
  (foldl (fun record (update : Z * string * Z) =>
            UpdateProgress record update.1.1 update.1.2 update.2) u updates).

Lemma UpdateProgress_etags u partNumber etag bytesUploaded :
  UploadStatus.ETags (UpdateProgress u partNumber etag bytesUploaded)
  = <[partNumber := etag]> (UploadStatus.ETags u).
Proof. done. Qed.

Lemma UpdateProgress_status u partNumber etag bytesUploaded :
  UploadStatus.Status (UpdateProgress u partNumber etag bytesUploaded)
  = match UploadStatus.Status u with
    | UploadStatePending => UploadStateInProgress
    | s => s
    end.
Proof. done. Qed.

Lemma updated_invariant u0 updates :
  UploadStatus.CompletedParts u0 = Z.of_nat (size (UploadStatus.ETags u0)) ->
  Z.of_nat (size (UploadStatus.ETags u0)) + Z.of_nat (length updates) < 2 ^ 63 ->
  let u := updated u0 updates in
  UploadStatus.CompletedParts u = Z.of_nat (size (UploadStatus.ETags u))
  /\ (size (UploadStatus.ETags u) <= size (UploadStatus.ETags u0) + length updates)%nat
  /\ (forall p, is_Some (UploadStatus.ETags u !! p)
                <-> is_Some (UploadStatus.ETags u0 !! p) \/ p ∈ updates.*1.*1).
Proof.
  induction updates as [|[[p e] b] updates IH] using rev_ind; intros Hstart Hmax.
  - cbn. split; [done|]. split; [lia|]. intros p. rewrite elem_of_nil. tauto.
  - rewrite length_app in Hmax. cbn [length] in Hmax.
    destruct IH as (Hcount & Hsize & Hdom); [done|lia|].
    cbv zeta. rewrite foldl_app. cbn [foldl fst snd].
    set (u := updated u0 updates) in *.
    split; [|split].
    + apply UpdateProgress_counts; [done|]. rewrite Hcount. lia.
    + rewrite UpdateProgress_etags, length_app. cbn [length].
      destruct (UploadStatus.ETags u !! p) eqn:Hp.
      * rewrite map_size_insert_Some by done. lia.
      * rewrite map_size_insert_None by done. lia.
    + intros q. rewrite UpdateProgress_etags, lookup_insert_is_Some, Hdom.
      rewrite !fmap_app, elem_of_app. cbn. rewrite list_elem_of_singleton.
      destruct (decide (p = q)); intuition congruence.
Qed.

(** X24.  However often and in whatever order parts are reported to
    [UpdateProgress] on a fresh record, the count of completed parts is
    the number of different part numbers reported, not the number of
    reports: a part reported twice counts once and keeps the later
    digest; the record is in progress from the first report on and holds
    the byte count of the last one. *)
Theorem UpdateProgress_counts_each_part_once uploadID clientID filePath bucket key
    fileSize chunkSize totalParts now updates :
  Z.of_nat (length updates) < 2 ^ 63 ->
  let u :=
    updated (NewUploadStatus uploadID clientID filePath bucket key fileSize chunkSize
               totalParts now) updates in
  UploadStatus.CompletedParts u = Z.of_nat (size (UploadStatus.ETags u))
  /\ (forall p, is_Some (UploadStatus.ETags u !! p) <-> p ∈ updates.*1.*1)
  /\ (forall p e b, last updates = Some (p, e, b) ->
        UploadStatus.ETags u !! p = Some e
        /\ UploadStatus.BytesUploaded u = b
        /\ UploadStatus.Status u = UploadStateInProgress).
Proof.
  intros Hmax.
  pose proof (updated_invariant
                (NewUploadStatus uploadID clientID filePath bucket key fileSize chunkSize
                   totalParts now) updates) as Hinv.
  cbn [NewUploadStatus UploadStatus.CompletedParts UploadStatus.ETags] in Hinv.
  rewrite map_size_empty in Hinv.
  destruct Hinv as (Hcount & _ & Hdom); [done|lia|].
  cbv zeta. split; [done|]. split.
  - intros p. rewrite Hdom, lookup_empty. split; [intros [[? ?]|?]; done|by right].
  - intros p e b Hlast. apply last_Some in Hlast as [before ->].
    rewrite foldl_app. cbn [foldl fst snd].
    split; [by rewrite UpdateProgress_etags, lookup_insert_eq|]. split; [done|].
    assert (Hopen :
      UploadStatus.Status
        (updated (NewUploadStatus uploadID clientID filePath bucket key fileSize chunkSize
                    totalParts now) before) = UploadStatePending
      \/ UploadStatus.Status
           (updated (NewUploadStatus uploadID clientID filePath bucket key fileSize chunkSize
                       totalParts now) before) = UploadStateInProgress).
    { clear. induction before as [|[[p' e'] b'] before IH] using rev_ind; [by left|].
      rewrite foldl_app. cbn [foldl fst snd]. rewrite UpdateProgress_status.
      right. by destruct IH as [-> | ->]. }
    rewrite UpdateProgress_status. by destruct Hopen as [-> | ->].
Qed.

Lemma UpdateProgress_counts_each_part_once_witness :
  UploadStatus.CompletedParts
    (updated (NewUploadStatus "t" "agent-1" "/data/note.txt" "b" "k" 10 4 3 0)
       [(1, "a", 4); (2, "b", 8); (1, "c", 8)])
  = Z.of_nat (size (UploadStatus.ETags
                      (updated (NewUploadStatus "t" "agent-1" "/data/note.txt" "b" "k" 10 4 3 0)
                         [(1, "a", 4); (2, "b", 8); (1, "c", 8)])))
  /\ (forall p,
        is_Some (UploadStatus.ETags
                   (updated (NewUploadStatus "t" "agent-1" "/data/note.txt" "b" "k" 10 4 3 0)
                      [(1, "a", 4); (2, "b", 8); (1, "c", 8)]) !! p)
        <-> p ∈ [(1, "a", 4); (2, "b", 8); (1, "c", 8)].*1.*1)
  /\ (forall p e b,
        last [(1, "a", 4); (2, "b", 8); (1, "c", 8)] = Some (p, e, b) ->
        UploadStatus.ETags
          (updated (NewUploadStatus "t" "agent-1" "/data/note.txt" "b" "k" 10 4 3 0)
             [(1, "a", 4); (2, "b", 8); (1, "c", 8)]) !! p
        = Some e
        /\ UploadStatus.BytesUploaded
             (updated (NewUploadStatus "t" "agent-1" "/data/note.txt" "b" "k" 10 4 3 0)
                [(1, "a", 4); (2, "b", 8); (1, "c", 8)])
           = b
        /\ UploadStatus.Status
             (updated (NewUploadStatus "t" "agent-1" "/data/note.txt" "b" "k" 10 4 3 0)
                [(1, "a", 4); (2, "b", 8); (1, "c", 8)])
           = UploadStateInProgress).
Proof.
  apply (UpdateProgress_counts_each_part_once "t" "agent-1" "/data/note.txt" "b" "k" 10 4 3 0
           [(1, "a", 4); (2, "b", 8); (1, "c", 8)]).
  reflexivity.
Defined.

End Progress.
